(** * Personal-training assignment controller and invoice numbering

    A shallow embedding of the Express controller for personal-training
    assignments (create / update / delete / renew / list / expiring) and of
    the Mongoose [Invoice] model with its invoice-number hooks; then of the
    booking routes with the [Booking] schema, and of the member routes.

    Conventions of the embedding:
    - a JavaScript [Date] is its time value, an integer number of
      milliseconds since the epoch ([Z]); the [Date.prototype] methods used
      by the controller follow the ECMAScript definitions ([MakeDay],
      [MakeDate], [YearFromTime], ...), with a constant local time-zone offset
      [LocalTZA] (no daylight saving) and without [TimeClip];
    - JavaScript numbers that the controller receives (duration, fees) are
      integers ([Z]); only [unitPrice], a quotient, is a rational; the
      number that the invoice hooks parse and increment has no bound and is
      a double ([JSNumber]);
    - an ObjectId is a natural number; the [:id] of a path is text, [None]
      when that text is no ObjectId, in which case the query on [_id]
      rejects with a CastError; the fields of a request body have the types
      of their schema paths;
    - a collection is the list of its documents in insertion order;
    - an [await]ed driver call that rejects is an exception of the handler,
      caught by its [catch] and answered with status 500; writes made before
      it stay. *)

From Stdlib Require Import ZArith NArith List String Ascii Bool Lia QArith
  Sorted Permutation.
Import ListNotations.

Open Scope Z_scope.

(** ** ECMAScript dates *)

Module JSDate.

Definition msPerDay : Z := 86400000.

Definition Day (t : Z) : Z := t / msPerDay.

Definition TimeWithinDay (t : Z) : Z := t mod msPerDay.

Definition DaysInYear (y : Z) : Z :=
  if negb (y mod 4 =? 0) then 365
  else if negb (y mod 100 =? 0) then 366
  else if negb (y mod 400 =? 0) then 365
  else 366.

Definition DayFromYear (y : Z) : Z :=
  365 * (y - 1970) + (y - 1969) / 4 - (y - 1901) / 100 + (y - 1601) / 400.

Definition TimeFromYear (y : Z) : Z := msPerDay * DayFromYear y.

(** The largest [y] with [TimeFromYear y <= t]: a first guess from the mean
    length of a year, corrected by at most one year. *)
Definition YearFromTime (t : Z) : Z :=
  let d := Day t in
  let y := 1970 + (400 * d) / 146097 in
  if d <? DayFromYear y then y - 1
  else if DayFromYear (y + 1) <=? d then y + 1
  else y.

Definition InLeapYearOf (y : Z) : Z :=
  if DaysInYear y =? 366 then 1 else 0.

Definition InLeapYear (t : Z) : Z := InLeapYearOf (YearFromTime t).

Definition DayWithinYear (t : Z) : Z := Day t - DayFromYear (YearFromTime t).

Definition MonthFromTime (t : Z) : Z :=
  let d := DayWithinYear t in
  let l := InLeapYear t in
  if d <? 31 then 0
  else if d <? 59 + l then 1
  else if d <? 90 + l then 2
  else if d <? 120 + l then 3
  else if d <? 151 + l then 4
  else if d <? 181 + l then 5
  else if d <? 212 + l then 6
  else if d <? 243 + l then 7
  else if d <? 273 + l then 8
  else if d <? 304 + l then 9
  else if d <? 334 + l then 10
  else 11.

(** Number of days of the year before the first of month [m] (0-based). *)
Definition DayBeforeMonth (m l : Z) : Z :=
  match m with
  | 0 => 0
  | 1 => 31
  | 2 => 59 + l
  | 3 => 90 + l
  | 4 => 120 + l
  | 5 => 151 + l
  | 6 => 181 + l
  | 7 => 212 + l
  | 8 => 243 + l
  | 9 => 273 + l
  | 10 => 304 + l
  | _ => 334 + l
  end.

Definition DateFromTime (t : Z) : Z :=
  DayWithinYear t - DayBeforeMonth (MonthFromTime t) (InLeapYear t) + 1.

Definition MakeTime (hour min sec ms : Z) : Z :=
  hour * 3600000 + min * 60000 + sec * 1000 + ms.

(** [MakeDay]: the day number of the first of month [month mod 12] of year
    [year + month / 12], plus [date - 1]; months and dates out of range carry
    over. *)
Definition MakeDay (year month date : Z) : Z :=
  let ym := year + month / 12 in
  let mn := month mod 12 in
  DayFromYear ym + DayBeforeMonth mn (InLeapYearOf ym) + date - 1.

Definition MakeDate (day time : Z) : Z := day * msPerDay + time.

(** [Date.UTC(year, month, date)] at midnight, used to write dates down. *)
Definition ymd (year month date : Z) : Z := MakeDate (MakeDay year month date) 0.

Section Local.

Variable LocalTZA : Z.

Definition LocalTime (t : Z) : Z := t + LocalTZA.

Definition UTC (t : Z) : Z := t - LocalTZA.

Definition getMonth (t : Z) : Z := MonthFromTime (LocalTime t).

Definition getDate (t : Z) : Z := DateFromTime (LocalTime t).

Definition setMonth (t month : Z) : Z :=
  let lt := LocalTime t in
  UTC (MakeDate (MakeDay (YearFromTime lt) month (DateFromTime lt))
                (TimeWithinDay lt)).

Definition setDate (t date : Z) : Z :=
  let lt := LocalTime t in
  UTC (MakeDate (MakeDay (YearFromTime lt) (MonthFromTime lt) date)
                (TimeWithinDay lt)).

Definition setHours (t hour min sec ms : Z) : Z :=
  let lt := LocalTime t in
  UTC (MakeDate (Day lt) (MakeTime hour min sec ms)).

End Local.

End JSDate.

(** ** JavaScript strings and numbers *)

Module JSString.

Open Scope string_scope.

Definition is_digit (c : ascii) : bool :=
  let n := N_of_ascii c in ((48 <=? n) && (n <=? 57))%N.

Definition digit_char (d : N) : ascii := ascii_of_N (48 + d).

(** [String(n)] for a non-negative integer: its decimal digits, most
    significant first, produced from the least significant one. *)
Fixpoint digits_from (fuel : nat) (n : N) (acc : string) : string :=
  match fuel with
  | O => acc
  | S fuel' =>
      let acc' := String (digit_char (n mod 10)) acc in
      if (n / 10 =? 0)%N then acc' else digits_from fuel' (n / 10) acc'
  end.

Definition String_of_N (n : N) : string :=
  digits_from (S (N.to_nat (N.log2 n))) n "".

(** [String(z)] for an integer. *)
Definition String_of_Z (z : Z) : string :=
  match z with
  | Zneg p => String "-" (String_of_N (Npos p))
  | _ => String_of_N (Z.to_N z)
  end.

(** The value of the leading decimal digits of [s], continuing from [acc]. *)
Fixpoint parse_digits (s : string) (acc : N) : N :=
  match s with
  | String c r =>
      if is_digit c then parse_digits r (10 * acc + (N_of_ascii c - 48))%N
      else acc
  | EmptyString => acc
  end.

(** [parseInt(s, 10)] on a string without sign or leading blanks: [None] is
    [NaN]. *)
Definition parseInt10 (s : string) : option N :=
  match s with
  | String c _ => if is_digit c then Some (parse_digits s 0) else None
  | EmptyString => None
  end.

Fixpoint repeat_char (c : ascii) (n : nat) : string :=
  match n with
  | O => ""
  | S n' => String c (repeat_char c n')
  end.

(** [s.padStart(targetLength, c)] with a one-character filler. *)
Definition padStart (targetLength : nat) (c : ascii) (s : string) : string :=
  repeat_char c (targetLength - length s) ++ s.

(** The longest prefix of [s] made of digits. *)
Fixpoint take_digits (s : string) : string :=
  match s with
  | String c r => if is_digit c then String c (take_digits r) else ""
  | EmptyString => ""
  end.

(** [s] without its prefix [p], when it starts with [p]. *)
Fixpoint strip_prefix (p s : string) : option string :=
  match p, s with
  | EmptyString, _ => Some s
  | String a p', String b s' => if Ascii.eqb a b then strip_prefix p' s' else None
  | String _ _, EmptyString => None
  end.

(** [INV(\d+)] matched at the start of [s]: the digits, taken greedily. *)
Definition capture_INV_at (s : string) : option string :=
  match strip_prefix "INV" s with
  | Some t =>
      match take_digits t with
      | EmptyString => None
      | d => Some d
      end
  | None => None
  end.

(** [s.match(/INV(\d+)/)]: the first capture group of the leftmost match;
    [None] when the pattern does not occur. *)
Fixpoint match_INV (s : string) : option string :=
  match capture_INV_at s with
  | Some d => Some d
  | None =>
      match s with
      | EmptyString => None
      | String _ r => match_INV r
      end
  end.

Fixpoint all_digits (s : string) : bool :=
  match s with
  | EmptyString => true
  | String c r => is_digit c && all_digits r
  end.

(** [/Personal Training/.test(s)]: [s] contains the text. *)
Fixpoint contains (pat s : string) : bool :=
  prefix pat s ||
  match s with
  | EmptyString => false
  | String _ r => contains pat r
  end.

End JSString.

(** The numbers of the invoice hooks are doubles.  The hooks only reach
    [NaN], [Infinity] and the non-negative integers that are doubles: those
    below [2 ^ 53], and above them the integers with 53 significant bits. *)
Module JSNumber.

Open Scope string_scope.
Open Scope N_scope.

Inductive t : Type :=
| NaN
| Infinity
| Finite (n : N).

(** The double nearest to the integer [v], ties to the even significand;
    [Infinity] from [2 ^ 1024 - 2 ^ 970] on. *)
Definition nearest (v : N) : t :=
  if v <? 2 ^ 53 then Finite v
  else
    let e := N.log2 v - 52 in
    let q := N.shiftr v e in
    let r := v mod 2 ^ e in
    let half := 2 ^ (e - 1) in
    let q' := if (half <? r) || ((r =? half) && N.odd q) then q + 1 else q in
    let d := N.shiftl q' e in
    if d <? 2 ^ 1024 then Finite d else Infinity.

(** [parseInt(s, 10)] of a string of digits: the double nearest to the
    integer written (beyond twenty digits the language leaves the last
    digits to the implementation; the nearest double is what V8 gives). *)
Definition parseInt10 (s : string) : t :=
  match JSString.parseInt10 s with
  | Some v => nearest v
  | None => NaN
  end.

(** [x + 1]: the sum, rounded. *)
Definition succ (x : t) : t :=
  match x with
  | Finite n => nearest (n + 1)
  | _ => x
  end.

(** [x === v] *)
Definition equals (x : t) (v : N) : bool :=
  match x with
  | Finite n => n =? v
  | _ => false
  end.

(** The decimal with the fewest significant digits that names the double
    [v], an integer of [n] digits: for 1, 2, ... up to 17 digits, the
    multiples of the power of ten next to [v], the nearer one first. *)
Fixpoint shortest_among (digits : list nat) (n : nat) (v : N) : N :=
  match digits with
  | [] => v
  | k :: rest =>
      let unit := 10 ^ N.of_nat (n - k) in
      let lo := v / unit * unit in
      let hi := lo + unit in
      let lo_first :=
        (v - lo <? hi - v) || ((v - lo =? hi - v) && N.even (v / unit)) in
      let c1 := if lo_first then lo else hi in
      let c2 := if lo_first then hi else lo in
      if equals (nearest c1) v then c1
      else if equals (nearest c2) v then c2
      else shortest_among rest n v
  end.

Definition shortest (v : N) : N :=
  shortest_among (seq 1 17) (String.length (JSString.String_of_N v)) v.

(** The digits of [s] without the zeros at its end. *)
Fixpoint strip_zeros (s : string) : string :=
  match s with
  | EmptyString => ""
  | String c r =>
      match strip_zeros r with
      | EmptyString => if Ascii.eqb c "0" then "" else String c ""
      | r' => String c r'
      end
  end.

(** [d.ddde+n] *)
Definition exponential (c : N) : string :=
  let ds := JSString.String_of_N c in
  let e := JSString.String_of_N (N.of_nat (String.length ds - 1)) in
  match strip_zeros ds with
  | String d EmptyString => String d ("e+" ++ e)
  | String d r => String d ("." ++ r ++ "e+" ++ e)
  | EmptyString => "0"
  end.

(** [String(x)]: an integer below [2 ^ 53] is written out; above, the
    shortest decimal that names the double, with zeros for the digits it
    leaves out, and in exponential notation from [10 ^ 21] on. *)
Definition toString (x : t) : string :=
  match x with
  | NaN => "NaN"
  | Infinity => "Infinity"
  | Finite v =>
      if v <? 2 ^ 53 then JSString.String_of_N v
      else
        let c := shortest v in
        if c <? 10 ^ 21 then JSString.String_of_N c else exponential c
  end.

End JSNumber.

(** ** Documents

    The schema of [Invoice] is the one of the model file.  The schemas of
    the assignment, customer, trainer and transaction models are not among
    the sources: their documents carry the fields the controller reads and
    writes, and what their validators accept is a parameter of the
    controller ([validAssignment], [validTransaction] below). *)

Definition ObjectId : Type := N.

Bind Scope N_scope with ObjectId.

Definition Date : Type := Z.

Module InvoiceItem.
Record t : Type := mk
  { description : string;
    quantity : Z;
    unitPrice : Q;
    amount : Z }.
End InvoiceItem.

Module Invoice.
Record t : Type := mk
  { _id : ObjectId;
    userId : ObjectId;
    gymId : ObjectId;
    bookingId : option ObjectId;
    customerId : ObjectId;
    invoiceNumber : string;
    amount : Z;
    currency : string;
    dueDate : Date;
    items : list InvoiceItem.t;
    notes : option string;
    createdAt : Date;
    updatedAt : Date }.

Definition set_invoiceNumber (n : string) (i : t) : t :=
  mk (_id i) (userId i) (gymId i) (bookingId i) (customerId i) n (amount i)
     (currency i) (dueDate i) (items i) (notes i) (createdAt i) (updatedAt i).

Definition set_updatedAt (d : Date) (i : t) : t :=
  mk (_id i) (userId i) (gymId i) (bookingId i) (customerId i)
     (invoiceNumber i) (amount i) (currency i) (dueDate i) (items i) (notes i)
     (createdAt i) d.

(** The four assignments of [updateAssignment] to the found invoice. *)
Definition set_billing (a : Z) (due : Date) (its : list InvoiceItem.t)
    (n : string) (i : t) : t :=
  mk (_id i) (userId i) (gymId i) (bookingId i) (customerId i)
     (invoiceNumber i) a (currency i) due its (Some n) (createdAt i)
     (updatedAt i).
End Invoice.

Module Transaction.
Record t : Type := mk
  { _id : ObjectId;
    userId : ObjectId;
    gymId : ObjectId;
    invoiceId : option ObjectId;
    transactionType : string;
    transactionDate : Date;
    amount : Z;
    paymentMode : string;
    membershipType : option string;
    description : string;
    status : string;
    createdAt : Date }.

(** The three assignments of [updateAssignment] to the found transaction. *)
Definition set_payment (a : Z) (d : string) (on : Date) (x : t) : t :=
  mk (_id x) (userId x) (gymId x) (invoiceId x) (transactionType x) on a
     (paymentMode x) (membershipType x) d (status x) (createdAt x).
End Transaction.

Module Assignment.
Record t : Type := mk
  { _id : ObjectId;
    customerId : ObjectId;
    trainerId : ObjectId;
    gymId : ObjectId;
    startDate : Date;
    duration : Z;
    endDate : Date;
    fees : Z }.
End Assignment.

Module Trainer.
Record t : Type := mk
  { _id : ObjectId;
    name : string;
    email : string;
    phone : option string }.
End Trainer.

(** What [populate] puts in place of a reference. *)
Module Person.
Record t : Type := mk
  { _id : ObjectId;
    name : string;
    email : string;
    phone : option string }.
End Person.

(** A path of a document that [populate] may have replaced: still the
    reference, or the referenced document ([None] when there is none, the
    JavaScript [null]). *)
Inductive Ref : Type :=
| Unpopulated
| Populated (doc : option Person.t).

(** An assignment as the queries return it, after [populate]. *)
Module Populated.
Record t : Type := mk
  { doc : Assignment.t;
    customerId : Ref;
    trainerId : Ref }.
End Populated.

Module Customer.
Record t : Type := mk
  { _id : ObjectId;
    name : string;
    email : string;
    phone : option string;
    totalSpent : Z;
    personalTrainer : option Populated.t }.

Definition set_personalTrainer (p : option Populated.t) (c : t) : t :=
  mk (_id c) (name c) (email c) (phone c) (totalSpent c) p.

Definition inc_totalSpent (by_ : Z) (c : t) : t :=
  mk (_id c) (name c) (email c) (phone c) (totalSpent c + by_)
     (personalTrainer c).
End Customer.

(** ** The document store *)

Record Store : Type := mkStore
  { assignments : list Assignment.t;
    customers : list Customer.t;
    trainers : list Trainer.t;
    invoices : list Invoice.t;
    transactions : list Transaction.t;
    nextId : ObjectId }.

Definition set_assignments (l : list Assignment.t) (s : Store) : Store :=
  mkStore l (customers s) (trainers s) (invoices s) (transactions s) (nextId s).

Definition set_customers (l : list Customer.t) (s : Store) : Store :=
  mkStore (assignments s) l (trainers s) (invoices s) (transactions s) (nextId s).

Definition set_invoices (l : list Invoice.t) (s : Store) : Store :=
  mkStore (assignments s) (customers s) (trainers s) l (transactions s) (nextId s).

Definition set_transactions (l : list Transaction.t) (s : Store) : Store :=
  mkStore (assignments s) (customers s) (trainers s) (invoices s) l (nextId s).

Definition set_nextId (n : ObjectId) (s : Store) : Store :=
  mkStore (assignments s) (customers s) (trainers s) (invoices s)
          (transactions s) n.

(** Generic collection operations, over the [_id] of the documents. *)
Section Collection.

Context {A : Type}.
Variable id_of : A -> ObjectId.

(** [findById]. *)
Definition findById (id : ObjectId) (l : list A) : option A :=
  find (fun d => (id_of d =? id)%N) l.

(** [findByIdAndUpdate]: the first document with that [_id] is changed. *)
Fixpoint updateById (id : ObjectId) (f : A -> A) (l : list A) : list A :=
  match l with
  | [] => []
  | d :: r => if (id_of d =? id)%N then f d :: r else d :: updateById id f r
  end.

(** [findByIdAndDelete]. *)
Fixpoint deleteById (id : ObjectId) (l : list A) : list A :=
  match l with
  | [] => []
  | d :: r => if (id_of d =? id)%N then r else d :: deleteById id r
  end.

(** [deleteMany(filter)]. *)
Definition deleteMany (matches : A -> bool) (l : list A) : list A :=
  filter (fun d => negb (matches d)) l.

(** [findOne(filter).sort({ createdAt: -1 })]: among the documents that
    match, one with the greatest [createdAt]; of several with the same
    [createdAt], the one inserted first. *)
Fixpoint mostRecent (createdAt : A -> Date) (l : list A) : option A :=
  match l with
  | [] => None
  | d :: r =>
      match mostRecent createdAt r with
      | Some d' => if createdAt d <? createdAt d' then Some d' else Some d
      | None => Some d
      end
  end.

Definition findOneSorted (matches : A -> bool) (createdAt : A -> Date)
    (l : list A) : option A :=
  mostRecent createdAt (filter matches l).

End Collection.

(** ** Asynchronous driver calls: state and exceptions *)

Inductive Exn : Type :=
| ValidationError (model : string)
| DuplicateKeyError (model : string)
| TypeError (message : string)
| CastError (path : string).

Inductive Outcome (A : Type) : Type :=
| Ok (a : A)
| Throw (e : Exn).

Arguments Ok {A} a.
Arguments Throw {A} e.

Definition Async (A : Type) : Type := Store -> Store * Outcome A.

Definition ret {A : Type} (a : A) : Async A := fun s => (s, Ok a).

Definition throw {A : Type} (e : Exn) : Async A := fun s => (s, Throw e).

Definition bind {A B : Type} (c : Async A) (k : A -> Async B) : Async B :=
  fun s =>
    match c s with
    | (s', Ok a) => k a s'
    | (s', Throw e) => (s', Throw e)
    end.

Definition gets {A : Type} (f : Store -> A) : Async A := fun s => (s, Ok (f s)).

Definition modify (f : Store -> Store) : Async unit := fun s => (f s, Ok tt).

Declare Scope async_scope.
Delimit Scope async_scope with async.
Notation "x <- c ;; k" := (bind c (fun x => k))
  (at level 61, c at next level, right associativity) : async_scope.
Notation "c ;; k" := (bind c (fun _ => k))
  (at level 61, right associativity) : async_scope.
Open Scope async_scope.

(** A fresh [_id] for a document made with [new Model(...)]. *)
Definition fresh : Async ObjectId :=
  fun s => (set_nextId (nextId s + 1)%N s, Ok (nextId s)).

(** The cast of the text of an [_id], which every query on [_id] starts
    with: a text that is no ObjectId makes the query reject with a
    CastError, before anything is read or written. *)
Definition castObjectId (id : option ObjectId) : Async ObjectId :=
  match id with
  | Some id => ret id
  | None => throw (CastError "_id")
  end.

(** ** The Invoice model: hooks and [save] *)

Module InvoiceModel.

Open Scope string_scope.

Definition truthy_string (s : string) : bool := negb (s =? "").

(** [findOne({}, {}, { sort: { createdAt: -1 } })] over the whole
    collection. *)
Definition findLast (coll : list Invoice.t) : option Invoice.t :=
  findOneSorted (fun _ => true) Invoice.createdAt coll.

(** The number of the hooks: [parseInt(match[1], 10) + 1], a double. *)
Definition nextNumber (lastInvoice : option Invoice.t) : JSNumber.t :=
  match lastInvoice with
  | Some li =>
      if truthy_string (Invoice.invoiceNumber li) then
        match JSString.match_INV (Invoice.invoiceNumber li) with
        | Some m1 => JSNumber.succ (JSNumber.parseInt10 m1)
        | None => JSNumber.Finite 1
        end
      else JSNumber.Finite 1
  | None => JSNumber.Finite 1
  end.

(** [String(nextNumber)] *)
Definition String_of_number (n : JSNumber.t) : string := JSNumber.toString n.

(** The body shared by the [pre('validate')] and the second [pre('save')]
    hook. *)
Definition generateInvoiceNumber (coll : list Invoice.t) (this : Invoice.t)
    : Invoice.t :=
  if negb (truthy_string (Invoice.invoiceNumber this)) then
    let lastInvoice := findLast coll in
    Invoice.set_invoiceNumber
      ("INV" ++ JSString.padStart 5 "0" (String_of_number (nextNumber lastInvoice)))
      this
  else this.

(** The number that the hooks give to an invoice saved without one. *)
Definition generated (coll : list Invoice.t) : string :=
  "INV" ++ JSString.padStart 5 "0" (String_of_number (nextNumber (findLast coll))).

(** Schema validation: required strings are not empty and the [min]
    bounds hold. *)
Definition validItem (it : InvoiceItem.t) : bool :=
  truthy_string (InvoiceItem.description it)
  && (1 <=? InvoiceItem.quantity it)%Z
  && Qle_bool 0 (InvoiceItem.unitPrice it)
  && (0 <=? InvoiceItem.amount it)%Z.

Definition validInvoice (i : Invoice.t) : bool :=
  truthy_string (Invoice.invoiceNumber i)
  && (0 <=? Invoice.amount i)%Z
  && truthy_string (Invoice.currency i)
  && forallb validItem (Invoice.items i).

(** The fields of a new invoice that validation looks at, besides the
    number. *)
Definition validFields (i : Invoice.t) : bool :=
  (0 <=? Invoice.amount i)%Z
  && truthy_string (Invoice.currency i)
  && forallb validItem (Invoice.items i).

(** The unique index on [invoiceNumber]. *)
Definition numberTaken (i : Invoice.t) (coll : list Invoice.t) : bool :=
  existsb (fun j => negb (Invoice._id j =? Invoice._id i)%N
                    && (Invoice.invoiceNumber j =? Invoice.invoiceNumber i))
          coll.

(** [invoice.save()]: the [pre('validate')] hook, validation, the two
    [pre('save')] hooks, then the write: an insert for a document made with
    [new] ([isNew]), an update of the stored document otherwise.  An update
    sends the modified paths only, so the index is consulted only when the
    number was generated. *)
Definition save (now : Date) (isNew : bool) (this : Invoice.t)
    : Async Invoice.t :=
  coll <- gets invoices ;;
  let this1 := generateInvoiceNumber coll this in
  if negb (validInvoice this1) then throw (ValidationError "Invoice")
  else
    let this2 := Invoice.set_updatedAt now this1 in
    coll <- gets invoices ;;
    let this3 := generateInvoiceNumber coll this2 in
    coll <- gets invoices ;;
    if (isNew || negb (Invoice.invoiceNumber this =? Invoice.invoiceNumber this3))
       && numberTaken this3 coll
    then throw (DuplicateKeyError "Invoice")
    else
      modify (fun s =>
        set_invoices
          (if isNew then invoices s ++ [this3]
           else updateById Invoice._id (Invoice._id this3) (fun _ => this3)
                           (invoices s)) s) ;;
      ret this3.

(** Invoices created one after the other, each saved before the next. *)
Fixpoint saveAll (news : list (Date * Invoice.t)) : Async unit :=
  match news with
  | [] => ret tt
  | (now, this) :: rest => save now true this ;; saveAll rest
  end.

(** The number of the [k]-th invoice: [INV00001], [INV00002], ... *)
Definition number_of (k : N) : string :=
  "INV" ++ JSString.padStart 5 "0" (JSString.String_of_N k).

(** The generator in the words of the specification: the numeric suffix of
    the most recently created invoice of the whole collection, read with the
    pattern [INV(\d+)], plus one; one when there is no invoice or no match. *)
Definition suffix (number : string) : option N :=
  option_map (fun d => JSString.parse_digits d 0) (JSString.match_INV number).

Definition next_in_sequence (coll : list Invoice.t) : N :=
  match findLast coll with
  | Some li =>
      match suffix (Invoice.invoiceNumber li) with
      | Some n => (n + 1)%N
      | None => 1%N
      end
  | None => 1%N
  end.

End InvoiceModel.

(** ** Requests and responses *)

Module AssignmentBody.
Record t : Type := mk
  { customerId : option ObjectId;
    trainerId : option ObjectId;
    gymId : option ObjectId;
    startDate : option Date;
    duration : option Z;
    fees : option Z }.
End AssignmentBody.

Module RenewBody.
Record t : Type := mk
  { startDate : option Date;
    duration : option Z;
    endDate : option Date;
    fees : option Z;
    gymId : option ObjectId;
    paymentMode : option string;
    transactionDate : option Date }.
End RenewBody.

(** A request as the handlers see it: [req.user._id] and [req.gymId] come
    from the authentication middleware, [req.params.id] and
    [req.query.gymId] from the URL.  An absent field is [None]; a date is
    given by the time value [new Date(...)] makes of it.  [req.params.id] is
    text: [Some id] when it is the text of the ObjectId [id], [None] when it
    is a text that the cast to an ObjectId rejects. *)
Record Request (Body : Type) : Type := mkRequest
  { user_id : ObjectId;
    req_gymId : option ObjectId;
    params_id : option ObjectId;
    query_gymId : option ObjectId;
    body : Body }.

Arguments mkRequest {Body}.
Arguments user_id {Body}.
Arguments req_gymId {Body}.
Arguments params_id {Body}.
Arguments query_gymId {Body}.
Arguments body {Body}.

Inductive Response : Type :=
| json_error (status : Z) (error : string)
| json_exn (err : Exn)
| json_message (message : string)
| json_assignments (l : list Populated.t)
| json_assignment (a : Populated.t)
| json_bundle (status : Z) (assignment : option Populated.t)
              (invoice : Invoice.t) (transaction : Transaction.t).

Definition status_of (r : Response) : Z :=
  match r with
  | json_error st _ => st
  | json_exn _ => 500
  | json_bundle st _ _ _ => st
  | _ => 200
  end.

Definition Handler : Type := Store -> Store * Response.

(** [try { ... } catch (err) { res.status(500).json({ error: err.message }) }] *)
Definition try_catch (body : Async Response) : Handler :=
  fun s =>
    match body s with
    | (s', Ok r) => (s', r)
    | (s', Throw e) => (s', json_exn e)
    end.

(** [!x] is false exactly for a number that is present and not zero. *)
Definition truthy (x : option Z) : option Z :=
  match x with
  | Some 0 => None
  | _ => x
  end.

(** ** The controller *)

Module Controller.

Section Handlers.

Open Scope string_scope.

(** Offset of local time from UTC, in milliseconds. *)
Variable LocalTZA : Z.

(** [Date.prototype.toLocaleDateString], which depends on the locale. *)
Variable toLocaleDateString : Date -> string.

(** Validators of the two models whose schemas are not in the sources. *)
Variable validAssignment : Assignment.t -> bool.
Variable validTransaction : Transaction.t -> bool.

Definition person_of_customer (withPhone : bool) (c : Customer.t) : Person.t :=
  Person.mk (Customer._id c) (Customer.name c) (Customer.email c)
            (if withPhone then Customer.phone c else None).

Definition person_of_trainer (withPhone : bool) (t : Trainer.t) : Person.t :=
  Person.mk (Trainer._id t) (Trainer.name t) (Trainer.email t)
            (if withPhone then Trainer.phone t else None).

(** [.populate('customerId', fields)] *)
Definition populate_customer (withPhone : bool) (s : Store) (a : Assignment.t)
    : Ref :=
  Populated (option_map (person_of_customer withPhone)
               (findById Customer._id (Assignment.customerId a) (customers s))).

(** [.populate('trainerId', fields)] *)
Definition populate_trainer (withPhone : bool) (s : Store) (a : Assignment.t)
    : Ref :=
  Populated (option_map (person_of_trainer withPhone)
               (findById Trainer._id (Assignment.trainerId a) (trainers s))).

(** [.populate('customerId', ...).populate('trainerId', 'name email')] *)
Definition populate_both (withPhone : bool) (s : Store) (a : Assignment.t)
    : Populated.t :=
  Populated.mk a (populate_customer withPhone s a) (populate_trainer false s a).

(** [Customer.findByIdAndUpdate(id, update)] *)
Definition Customer_findByIdAndUpdate (id : ObjectId)
    (update : Customer.t -> Customer.t) : Async unit :=
  modify (fun s => set_customers (updateById Customer._id id update (customers s)) s).

(** [assignment.save()] of a new assignment. *)
Definition Assignment_save (a : Assignment.t) : Async unit :=
  if validAssignment a
  then modify (fun s => set_assignments (assignments s ++ [a]) s)
  else throw (ValidationError "PersonalTrainingAssignment").

(** [PersonalTrainingAssignment.findByIdAndUpdate(id, update, { new: true })]
    followed by the two [populate]s. *)
Definition Assignment_findByIdAndUpdate (id : option ObjectId)
    (update : Assignment.t -> Assignment.t) : Async (option Populated.t) :=
  id <- castObjectId id ;;
  modify (fun s => set_assignments
                     (updateById Assignment._id id update (assignments s)) s) ;;
  gets (fun s => option_map (populate_both true s)
                   (findById Assignment._id id (assignments s))).

(** [PersonalTrainingAssignment.findById(id)] *)
Definition Assignment_findById (id : option ObjectId)
    : Async (option Assignment.t) :=
  id <- castObjectId id ;;
  gets (fun s => findById Assignment._id id (assignments s)).

(** [PersonalTrainingAssignment.findByIdAndDelete(id)] *)
Definition Assignment_findByIdAndDelete (id : option ObjectId) : Async unit :=
  id <- castObjectId id ;;
  modify (fun s =>
    set_assignments (deleteById Assignment._id id (assignments s)) s).

(** [transaction.save()] *)
Definition Transaction_save (isNew : bool) (t : Transaction.t) : Async unit :=
  if validTransaction t
  then modify (fun s =>
         set_transactions
           (if isNew then transactions s ++ [t]
            else updateById Transaction._id (Transaction._id t) (fun _ => t)
                            (transactions s)) s)
  else throw (ValidationError "Transaction").

(** ['items.description': /Personal Training/] together with the customer
    and the gym. *)
Definition isTrainingInvoice (customerId gymId : ObjectId) (i : Invoice.t)
    : bool :=
  (Invoice.customerId i =? customerId)%N
  && (Invoice.gymId i =? gymId)%N
  && existsb (fun it => JSString.contains "Personal Training"
                          (InvoiceItem.description it))
             (Invoice.items i).

(** The end date, as [createAssignment] and [updateAssignment] compute it
    from [new Date(startDate)] and [Number(duration)]. *)
Definition endDate_of_start (start : Date) (duration : Z) : Date :=
  let end_ := start in
  let end_ :=
    JSDate.setMonth LocalTZA end_ (JSDate.getMonth LocalTZA end_ + duration) in
  JSDate.setDate LocalTZA end_ (JSDate.getDate LocalTZA end_ - 1).

(** [getAssignments] *)
Definition getAssignments (req : Request unit) : Handler :=
  try_catch (
    let gymId := query_gymId req in
    l <- gets (fun s =>
           map (populate_both false s)
               (filter (fun a => match gymId with
                                 | Some g => (Assignment.gymId a =? g)%N
                                 | None => true
                                 end)
                       (assignments s))) ;;
    ret (json_assignments l)).

(** [createAssignment] *)
Definition createAssignment (now : Date) (req : Request AssignmentBody.t)
    : Handler :=
  try_catch (
    match AssignmentBody.customerId (body req),
          AssignmentBody.trainerId (body req),
          AssignmentBody.gymId (body req),
          AssignmentBody.startDate (body req),
          truthy (AssignmentBody.duration (body req)),
          truthy (AssignmentBody.fees (body req)) with
    | Some customerId, Some trainerId, Some gymId, Some startDate,
      Some duration, Some fees =>
        let start := startDate in
        let end_ := endDate_of_start start duration in
        id <- fresh ;;
        let assignment :=
          Assignment.mk id customerId trainerId gymId start duration end_ fees in
        Assignment_save assignment ;;
        populatedAssignment <-
          gets (fun s =>
            option_map (fun a => Populated.mk a Unpopulated
                                   (populate_trainer true s a))
                       (findById Assignment._id id (assignments s))) ;;
        Customer_findByIdAndUpdate customerId
          (Customer.set_personalTrainer populatedAssignment) ;;
        invoice_id <- fresh ;;
        invoice <- InvoiceModel.save now true
          (Invoice.mk invoice_id (user_id req) gymId None customerId "" fees
             "INR" (now + 7 * 24 * 60 * 60 * 1000)
             [InvoiceItem.mk
                ("Personal Training with " ++ JSString.String_of_Z duration
                 ++ " month(s) duration")
                1 (inject_Z fees) fees]
             (Some ("Personal training assignment starting "
                    ++ toLocaleDateString start))
             now now) ;;
        transaction_id <- fresh ;;
        let transaction :=
          Transaction.mk transaction_id customerId gymId
            (Some (Invoice._id invoice)) "PERSONAL_TRAINING" now fees "cash"
            None
            ("Personal training fees for " ++ JSString.String_of_Z duration
             ++ " month(s)")
            "SUCCESS" now in
        Transaction_save true transaction ;;
        Customer_findByIdAndUpdate customerId (Customer.inc_totalSpent fees) ;;
        ret (json_bundle 201 populatedAssignment invoice transaction)
    | _, _, _, _, _, _ => ret (json_error 400 "All fields are required.")
    end).

(** [updateAssignment] *)
Definition updateAssignment (now : Date) (req : Request AssignmentBody.t)
    : Handler :=
  try_catch (
    let id := params_id req in
    match AssignmentBody.customerId (body req),
          AssignmentBody.trainerId (body req),
          AssignmentBody.gymId (body req),
          AssignmentBody.startDate (body req),
          truthy (AssignmentBody.duration (body req)),
          truthy (AssignmentBody.fees (body req)) with
    | Some customerId, Some trainerId, Some gymId, Some startDate,
      Some duration, Some fees =>
        let start := startDate in
        let end_ := endDate_of_start start duration in
        assignment <- Assignment_findByIdAndUpdate id
          (fun a => Assignment.mk (Assignment._id a) customerId trainerId gymId
                      start duration end_ fees) ;;
        match assignment with
        | None => ret (json_error 404 "Assignment not found.")
        | Some assignment =>
            Customer_findByIdAndUpdate customerId
              (Customer.set_personalTrainer (Some assignment)) ;;
            invoice <- gets (fun s =>
              findOneSorted (isTrainingInvoice customerId gymId)
                            Invoice.createdAt (invoices s)) ;;
            match invoice with
            | Some invoice =>
                InvoiceModel.save now false
                  (Invoice.set_billing fees end_
                     [InvoiceItem.mk
                        ("Personal Training with "
                         ++ JSString.String_of_Z duration ++ " month(s) duration")
                        1 (inject_Z fees) fees]
                     ("Personal training assignment starting "
                      ++ toLocaleDateString start)
                     invoice) ;;
                ret tt
            | None => ret tt
            end ;;
            transaction <- gets (fun s =>
              findOneSorted
                (fun t => (Transaction.userId t =? customerId)%N
                          && (Transaction.gymId t =? gymId)%N
                          && (Transaction.transactionType t =? "PERSONAL_TRAINING"))
                Transaction.createdAt (transactions s)) ;;
            match transaction with
            | Some transaction =>
                Transaction_save false
                  (Transaction.set_payment fees
                     ("Personal training fees for "
                      ++ JSString.String_of_Z duration ++ " month(s)")
                     now transaction)
            | None => ret tt
            end ;;
            ret (json_assignment assignment)
        end
    | _, _, _, _, _, _ => ret (json_error 400 "All fields are required.")
    end).

(** The two filters of [deleteAssignment]. *)
Definition isTrainingTransaction (customerId gymId : ObjectId)
    (t : Transaction.t) : bool :=
  (Transaction.userId t =? customerId)%N
  && (Transaction.gymId t =? gymId)%N
  && existsb (String.eqb (Transaction.transactionType t))
             ["PERSONAL_TRAINING"; "PERSONAL_TRAINING_RENEWAL"].

(** [deleteAssignment] *)
Definition deleteAssignment (req : Request unit) : Handler :=
  try_catch (
    let id := params_id req in
    assignment <- Assignment_findById id ;;
    match assignment with
    | None => ret (json_error 404 "Assignment not found.")
    | Some assignment =>
        Customer_findByIdAndUpdate (Assignment.customerId assignment)
          (Customer.set_personalTrainer None) ;;
        modify (fun s =>
          set_invoices
            (deleteMany (isTrainingInvoice (Assignment.customerId assignment)
                                           (Assignment.gymId assignment))
                        (invoices s)) s) ;;
        modify (fun s =>
          set_transactions
            (deleteMany (isTrainingTransaction (Assignment.customerId assignment)
                                               (Assignment.gymId assignment))
                        (transactions s)) s) ;;
        Assignment_findByIdAndDelete id ;;
        ret (json_message "Assignment deleted successfully.")
    end).

(** [assignment.customerId._id || assignment.customerId]: reading [_id] of
    a customer that [populate] did not find throws. *)
Definition customer_of (assignment : Populated.t) : Async ObjectId :=
  match Populated.customerId assignment with
  | Populated (Some c) => ret (Person._id c)
  | Populated None =>
      throw (TypeError "Cannot read properties of null (reading '_id')")
  | Unpopulated => ret (Assignment.customerId (Populated.doc assignment))
  end.

(** [renewAssignment] *)
Definition renewAssignment (now : Date) (req : Request RenewBody.t)
    : Handler :=
  try_catch (
    let id := params_id req in
    match RenewBody.startDate (body req),
          truthy (RenewBody.duration (body req)),
          RenewBody.endDate (body req),
          truthy (RenewBody.fees (body req)),
          RenewBody.gymId (body req) with
    | Some startDate, Some duration, Some endDate, Some fees, Some gymId =>
        assignment <- Assignment_findByIdAndUpdate id
          (fun a => Assignment.mk (Assignment._id a) (Assignment.customerId a)
                      (Assignment.trainerId a) (Assignment.gymId a)
                      startDate duration endDate fees) ;;
        match assignment with
        | None => ret (json_error 404 "Assignment not found.")
        | Some assignment =>
            customerId <- customer_of assignment ;;
            Customer_findByIdAndUpdate customerId
              (Customer.set_personalTrainer (Some assignment)) ;;
            invoice_id <- fresh ;;
            customerId <- customer_of assignment ;;
            invoice <- InvoiceModel.save now true
              (Invoice.mk invoice_id (user_id req) gymId None customerId ""
                 fees "INR" endDate
                 [InvoiceItem.mk
                    ("Personal Training Renewal ("
                     ++ JSString.String_of_Z duration ++ " month(s))")
                    duration (inject_Z fees / inject_Z duration)%Q fees]
                 (Some ("Personal training renewal starting "
                        ++ toLocaleDateString startDate))
                 now now) ;;
            txn_id <- fresh ;;
            customerId <- customer_of assignment ;;
            let txn :=
              Transaction.mk txn_id customerId gymId
                (Some (Invoice._id invoice)) "PERSONAL_TRAINING_RENEWAL"
                (match RenewBody.transactionDate (body req) with
                 | Some d => d
                 | None => now
                 end)
                fees
                (match RenewBody.paymentMode (body req) with
                 | Some m => if InvoiceModel.truthy_string m then m else "cash"
                 | None => "cash"
                 end)
                (Some "none")
                ("Personal training renewal for "
                 ++ JSString.String_of_Z duration ++ " month(s)")
                "SUCCESS" now in
            Transaction_save true txn ;;
            customerId <- customer_of assignment ;;
            Customer_findByIdAndUpdate customerId (Customer.inc_totalSpent fees) ;;
            ret (json_bundle 200 (Some assignment) invoice txn)
        end
    | _, _, _, _, _ => ret (json_error 400 "All fields are required.")
    end).

(** [getExpiringAssignments] *)
Definition getExpiringAssignments (now : Date) (req : Request unit) : Handler :=
  try_catch (
    let gymId := query_gymId req in
    let today := now in
    let today := JSDate.setHours LocalTZA today 0 0 0 0 in
    let sevenDaysFromNow := today in
    let sevenDaysFromNow :=
      JSDate.setDate LocalTZA sevenDaysFromNow (JSDate.getDate LocalTZA today + 7) in
    let sevenDaysFromNow := JSDate.setHours LocalTZA sevenDaysFromNow 23 59 59 999 in
    l <- gets (fun s =>
           map (populate_both false s)
               (filter (fun a => (today <=? Assignment.endDate a)%Z
                                 && (Assignment.endDate a <=? sevenDaysFromNow)%Z
                                 && match gymId with
                                    | Some g => (Assignment.gymId a =? g)%N
                                    | None => true
                                    end)
                       (assignments s))) ;;
    ret (json_assignments l)).

End Handlers.

End Controller.

Import Controller.

(** ** Calendar months, in the words of the specification

    "[startDate] plus [duration] calendar months minus one day": the same
    day of the month [duration] months later, or the last day of that month
    when it has fewer days, and then one day back.  This definition follows
    the specification, not the controller; it is what [endDate_of_start] is
    compared with. *)

Definition DaysInMonth (year month : Z) : Z :=
  match month with
  | 1 => 28 + JSDate.InLeapYearOf year
  | 3 | 5 | 8 | 10 => 30
  | _ => 31
  end.

Definition addCalendarMonths (LocalTZA : Z) (t : Date) (n : Z) : Date :=
  let lt := JSDate.LocalTime LocalTZA t in
  let m := JSDate.MonthFromTime lt + n in
  let year := JSDate.YearFromTime lt + m / 12 in
  let month := m mod 12 in
  let date := Z.min (JSDate.DateFromTime lt) (DaysInMonth year month) in
  JSDate.UTC LocalTZA
    (JSDate.MakeDate (JSDate.MakeDay year month date) (JSDate.TimeWithinDay lt)).

Definition endDate_calendar (LocalTZA : Z) (start : Date) (duration : Z) : Date :=
  addCalendarMonths LocalTZA start duration - JSDate.msPerDay.

(** ** The expiry window, in the words of the specification

    From today at 00:00:00 to seven days later at 23:59:59, local time (to
    the millisecond: 00:00:00.000 and 23:59:59.999). *)

Definition window_from (LocalTZA : Z) (now : Date) : Date :=
  JSDate.UTC LocalTZA
    (JSDate.MakeDate (JSDate.Day (JSDate.LocalTime LocalTZA now))
                     (JSDate.MakeTime 0 0 0 0)).

Definition window_to (LocalTZA : Z) (now : Date) : Date :=
  JSDate.UTC LocalTZA
    (JSDate.MakeDate (JSDate.Day (JSDate.LocalTime LocalTZA now) + 7)
                     (JSDate.MakeTime 23 59 59 999)).

(** The restriction to a gym, when the query names one. *)
Definition in_gym (gymId : option ObjectId) (a : Assignment.t) : bool :=
  match gymId with
  | Some g => (Assignment.gymId a =? g)%N
  | None => true
  end.

(** ** Sequences of operations *)

Definition totalSpentOf (id : ObjectId) (s : Store) : option Z :=
  option_map Customer.totalSpent (findById Customer._id id (customers s)).

(** A response with a 2xx status. *)
Definition succeeded (r : Response) : bool :=
  (200 <=? status_of r) && (status_of r <? 300).

Inductive Op : Type :=
| create (now : Date) (req : Request AssignmentBody.t)
| update (now : Date) (req : Request AssignmentBody.t)
| renew (now : Date) (req : Request RenewBody.t)
| delete (req : Request unit).

(** The fee event of an operation: the customer charged and the fee, for a
    create and for a renew (of the assignment as stored when it runs). *)
Definition charge (op : Op) (s : Store) : option (ObjectId * Z) :=
  match op with
  | create _ req =>
      match AssignmentBody.customerId (body req), AssignmentBody.fees (body req) with
      | Some c, Some f => Some (c, f)
      | _, _ => None
      end
  | renew _ req =>
      match params_id req with
      | Some id =>
          match findById Assignment._id id (assignments s),
                RenewBody.fees (body req) with
          | Some a, Some f => Some (Assignment.customerId a, f)
          | _, _ => None
          end
      | None => None
      end
  | _ => None
  end.

Definition charged_to (id : ObjectId) (op : Op) (s : Store) : Z :=
  match charge op s with
  | Some (c, f) => if (c =? id)%N then f else 0
  | None => 0
  end.

(** The invoices and transactions that reflect the fee of an assignment:
    those of its customer and gym, for personal training, of its amount. *)
Definition currentInvoices (a : Assignment.t) (s : Store) : list Invoice.t :=
  filter (fun i => isTrainingInvoice (Assignment.customerId a) (Assignment.gymId a) i
                   && (Invoice.amount i =? Assignment.fees a))
         (invoices s).

Definition currentTransactions (a : Assignment.t) (s : Store)
    : list Transaction.t :=
  filter (fun t => isTrainingTransaction (Assignment.customerId a)
                                         (Assignment.gymId a) t
                   && (Transaction.amount t =? Assignment.fees a))
         (transactions s).

(** Every assignment has exactly one current invoice and transaction. *)
Definition one_current_each (s : Store) : Prop :=
  forall a, In a (assignments s) ->
    List.length (currentInvoices a s) = 1%nat
    /\ List.length (currentTransactions a s) = 1%nat.

Module Trace.

Section Traces.

Variable LocalTZA : Z.
Variable toLocaleDateString : Date -> string.
Variable validAssignment : Assignment.t -> bool.
Variable validTransaction : Transaction.t -> bool.

Definition run (op : Op) : Handler :=
  match op with
  | create now req =>
      createAssignment LocalTZA toLocaleDateString validAssignment
                       validTransaction now req
  | update now req =>
      updateAssignment LocalTZA toLocaleDateString validTransaction now req
  | renew now req => renewAssignment toLocaleDateString validTransaction now req
  | delete req => deleteAssignment req
  end.

(** [steps s ops s']: the operations [ops], run one after the other from
    [s], all complete successfully and leave [s']. *)
Inductive steps : Store -> list Op -> Store -> Prop :=
| steps_nil (s : Store) : steps s [] s
| steps_cons (s s1 s2 : Store) (op : Op) (ops : list Op) (r : Response) :
    run op s = (s1, r) -> succeeded r = true -> steps s1 ops s2 ->
    steps s (op :: ops) s2.

(** The sum of the fees of the create and renew events of [ops] that are
    applied to customer [id]. *)
Fixpoint total_charged (id : ObjectId) (ops : list Op) (s : Store) : Z :=
  match ops with
  | [] => 0
  | op :: rest => charged_to id op s + total_charged id rest (fst (run op s))
  end.

(** The invariant of the specification: after the operations, the total of
    every customer is the sum of the fees charged to that customer, and
    every assignment has exactly one current invoice and transaction. *)
Definition ledger_consistent (s : Store) (ops : list Op) (s' : Store) : Prop :=
  (forall id c, findById Customer._id id (customers s') = Some c ->
                Customer.totalSpent c = total_charged id ops s)
  /\ one_current_each s'.

(** Whether the operations, run one after the other, all succeed. *)
Fixpoint all_succeed (ops : list Op) (s : Store) : bool :=
  match ops with
  | [] => true
  | op :: rest => succeeded (snd (run op s)) && all_succeed rest (fst (run op s))
  end.

(** The store that a sequence of operations leaves. *)
Fixpoint run_all (ops : list Op) (s : Store) : Store :=
  match ops with
  | [] => s
  | op :: rest => run_all rest (fst (run op s))
  end.

End Traces.

End Trace.

Import Trace.

(** ** Sample data *)

Module Sample.

Open Scope string_scope.

(** Indian Standard Time, five and a half hours ahead of UTC. *)
Definition LocalTZA : Z := 19800000.

(** Day/month/year, as the [en-IN] locale prints a date. *)
Definition toLocaleDateString (t : Date) : string :=
  let lt := JSDate.LocalTime LocalTZA t in
  JSString.String_of_Z (JSDate.DateFromTime lt) ++ "/"
  ++ JSString.String_of_Z (JSDate.MonthFromTime lt + 1) ++ "/"
  ++ JSString.String_of_Z (JSDate.YearFromTime lt).

Definition accept {A : Type} (_ : A) : bool := true.

Definition asha : Customer.t :=
  Customer.mk 1 "Asha" "asha@example.com" (Some "555-0101") 0 None.

Definition bina : Customer.t :=
  Customer.mk 2 "Bina" "bina@example.com" None 0 None.

Definition ravi : Trainer.t := Trainer.mk 3 "Ravi" "ravi@example.com" None.

(** Two customers, one trainer, nothing else yet. *)
Definition store : Store := mkStore [] [asha; bina] [ravi] [] [] 100.

(** A request of user 9, whose own gym is gym 8. *)
Definition request {Body : Type} (id : ObjectId) (gym : option ObjectId)
    (b : Body) : Request Body :=
  mkRequest 9 (Some 8%N) (Some id) gym b.

Definition assignment_body (customer gym : ObjectId) (start : Date)
    (duration fees : Z) : AssignmentBody.t :=
  AssignmentBody.mk (Some customer) (Some 3%N) (Some gym) (Some start)
                    (Some duration) (Some fees).

Definition renew_body (gym : ObjectId) (start end_ : Date) (duration fees : Z)
    : RenewBody.t :=
  RenewBody.mk (Some start) (Some duration) (Some end_) (Some fees) (Some gym)
               None None.

Definition createAssignment :=
  createAssignment LocalTZA toLocaleDateString accept accept.

Definition updateAssignment :=
  updateAssignment LocalTZA toLocaleDateString accept.

Definition renewAssignment := renewAssignment toLocaleDateString accept.

Definition run := run LocalTZA toLocaleDateString accept accept.

Definition steps := steps LocalTZA toLocaleDateString accept accept.

(** Asha takes three months from 15 January 2024 in gym 7, for 500. *)
Definition create_asha : Request AssignmentBody.t :=
  request 0 None (assignment_body 1 7 (JSDate.ymd 2024 0 15) 3 500).

(** The store after that, on 10 January 2024. *)
Definition store1 : Store :=
  fst (createAssignment (JSDate.ymd 2024 0 10) create_asha store).

(** The assignment, number 100, is renewed on 10 April for three more
    months for 450, until 14 July. *)
Definition renew_asha : Request RenewBody.t :=
  request 100 None
    (renew_body 7 (JSDate.ymd 2024 3 15) (JSDate.ymd 2024 6 14) 3 450).

(** The assignment that the first request creates. *)
Definition assignment_asha : Assignment.t :=
  Assignment.mk 100 1 3 7 (JSDate.ymd 2024 0 15) 3 (JSDate.ymd 2024 3 14) 500.

(** One month from 31 January 2024. *)
Definition create_month_end : Request AssignmentBody.t :=
  request 0 None (assignment_body 1 7 (JSDate.ymd 2024 0 31) 1 500).

(** A second assignment of Asha in the same gym. *)
Definition create_asha_again : Request AssignmentBody.t :=
  request 0 None (assignment_body 1 7 (JSDate.ymd 2024 1 1) 1 200).

(** A request whose [:id] is no ObjectId. *)
Definition request_malformed {Body : Type} (b : Body) : Request Body :=
  mkRequest 9 (Some 8%N) None None b.

(** Bina takes two months from 1 February 2024 in gym 7, for 300. *)
Definition create_bina : Request AssignmentBody.t :=
  request 0 None (assignment_body 2 7 (JSDate.ymd 2024 1 1) 2 300).

(** The store with Asha's and Bina's assignments, on 20 January 2024. *)
Definition store_both : Store :=
  fst (createAssignment (JSDate.ymd 2024 0 20) create_bina store1).

(** Bina's assignment. *)
Definition assignment_bina : Assignment.t :=
  Assignment.mk 103 2 3 7 (JSDate.ymd 2024 1 1) 2 (JSDate.ymd 2024 2 31) 300.

(** Two assignments of Asha in gym 7, then the first one is deleted. *)
Definition two_then_delete : list Op :=
  [create (JSDate.ymd 2024 0 10) create_asha;
   create (JSDate.ymd 2024 0 20) create_asha_again;
   delete (request 100 None tt)].

Definition run_all := run_all LocalTZA toLocaleDateString accept accept.

(** The second assignment, which stays. *)
Definition assignment_asha_again : Assignment.t :=
  Assignment.mk 103 1 3 7 (JSDate.ymd 2024 1 1) 1 (JSDate.ymd 2024 1 29) 200.

(** The store after the three operations. *)
Definition store3 : Store := run_all two_then_delete store.

Definition ledger_consistent :=
  ledger_consistent LocalTZA toLocaleDateString accept accept.

(** The store after the renewal of the first assignment, on 10 April. *)
Definition store2 : Store :=
  fst (renewAssignment (JSDate.ymd 2024 3 10) renew_asha store1).

(** The first assignment is changed to 600 for four months. *)
Definition update_asha : Request AssignmentBody.t :=
  request 100 None (assignment_body 1 7 (JSDate.ymd 2024 0 15) 4 600).

(** A store with the first assignment and no invoice or transaction. *)
Definition store_unbilled : Store := set_assignments [assignment_asha] store.

(** Invoices of two gyms, made one after the other. *)
Definition new_invoice (id gym : ObjectId) (at_ : Date) : Date * Invoice.t :=
  (at_, Invoice.mk id 9 gym None 1 "" 100 "INR" (at_ + 1000) [] None at_ at_).

Definition three_invoices : list (Date * Invoice.t) :=
  [new_invoice 50 7 1000; new_invoice 51 8 2000; new_invoice 52 7 3000].

(** Three invoices made within one millisecond. *)
Definition three_at_once : list (Date * Invoice.t) :=
  [new_invoice 50 7 1000; new_invoice 51 8 1000; new_invoice 52 7 1000].

(** An invoice with the number [2 ^ 53]. *)
Definition invoice_2_53 : Invoice.t :=
  Invoice.mk 50 9 7 None 1 "INV9007199254740992" 100 "INR" 2000 [] None 1000
             1000.

End Sample.

(** * Further definitions *)

(** ** Required fields *)

(** [!x] for an id or a date of a request body: it is absent. *)
Definition absent {A : Type} (x : option A) : bool :=
  match x with
  | Some _ => false
  | None => true
  end.

(** [!x] for a number of a request body: it is absent or zero. *)
Definition falsy_number (x : option Z) : bool :=
  match x with
  | Some z => z =? 0
  | None => true
  end.

(** The condition of the first [if] of [createAssignment] and
    [updateAssignment]. *)
Definition lacks_field (b : AssignmentBody.t) : bool :=
  absent (AssignmentBody.customerId b)
  || absent (AssignmentBody.trainerId b)
  || absent (AssignmentBody.gymId b)
  || absent (AssignmentBody.startDate b)
  || falsy_number (AssignmentBody.duration b)
  || falsy_number (AssignmentBody.fees b).

(** The condition of the first [if] of [renewAssignment]. *)
Definition renewal_lacks_field (b : RenewBody.t) : bool :=
  absent (RenewBody.startDate b)
  || falsy_number (RenewBody.duration b)
  || absent (RenewBody.endDate b)
  || falsy_number (RenewBody.fees b)
  || absent (RenewBody.gymId b).

(** ** Well-formed invoices *)

(** What the unique index, the [required] number and the fresh ids give:
    the invoices have different ids, all below the next id, and different
    numbers, none of them empty. *)
Definition wellformed (l : list Invoice.t) (next : ObjectId) : Prop :=
  NoDup (map Invoice._id l)
  /\ NoDup (map Invoice.invoiceNumber l)
  /\ Forall (fun i => Invoice.invoiceNumber i <> ""%string
                      /\ (Invoice._id i < next)%N) l.

Definition invoices_wellformed (s : Store) : Prop :=
  wellformed (invoices s) (nextId s).

(** ** Bookings: the model *)

Module Booking.
Record t : Type := mk
  { _id : ObjectId;
    userId : ObjectId;
    gymId : ObjectId;
    customerId : option ObjectId;
    type : option string;
    status : string;
    startTime : option Date;
    endTime : option Date;
    classId : option string;
    className : option string;
    trainerId : option string;
    trainerName : option string;
    equipmentId : option string;
    equipmentName : option string;
    notes : option string;
    createdBy : ObjectId;
    price : option Q;
    currency : string;
    createdAt : Date;
    updatedAt : Date;
    paymentMode : option string }.
End Booking.

(** The body of a booking request: the paths of the schema that a client
    can send, each with the type the schema gives it.  An absent field is
    [None]; so is a start or an end time given as the empty string, and a
    [price] that is not a number.  A price is a rational. *)
Module BookingBody.
Record t : Type := mk
  { userId : option ObjectId;
    gymId : option ObjectId;
    customerId : option ObjectId;
    type : option string;
    status : option string;
    startTime : option Date;
    endTime : option Date;
    classId : option string;
    className : option string;
    trainerId : option string;
    trainerName : option string;
    equipmentId : option string;
    equipmentName : option string;
    notes : option string;
    createdBy : option ObjectId;
    price : option Q;
    currency : option string;
    paymentMode : option string }.
End BookingBody.

Module BookingModel.

Open Scope string_scope.

(** [required: true] on a String path: present and not empty. *)
Definition required_string (x : option string) : bool :=
  match x with
  | Some s => negb (s =? "")
  | None => false
  end.

(** [enum: [...]] *)
Definition one_of (values : list string) (s : string) : bool :=
  existsb (String.eqb s) values.

(** [required: true, enum: [...]] *)
Definition required_one_of (values : list string) (x : option string) : bool :=
  match x with
  | Some s => one_of values s
  | None => false
  end.

(** [this.type === t] *)
Definition type_is (t : string) (type : option string) : bool :=
  match type with
  | Some t' => t' =? t
  | None => false
  end.

(** [required: function() { return this.type === t; }] *)
Definition required_for (t : string) (type : option string)
    (x : option string) : bool :=
  if type_is t type then required_string x else true.

Definition present {A : Type} (x : option A) : bool :=
  match x with
  | Some _ => true
  | None => false
  end.

(** Schema validation of a booking. *)
Definition validBooking (b : Booking.t) : bool :=
  present (Booking.customerId b)
  && required_one_of ["class"; "personal_training"; "equipment"] (Booking.type b)
  && one_of ["scheduled"; "completed"; "cancelled"; "no_show"] (Booking.status b)
  && present (Booking.startTime b)
  && present (Booking.endTime b)
  && required_for "class" (Booking.type b) (Booking.classId b)
  && required_for "class" (Booking.type b) (Booking.className b)
  && required_for "personal_training" (Booking.type b) (Booking.trainerId b)
  && required_for "personal_training" (Booking.type b) (Booking.trainerName b)
  && required_for "equipment" (Booking.type b) (Booking.equipmentId b)
  && required_for "equipment" (Booking.type b) (Booking.equipmentName b)
  && match Booking.price b with
     | Some p => Qle_bool 0 p
     | None => false
     end
  && negb (Booking.currency b =? "")
  && required_one_of ["Cash"; "Credit Card"; "Debit Card"; "Online"; "UPI"]
       (Booking.paymentMode b).

(** [new Booking({ ...body, userId, gymId, createdBy })]: the three paths
    that follow the spread replace those of the body; [status], [currency]
    and the two dates take their defaults. *)
Definition create (now : Date) (_id user gym : ObjectId) (b : BookingBody.t)
    : Booking.t :=
  Booking.mk _id user gym
    (BookingBody.customerId b)
    (BookingBody.type b)
    (match BookingBody.status b with Some st => st | None => "scheduled" end)
    (BookingBody.startTime b)
    (BookingBody.endTime b)
    (BookingBody.classId b)
    (BookingBody.className b)
    (BookingBody.trainerId b)
    (BookingBody.trainerName b)
    (BookingBody.equipmentId b)
    (BookingBody.equipmentName b)
    (BookingBody.notes b)
    user
    (BookingBody.price b)
    (match BookingBody.currency b with Some c => c | None => "INR" end)
    now now
    (BookingBody.paymentMode b).

(** One path of an update: the value of the body when it has one. *)
Definition assign {A : Type} (new : option A) (old : A) : A :=
  match new with
  | Some v => v
  | None => old
  end.

Definition assign_opt {A : Type} (new old : option A) : option A :=
  match new with
  | Some v => Some v
  | None => old
  end.

(** The update [findOneAndUpdate(filter, body, { new: true })] makes of a
    stored booking: the paths of the body are set, without validation, and
    the [timestamps] option sets [updatedAt]. *)
Definition update (now : Date) (u : BookingBody.t) (b : Booking.t)
    : Booking.t :=
  Booking.mk (Booking._id b)
    (assign (BookingBody.userId u) (Booking.userId b))
    (assign (BookingBody.gymId u) (Booking.gymId b))
    (assign_opt (BookingBody.customerId u) (Booking.customerId b))
    (assign_opt (BookingBody.type u) (Booking.type b))
    (assign (BookingBody.status u) (Booking.status b))
    (assign_opt (BookingBody.startTime u) (Booking.startTime b))
    (assign_opt (BookingBody.endTime u) (Booking.endTime b))
    (assign_opt (BookingBody.classId u) (Booking.classId b))
    (assign_opt (BookingBody.className u) (Booking.className b))
    (assign_opt (BookingBody.trainerId u) (Booking.trainerId b))
    (assign_opt (BookingBody.trainerName u) (Booking.trainerName b))
    (assign_opt (BookingBody.equipmentId u) (Booking.equipmentId b))
    (assign_opt (BookingBody.equipmentName u) (Booking.equipmentName b))
    (assign_opt (BookingBody.notes u) (Booking.notes b))
    (assign (BookingBody.createdBy u) (Booking.createdBy b))
    (assign_opt (BookingBody.price u) (Booking.price b))
    (assign (BookingBody.currency u) (Booking.currency b))
    (Booking.createdAt b)
    now
    (assign_opt (BookingBody.paymentMode u) (Booking.paymentMode b)).

(** The [pre('save')] hook. *)
Definition set_updatedAt (d : Date) (b : Booking.t) : Booking.t :=
  Booking.mk (Booking._id b) (Booking.userId b) (Booking.gymId b)
    (Booking.customerId b) (Booking.type b) (Booking.status b)
    (Booking.startTime b) (Booking.endTime b) (Booking.classId b)
    (Booking.className b) (Booking.trainerId b) (Booking.trainerName b)
    (Booking.equipmentId b) (Booking.equipmentName b) (Booking.notes b)
    (Booking.createdBy b) (Booking.price b) (Booking.currency b)
    (Booking.createdAt b) d (Booking.paymentMode b).

End BookingModel.

(** ** Members *)

(** The paths of a member that the routes read from the body. *)
Module MemberFields.
Record t : Type := mk
  { name : option string;
    email : option string;
    phone : option string;
    membershipType : option string;
    startDate : option Date;
    endDate : option Date;
    status : option string }.
End MemberFields.

Module Member.
Record t : Type := mk
  { _id : ObjectId;
    gymId : ObjectId;
    fields : MemberFields.t }.
End Member.

(** ** The store with the bookings and the members *)

Record Database : Type := mkDatabase
  { store : Store;
    bookings : list Booking.t;
    members : list Member.t }.

Definition set_store (s : Store) (db : Database) : Database :=
  mkDatabase s (bookings db) (members db).

Definition set_bookings (l : list Booking.t) (db : Database) : Database :=
  mkDatabase (store db) l (members db).

Definition set_members (l : list Member.t) (db : Database) : Database :=
  mkDatabase (store db) (bookings db) l.

(** A fresh [_id], as [fresh] gives it. *)
Definition use_id (db : Database) : Database :=
  set_store (set_nextId (nextId (store db) + 1)%N (store db)) db.

(** What the fresh ids give: the bookings have different ids, all below the
    next id. *)
Definition bookings_wellformed (db : Database) : Prop :=
  NoDup (map Booking._id (bookings db))
  /\ Forall (fun b => (Booking._id b < nextId (store db))%N) (bookings db).

(** Queries with a filter: [findOne], [findOneAndUpdate] and
    [findOneAndDelete] take the first document that matches. *)
Section Filtered.

Context {A : Type}.
Variable matches : A -> bool.

Definition findOne (l : list A) : option A := find matches l.

Fixpoint updateOne (f : A -> A) (l : list A) : list A :=
  match l with
  | [] => []
  | d :: r => if matches d then f d :: r else d :: updateOne f r
  end.

Fixpoint deleteOne (l : list A) : list A :=
  match l with
  | [] => []
  | d :: r => if matches d then r else d :: deleteOne r
  end.

End Filtered.

(** [.sort({ startTime: -1 })]: latest first, a booking without a start
    time last; bookings with the same start time in the order of the
    collection, which the database leaves open. *)
Definition later (a b : Booking.t) : bool :=
  match Booking.startTime a, Booking.startTime b with
  | Some x, Some y => (y <? x)%Z
  | Some _, None => true
  | None, _ => false
  end.

Fixpoint insert_sorted (b : Booking.t) (l : list Booking.t) : list Booking.t :=
  match l with
  | [] => [b]
  | x :: r => if later x b then x :: insert_sorted b r else b :: x :: r
  end.

Definition sort_startTime_desc (l : list Booking.t) : list Booking.t :=
  fold_right insert_sorted [] l.

(** A request to the booking routes.  They run behind the [gymAuth]
    middleware, which provides [req.gymId].  The [:id] of the path is
    [None] when its text is no ObjectId. *)
Record GymRequest : Type := mkGymRequest
  { gym_user : ObjectId;
    gym_gymId : ObjectId;
    gym_params_id : option ObjectId;
    gym_body : BookingBody.t }.

(** A booking in a response, with what [populate] made of its customer. *)
Record BookingView : Type := mkBookingView
  { view_doc : Booking.t;
    view_customerId : Ref }.

Inductive Reply : Type :=
| reply_bookings (bookings : list BookingView)
| reply_booking (status : Z) (booking : BookingView)
| reply_message (status : Z) (success : bool) (message : string)
                (error : option Exn).

Definition reply_status (r : Reply) : Z :=
  match r with
  | reply_bookings _ => 200
  | reply_booking st _ => st
  | reply_message st _ _ _ => st
  end.

(** ** The booking routes *)

Module BookingRoutes.

Open Scope string_scope.

(** [{ _id: req.params.id, gymId: req.gymId }] *)
Definition in_gym (gym : ObjectId) (b : Booking.t) : bool :=
  (Booking.gymId b =? gym)%N.

Definition is_booking (id gym : ObjectId) (b : Booking.t) : bool :=
  (Booking._id b =? id)%N && (Booking.gymId b =? gym)%N.

(** [.populate('customerId', 'name email phone')] *)
Definition populate (db : Database) (b : Booking.t) : BookingView :=
  mkBookingView b
    (Populated
       (match Booking.customerId b with
        | Some c => option_map (person_of_customer true)
                      (findById Customer._id c (customers (store db)))
        | None => None
        end)).

Definition plain (b : Booking.t) : BookingView := mkBookingView b Unpopulated.

(** [GET /] *)
Definition get_all (req : GymRequest) (db : Database) : Database * Reply :=
  (db, reply_bookings
         (map (populate db)
            (sort_startTime_desc
               (filter (in_gym (gym_gymId req)) (bookings db))))).

(** [GET /:id].  With an [:id] that is no ObjectId the query throws a
    CastError, and the handler answers from its [catch]. *)
Definition get_one (req : GymRequest) (db : Database) : Database * Reply :=
  match gym_params_id req with
  | None => (db, reply_message 500 false "Error fetching booking" None)
  | Some id =>
      match findOne (is_booking id (gym_gymId req)) (bookings db) with
      | None => (db, reply_message 404 false "Booking not found" None)
      | Some b => (db, reply_booking 200 (populate db b))
      end
  end.

(** The checks of [POST /], in their order: the message of the first that
    fails. *)
Definition refusal (b : BookingBody.t) : option string :=
  if BookingModel.type_is "class" (BookingBody.type b)
     && negb (BookingModel.required_string (BookingBody.classId b))
  then Some "Class ID is required for class bookings"
  else if BookingModel.type_is "personal_training" (BookingBody.type b)
          && negb (BookingModel.required_string (BookingBody.trainerId b))
  then Some "Trainer ID is required for personal training bookings"
  else if BookingModel.type_is "equipment" (BookingBody.type b)
          && negb (BookingModel.required_string (BookingBody.equipmentId b))
  then Some "Equipment ID is required for equipment bookings"
  else if negb (BookingModel.present (BookingBody.startTime b))
          || negb (BookingModel.present (BookingBody.endTime b))
  then Some "Start time and end time are required"
  else if match BookingBody.price b with
          | Some p => negb (Qle_bool 0 p)
          | None => true
          end
  then Some "Price must be a non-negative number"
  else None.

(** [POST /] *)
Definition post (now : Date) (req : GymRequest) (db : Database)
    : Database * Reply :=
  match refusal (gym_body req) with
  | Some message => (db, reply_message 400 false message None)
  | None =>
      let db1 := use_id db in
      let booking :=
        BookingModel.create now (nextId (store db)) (gym_user req)
          (gym_gymId req) (gym_body req) in
      if BookingModel.validBooking booking
      then
        let saved := BookingModel.set_updatedAt now booking in
        (set_bookings (bookings db1 ++ [saved]) db1,
         reply_booking 201 (plain saved))
      else (db1, reply_message 500 false "Error creating booking"
                   (Some (ValidationError "Booking")))
  end.

(** [PUT /:id] *)
Definition put (now : Date) (req : GymRequest) (db : Database)
    : Database * Reply :=
  match gym_params_id req with
  | None => (db, reply_message 500 false "Error updating booking" None)
  | Some id =>
      let this := is_booking id (gym_gymId req) in
      match findOne this (bookings db) with
      | None => (db, reply_message 404 false "Booking not found" None)
      | Some b =>
          (set_bookings
             (updateOne this (BookingModel.update now (gym_body req))
                (bookings db))
             db,
           reply_booking 200 (plain (BookingModel.update now (gym_body req) b)))
      end
  end.

(** [DELETE /:id] *)
Definition delete (req : GymRequest) (db : Database) : Database * Reply :=
  match gym_params_id req with
  | None => (db, reply_message 500 false "Error deleting booking" None)
  | Some id =>
      let this := is_booking id (gym_gymId req) in
      match findOne this (bookings db) with
      | None => (db, reply_message 404 false "Booking not found" None)
      | Some _ =>
          (set_bookings (deleteOne this (bookings db)) db,
           reply_message 200 true "Booking deleted successfully" None)
      end
  end.

(** The router: the method and the path choose the handler. *)
Inductive Route : Type :=
| GET_all
| GET_one
| POST (now : Date)
| PUT (now : Date)
| DELETE.

Definition router (r : Route) (req : GymRequest) : Database -> Database * Reply :=
  match r with
  | GET_all => get_all req
  | GET_one => get_one req
  | POST now => post now req
  | PUT now => put now req
  | DELETE => delete req
  end.

End BookingRoutes.

(** ** The member routes *)

(** A request to the member routes: [req.user.gymId] may be missing, and
    the [:id] of the path is [None] when its text is no ObjectId. *)
Record MemberRequest : Type := mkMemberRequest
  { member_gymId : option ObjectId;
    member_params_id : option ObjectId;
    member_body : MemberFields.t }.

Inductive MemberReply : Type :=
| data_members (members : list Member.t)
| data_member (status : Z) (member : Member.t)
| data_empty
| failure (status : Z) (message : string).

Definition member_status (r : MemberReply) : Z :=
  match r with
  | data_member st _ => st
  | failure st _ => st
  | _ => 200
  end.

Module MemberRoutes.

Section Routes.

Open Scope string_scope.

(** The schema of the members is not in the sources.  What it makes of the
    fields of a new member (defaults, setters) and which it accepts; what an
    update makes of the stored fields, which depends on what the library
    does with the paths that the body leaves out, and which updates the
    validators accept; and whether the indexes of the collection admit a
    document that is about to be written. *)
Variable construct : MemberFields.t -> MemberFields.t.
Variable validMember : MemberFields.t -> bool.
Variable assignFields : MemberFields.t -> MemberFields.t -> MemberFields.t.
Variable validUpdate : MemberFields.t -> bool.
Variable admits : list Member.t -> Member.t -> bool.

Definition of_gym (gym : ObjectId) (m : Member.t) : bool :=
  (Member.gymId m =? gym)%N.

(** [{ _id: req.params.id, gymId: req.user.gymId }] *)
Definition is_member (id gym : ObjectId) (m : Member.t) : bool :=
  (Member._id m =? id)%N && (Member.gymId m =? gym)%N.

(** The test every handler starts with. *)
Definition with_gym (req : MemberRequest)
    (handler : ObjectId -> Database -> Database * MemberReply)
    : Database -> Database * MemberReply :=
  fun db =>
    match member_gymId req with
    | None => (db, failure 400 "No gym associated with this account")
    | Some gym => handler gym db
    end.

(** [GET /] *)
Definition get_all (req : MemberRequest) : Database -> Database * MemberReply :=
  with_gym req (fun gym db =>
    (db, data_members (filter (of_gym gym) (members db)))).

(** [GET /:id].  With an [:id] that is no ObjectId the query throws a
    CastError, and the handler answers from its [catch]. *)
Definition get_one (req : MemberRequest) : Database -> Database * MemberReply :=
  with_gym req (fun gym db =>
    match member_params_id req with
    | None => (db, failure 500 "Error fetching member")
    | Some id =>
        match findOne (is_member id gym) (members db) with
        | None => (db, failure 404 "Member not found")
        | Some m => (db, data_member 200 m)
        end
    end).

(** [POST /] *)
Definition post (req : MemberRequest) : Database -> Database * MemberReply :=
  with_gym req (fun gym db =>
    let fields := construct (member_body req) in
    let db1 := use_id db in
    let newMember := Member.mk (nextId (store db)) gym fields in
    if validMember fields && admits (members db) newMember
    then
      (set_members (members db1 ++ [newMember]) db1, data_member 201 newMember)
    else (db1, failure 500 "Error creating member")).

(** [PUT /:id]: the validators run on the update before the query is
    sent. *)
Definition put (req : MemberRequest) : Database -> Database * MemberReply :=
  with_gym req (fun gym db =>
    match member_params_id req with
    | None => (db, failure 500 "Error updating member")
    | Some id =>
        let this := is_member id gym in
        let update m :=
          Member.mk (Member._id m) (Member.gymId m)
                    (assignFields (member_body req) (Member.fields m)) in
        if validUpdate (member_body req)
        then
          match findOne this (members db) with
          | None => (db, failure 404 "Member not found")
          | Some m =>
              if admits (members db) (update m)
              then (set_members (updateOne this update (members db)) db,
                    data_member 200 (update m))
              else (db, failure 500 "Error updating member")
          end
        else (db, failure 500 "Error updating member")
    end).

(** [DELETE /:id] *)
Definition delete (req : MemberRequest) : Database -> Database * MemberReply :=
  with_gym req (fun gym db =>
    match member_params_id req with
    | None => (db, failure 500 "Error deleting member")
    | Some id =>
        let this := is_member id gym in
        match findOne this (members db) with
        | None => (db, failure 404 "Member not found")
        | Some _ => (set_members (deleteOne this (members db)) db, data_empty)
        end
    end).

(** The router: the method and the path choose the handler. *)
Inductive Route : Type :=
| GET_all
| GET_one
| POST
| PUT
| DELETE.

Definition router (r : Route) (req : MemberRequest)
    : Database -> Database * MemberReply :=
  match r with
  | GET_all => get_all req
  | GET_one => get_one req
  | POST => post req
  | PUT => put req
  | DELETE => delete req
  end.

End Routes.

End MemberRoutes.

(** ** The customer view of the client *)

Module ViewCustomerModal.

Open Scope string_scope.

Record MembershipStatus : Type := mkMembershipStatus
  { status : string;
    variant : string }.

(** An end date as the component holds it: [null], or a [Date], whose time
    value is [NaN] when it was made of text that is no date. *)
Inductive EndDate : Type :=
| null
| InvalidDate
| ValidDate (time : Date).

Definition msPerDay : Z := 1000 * 60 * 60 * 24.

(** [Math.ceil(x / y)] for integers [x] and [y > 0]; the quotients of the
    time values of dates are far below the precision of a double. *)
Definition ceil_div (x y : Z) : Z := - ((- x) / y).

(** [getMembershipStatus(endDate)], with [today] the value of [new Date()].
    Every comparison with [NaN] is false. *)
Definition getMembershipStatus (today : Date) (endDate : EndDate)
    : MembershipStatus :=
  match endDate with
  | null => mkMembershipStatus "No Membership" "secondary"
  | InvalidDate => mkMembershipStatus "Active" "default"
  | ValidDate time =>
      let diffTime := time - today in
      let diffDays := ceil_div diffTime msPerDay in
      if (diffDays <? 0)%Z
      then mkMembershipStatus "Membership Expired" "destructive"
      else if (diffDays =? 0)%Z
      then mkMembershipStatus "Expiring Today" "destructive"
      else if (diffDays <=? 10)%Z
      then mkMembershipStatus
             ("Expiring in " ++ JSString.String_of_Z diffDays ++ " "
              ++ (if (diffDays =? 1)%Z then "day" else "days"))
             "secondary"
      else mkMembershipStatus "Active" "default"
  end.

(** [membershipEndDate ? membershipEndDate < new Date() : false] *)
Definition isMembershipExpired (today : Date) (endDate : EndDate) : bool :=
  match endDate with
  | ValidDate time => (time <? today)%Z
  | _ => false
  end.

End ViewCustomerModal.

(** ** The add-customer form of the client *)

Module AddCustomerModal.


End AddCustomerModal.

(** ** More sample data *)

Module Examples.

Open Scope string_scope.

(** Asha's assignment with negative fees. *)
Definition create_negative : Request AssignmentBody.t :=
  Sample.request 0 None
    (Sample.assignment_body 1 7 (JSDate.ymd 2024 0 15) 3 (-500)).

(** An assignment whose customer, number 5, is not in the store. *)
Definition assignment_orphan : Assignment.t :=
  Assignment.mk 100 5 3 7 (JSDate.ymd 2024 0 15) 3 (JSDate.ymd 2024 3 14) 500.

Definition store_orphan : Store :=
  set_assignments [assignment_orphan] Sample.store.

(** The renewal of Asha's assignment, billed under gym 8. *)
Definition renew_elsewhere : Request RenewBody.t :=
  Sample.request 100 None
    (Sample.renew_body 8 (JSDate.ymd 2024 3 15) (JSDate.ymd 2024 6 14) 3 450).

(** Asha's assignment is given to Bina. *)
Definition update_to_bina : Request AssignmentBody.t :=
  Sample.request 100 None
    (Sample.assignment_body 2 7 (JSDate.ymd 2024 0 15) 4 600).

(** The second invoice was created before the first. *)
Definition invoice (id : ObjectId) (number : string) (at_ : Date) : Invoice.t :=
  Invoice.mk id 9 7 None 1 number 100 "INR" (at_ + 1000) [] None at_ at_.

Definition store_out_of_order : Store :=
  set_invoices [invoice 50 "INV00002" 1000; invoice 51 "INV00001" 2000]
    Sample.store.

(** A yoga class in gym 7 and a session on the rowing machine in gym 8. *)
Definition class_body : BookingBody.t :=
  BookingBody.mk None None (Some 1%N) (Some "class") None
    (Some (JSDate.ymd 2024 0 15)) (Some (JSDate.ymd 2024 0 15 + 3600000))
    (Some "yoga-1") (Some "Yoga") None None None None None None
    (Some (inject_Z 300)) None (Some "UPI").

Definition yoga : Booking.t :=
  BookingModel.create (JSDate.ymd 2024 0 10) 20 9 7 class_body.

Definition rowing : Booking.t :=
  Booking.mk 21 10 8 (Some 2%N) (Some "equipment") "scheduled"
    (Some (JSDate.ymd 2024 0 16)) (Some (JSDate.ymd 2024 0 16 + 1800000))
    None None None None (Some "rower-2") (Some "Rowing machine") None 10
    (Some (inject_Z 100)) "INR" (JSDate.ymd 2024 0 11) (JSDate.ymd 2024 0 11)
    (Some "Cash").

Definition no_fields : MemberFields.t :=
  MemberFields.mk None None None None None None None.

Definition named (name : string) : MemberFields.t :=
  MemberFields.mk (Some name) None None (Some "basic") None None (Some "active").

Definition chitra : Member.t := Member.mk 30 7 (named "Chitra").

Definition deepak : Member.t := Member.mk 31 8 (named "Deepak").

Definition db : Database :=
  mkDatabase Sample.store [yoga; rowing] [chitra; deepak].

Definition empty_body : BookingBody.t :=
  BookingBody.mk None None None None None None None None None None None None
    None None None None None None.

(** A request of user 9 in gym [gym]. *)
Definition gym_request (gym id : ObjectId) (b : BookingBody.t) : GymRequest :=
  mkGymRequest 9 gym (Some id) b.

(** A request of user 9 in gym [gym] whose [:id] is no ObjectId. *)
Definition gym_request_malformed (gym : ObjectId) (b : BookingBody.t)
    : GymRequest :=
  mkGymRequest 9 gym None b.

(** The body that moves a booking to gym 8. *)
Definition to_gym_8 : BookingBody.t :=
  BookingBody.mk None (Some 8%N) None None None None None None None None None
    None None None None None None None.

(** The body that sets the price to -50. *)
Definition negative_price : BookingBody.t :=
  BookingBody.mk None None None None None None None None None None None None
    None None None (Some (inject_Z (-50))) None None.

(** A schema that takes the fields as they come and accepts them all,
    with no unique index. *)
Definition member_router :=
  MemberRoutes.router (fun f => f) (fun _ => true) (fun new _ => new)
    (fun _ => true) (fun _ _ => true).

End Examples.

(** * Properties *)

(** ** Facts about dates *)

Module JSDateFacts.

Import JSDate.

Lemma DayFromYear_alt (y : Z) :
  DayFromYear y
  = 365 * (y - 1970) + (y - 1) / 4 - (y - 1) / 100 + (y - 1) / 400 - 477.
Proof.
  unfold DayFromYear.
  replace (y - 1969) with (y - 1 + (-492) * 4) by lia.
  replace (y - 1901) with (y - 1 + (-19) * 100) by lia.
  replace (y - 1601) with (y - 1 + (-4) * 400) by lia.
  rewrite !Z.div_add by lia. lia.
Qed.

Lemma div_succ (c y : Z) :
  0 < c -> (y - 1 + 1) / c = (y - 1) / c + (if y mod c =? 0 then 1 else 0).
Proof.
  intros Hc. replace (y - 1 + 1) with y by lia.
  pose proof (Z.div_mod y c) as Hy.
  pose proof (Z.mod_pos_bound y c Hc) as Hr.
  destruct (Z.eqb_spec (y mod c) 0) as [E|E].
  - assert ((y - 1) / c = y / c - 1)
      by (symmetry; apply Z.div_unique with (r := c - 1); lia).
    lia.
  - assert ((y - 1) / c = y / c)
      by (symmetry; apply Z.div_unique with (r := y mod c - 1); lia).
    lia.
Qed.

Lemma mod_multiple (a b y : Z) : 0 < a -> 0 < b -> y mod (a * b) = 0 -> y mod a = 0.
Proof.
  intros Ha Hb H.
  rewrite (Z.div_mod y (a * b)) by lia. rewrite H, Z.add_0_r.
  replace (a * b * (y / (a * b))) with (b * (y / (a * b)) * a) by lia.
  apply Z.mod_mul. lia.
Qed.

(** A year has as many days as [DaysInYear] says. *)
Lemma DayFromYear_succ (y : Z) :
  DayFromYear (y + 1) = DayFromYear y + DaysInYear y.
Proof.
  rewrite !DayFromYear_alt. unfold DaysInYear.
  replace (y + 1 - 1) with (y - 1 + 1) by lia.
  rewrite !div_succ by lia.
  destruct (Z.eqb_spec (y mod 400) 0) as [E4|E4].
  - assert (E1 : y mod 100 = 0) by (apply (mod_multiple 100 4); [lia|lia|exact E4]).
    assert (E : y mod 4 = 0) by (apply (mod_multiple 4 25); [lia|lia|exact E1]).
    rewrite E1, E. cbn [Z.eqb negb]. lia.
  - destruct (Z.eqb_spec (y mod 100) 0) as [E1|E1].
    + assert (E : y mod 4 = 0) by (apply (mod_multiple 4 25); [lia|lia|exact E1]).
      rewrite E. cbn [Z.eqb negb]. lia.
    + destruct (Z.eqb_spec (y mod 4) 0) as [E|E]; cbn [negb]; lia.
Qed.

Lemma DaysInYear_bounds (y : Z) : 365 <= DaysInYear y <= 366.
Proof.
  unfold DaysInYear.
  repeat match goal with |- context [if ?b then _ else _] => destruct b end; lia.
Qed.

Lemma year_guess_bounds (d : Z) :
  let y := 1970 + 400 * d / 146097 in
  DayFromYear (y - 1) <= d < DayFromYear (y + 2).
Proof.
  intros y.
  replace (y + 2) with (y + 1 + 1) by lia.
  rewrite (DayFromYear_succ (y + 1)), (DayFromYear_succ y).
  pose proof (DayFromYear_succ (y - 1)) as Hp.
  replace (y - 1 + 1) with y in Hp by lia.
  pose proof (DaysInYear_bounds y). pose proof (DaysInYear_bounds (y + 1)).
  pose proof (DaysInYear_bounds (y - 1)).
  assert (DayFromYear y - 365 <= d < DayFromYear y + 365 + 365); [|lia].
  rewrite DayFromYear_alt. subst y.
  Z.div_mod_to_equations. lia.
Qed.

(** [YearFromTime] is the year whose days contain [Day t]. *)
Lemma YearFromTime_spec (t : Z) :
  DayFromYear (YearFromTime t) <= Day t < DayFromYear (YearFromTime t + 1).
Proof.
  unfold YearFromTime.
  pose proof (year_guess_bounds (Day t)) as H. cbv zeta in H.
  set (y := 1970 + 400 * Day t / 146097) in *.
  destruct (Z.ltb_spec (Day t) (DayFromYear y)).
  - replace (y - 1 + 1) with y by lia. lia.
  - destruct (Z.leb_spec (DayFromYear (y + 1)) (Day t)).
    + replace (y + 1 + 1) with (y + 2) by lia. lia.
    + lia.
Qed.

Lemma DayFromYear_lt (y y' : Z) : y < y' -> DayFromYear y < DayFromYear y'.
Proof.
  intros H. replace y' with (y + 1 + Z.of_nat (Z.to_nat (y' - y - 1))) by lia.
  induction (Z.to_nat (y' - y - 1)) as [|n IH].
  - rewrite Z.add_0_r, DayFromYear_succ. pose proof (DaysInYear_bounds y). lia.
  - replace (y + 1 + Z.of_nat (S n)) with (y + 1 + Z.of_nat n + 1) by lia.
    rewrite DayFromYear_succ.
    pose proof (DaysInYear_bounds (y + 1 + Z.of_nat n)). lia.
Qed.

(** It is the largest year that starts at or before [t]. *)
Lemma YearFromTime_largest (t y : Z) :
  TimeFromYear y <= t <-> y <= YearFromTime t.
Proof.
  pose proof (YearFromTime_spec t) as [Hlo Hhi].
  unfold TimeFromYear, Day, msPerDay in *.
  split; intros H.
  - destruct (Z_le_gt_dec y (YearFromTime t)) as [|Hgt]; [assumption|exfalso].
    assert (DayFromYear (YearFromTime t + 1) <= DayFromYear y).
    { destruct (Z.eq_dec y (YearFromTime t + 1)) as [->|]; [lia|].
      apply Z.lt_le_incl, DayFromYear_lt. lia. }
    assert (DayFromYear y <= t / 86400000)
      by (apply Z.div_le_lower_bound; lia).
    lia.
  - assert (DayFromYear y <= DayFromYear (YearFromTime t)).
    { destruct (Z.eq_dec y (YearFromTime t)) as [->|]; [lia|].
      apply Z.lt_le_incl, DayFromYear_lt. lia. }
    pose proof (Z.mul_div_le t 86400000). lia.
Qed.

Lemma MonthFromTime_range (t : Z) : 0 <= MonthFromTime t <= 11.
Proof.
  unfold MonthFromTime.
  repeat match goal with |- context [if ?b then _ else _] => destruct b end; lia.
Qed.

Lemma DayWithinYear_range (t : Z) :
  0 <= DayWithinYear t < DaysInYear (YearFromTime t).
Proof.
  pose proof (YearFromTime_spec t) as H.
  rewrite DayFromYear_succ in H. unfold DayWithinYear. lia.
Qed.

Lemma InLeapYearOf_days (y : Z) : DaysInYear y = 365 + InLeapYearOf y.
Proof.
  unfold InLeapYearOf. pose proof (DaysInYear_bounds y).
  destruct (Z.eqb_spec (DaysInYear y) 366); lia.
Qed.

(** The day of the month is a day of that month. *)
Lemma DateFromTime_range (t : Z) :
  1 <= DateFromTime t <= DaysInMonth (YearFromTime t) (MonthFromTime t).
Proof.
  pose proof (DayWithinYear_range t) as H.
  rewrite InLeapYearOf_days in H.
  unfold DateFromTime, MonthFromTime, InLeapYear in *.
  assert (Hl : 0 <= InLeapYearOf (YearFromTime t) <= 1)
    by (unfold InLeapYearOf; destruct (_ =? _); lia).
  set (l := InLeapYearOf (YearFromTime t)) in *.
  set (d := DayWithinYear t) in *.
  repeat match goal with
         | |- context [if ?a <? ?b then _ else _] => destruct (Z.ltb_spec a b)
         end;
    cbn [DayBeforeMonth DaysInMonth]; fold l; lia.
Qed.

(** [MakeDay] on the year and month of [t] counts days from [t]'s own. *)
Lemma MakeDay_of_time (t date : Z) :
  MakeDay (YearFromTime t) (MonthFromTime t) date
  = Day t + (date - DateFromTime t).
Proof.
  pose proof (MonthFromTime_range t) as Hm.
  unfold MakeDay, DateFromTime, DayWithinYear, InLeapYear.
  rewrite Z.div_small, Z.mod_small, Z.add_0_r by lia. lia.
Qed.

Lemma Day_MakeDate (d time : Z) :
  0 <= time < msPerDay -> Day (MakeDate d time) = d.
Proof.
  intros H. unfold Day, MakeDate. symmetry.
  apply Z.div_unique with (r := time); unfold msPerDay in *; lia.
Qed.

Lemma TimeWithinDay_MakeDate (d time : Z) :
  0 <= time < msPerDay -> TimeWithinDay (MakeDate d time) = time.
Proof.
  intros H. unfold TimeWithinDay, MakeDate. symmetry.
  apply Z.mod_unique with (q := d); unfold msPerDay in *; lia.
Qed.

Lemma TimeWithinDay_range (t : Z) : 0 <= TimeWithinDay t < msPerDay.
Proof. unfold TimeWithinDay. apply Z.mod_pos_bound. reflexivity. Qed.

Lemma MakeDate_Day (t : Z) : MakeDate (Day t) (TimeWithinDay t) = t.
Proof.
  unfold MakeDate, Day, TimeWithinDay.
  pose proof (Z.div_mod t msPerDay). unfold msPerDay in *. lia.
Qed.

Section Local.

Variable LocalTZA : Z.

(** Setting the day of the month [k] days away moves the date by [k] days. *)
Lemma setDate_shift (t k : Z) :
  setDate LocalTZA t (getDate LocalTZA t + k) = t + k * msPerDay.
Proof.
  unfold setDate, getDate. cbv zeta.
  rewrite MakeDay_of_time.
  pose proof (MakeDate_Day (LocalTime LocalTZA t)) as H.
  unfold MakeDate, UTC, LocalTime in *. lia.
Qed.

(** [setHours(0, 0, 0, 0)] is the local midnight before [t]. *)
Lemma setHours_midnight (t : Z) :
  setHours LocalTZA t 0 0 0 0 = Day (LocalTime LocalTZA t) * msPerDay - LocalTZA.
Proof. unfold setHours, UTC, MakeDate, MakeTime. lia. Qed.

Lemma setHours_last_ms (t : Z) :
  setHours LocalTZA t 23 59 59 999
  = Day (LocalTime LocalTZA t) * msPerDay + (msPerDay - 1) - LocalTZA.
Proof. unfold setHours, UTC, MakeDate, MakeTime, msPerDay. lia. Qed.

Lemma Day_le_iff (d t : Z) : d * msPerDay <= t <-> d <= Day t.
Proof.
  unfold Day, msPerDay. split; intros H.
  - apply Z.div_le_lower_bound; lia.
  - pose proof (Z.mul_div_le t 86400000). lia.
Qed.

Lemma Day_ge_iff (d t : Z) : t <= d * msPerDay + (msPerDay - 1) <-> Day t <= d.
Proof.
  unfold Day, msPerDay. split; intros H.
  - assert (t / 86400000 < d + 1); [|lia].
    apply Z.div_lt_upper_bound; lia.
  - pose proof (Z.div_mod t 86400000).
    pose proof (Z.mod_pos_bound t 86400000). lia.
Qed.

End Local.

End JSDateFacts.

(** ** Facts about collections *)

Section CollectionFacts.

Context {A : Type}.
Variable id_of : A -> ObjectId.

Lemma findById_id (id : ObjectId) (l : list A) (d : A) :
  findById id_of id l = Some d -> id_of d = id.
Proof.
  unfold findById. intros H. apply find_some in H as [_ H].
  now apply N.eqb_eq.
Qed.

Lemma findById_In (id : ObjectId) (l : list A) (d : A) :
  findById id_of id l = Some d -> In d l.
Proof. unfold findById. intros H. now apply find_some in H. Qed.

Lemma findById_updateById (id id' : ObjectId) (f : A -> A) (l : list A) :
  (forall d, id_of (f d) = id_of d) ->
  findById id_of id' (updateById id_of id f l)
  = if (id' =? id)%N then option_map f (findById id_of id l)
    else findById id_of id' l.
Proof.
  intros Hf. unfold findById. induction l as [|d r IH]; simpl.
  - now destruct (id' =? id)%N.
  - destruct (N.eqb_spec (id_of d) id) as [E|E]; simpl.
    + rewrite Hf. destruct (N.eqb_spec id' id) as [->|E'].
      * apply N.eqb_eq in E. now rewrite E.
      * destruct (N.eqb_spec (id_of d) id'); [congruence|reflexivity].
    + destruct (N.eqb_spec (id_of d) id') as [E'|E'].
      * destruct (N.eqb_spec id' id); [congruence|reflexivity].
      * exact IH.
Qed.

Lemma findById_updateById_same (id : ObjectId) (f : A -> A) (l : list A) :
  (forall d, id_of (f d) = id_of d) ->
  findById id_of id (updateById id_of id f l)
  = option_map f (findById id_of id l).
Proof.
  intros Hf. rewrite findById_updateById by exact Hf. now rewrite N.eqb_refl.
Qed.

Lemma updateById_length (id : ObjectId) (f : A -> A) (l : list A) :
  List.length (updateById id_of id f l) = List.length l.
Proof.
  induction l as [|d r IH]; simpl; [reflexivity|].
  destruct (id_of d =? id)%N; simpl; congruence.
Qed.

Lemma updateById_ids (id : ObjectId) (f : A -> A) (l : list A) :
  (forall d, id_of d = id -> id_of (f d) = id) ->
  map id_of (updateById id_of id f l) = map id_of l.
Proof.
  intros Hf. induction l as [|d r IH]; simpl; [reflexivity|].
  destruct (N.eqb_spec (id_of d) id) as [E|E]; simpl.
  - rewrite (Hf d E). now rewrite E.
  - now rewrite IH.
Qed.

(** Only documents with the given [_id] can change. *)
Lemma updateById_other (id : ObjectId) (f : A -> A) (l : list A) (n : nat) (d : A) :
  nth_error l n = Some d -> id_of d <> id ->
  nth_error (updateById id_of id f l) n = Some d.
Proof.
  revert n. induction l as [|x r IH]; intros [|n] H Hd; simpl in *; try discriminate.
  - injection H as ->. now destruct (N.eqb_spec (id_of d) id).
  - destruct (id_of x =? id)%N; simpl; [exact H|now apply IH].
Qed.

Lemma mostRecent_None (createdAt : A -> Date) (l : list A) :
  mostRecent createdAt l = None <-> l = [].
Proof.
  destruct l as [|d r]; simpl; [tauto|].
  split; [|discriminate].
  destruct (mostRecent createdAt r); [destruct (_ <? _)|]; discriminate.
Qed.

(** [mostRecent] returns a document of the list, none of which is newer. *)
Lemma mostRecent_spec (createdAt : A -> Date) (l : list A) (d : A) :
  mostRecent createdAt l = Some d ->
  In d l /\ forall d', In d' l -> createdAt d' <= createdAt d.
Proof.
  revert d. induction l as [|x r IH]; simpl; intros d H; [discriminate|].
  destruct (mostRecent createdAt r) as [m|] eqn:E.
  - destruct (IH m eq_refl) as [Hin Hmax].
    destruct (Z.ltb_spec (createdAt x) (createdAt m)); injection H as <-.
    + split; [now right|]. intros d' [<-|Hd']; [lia|now apply Hmax].
    + split; [now left|]. intros d' [<-|Hd']; [lia|].
      specialize (Hmax d' Hd'). lia.
  - injection H as <-. apply mostRecent_None in E. subst r.
    split; [now left|]. intros d' [<-|[]]. lia.
Qed.

(** The document inserted last is the most recent one when it is newer than
    all the others. *)
Lemma mostRecent_snoc (createdAt : A -> Date) (l : list A) (d : A) :
  (forall d', In d' l -> createdAt d' < createdAt d) ->
  mostRecent createdAt (l ++ [d]) = Some d.
Proof.
  induction l as [|x r IH]; simpl; intros H; [reflexivity|].
  rewrite IH by (intros; apply H; now right).
  destruct (Z.ltb_spec (createdAt x) (createdAt d)) as [_|Hge]; [reflexivity|].
  specialize (H x (or_introl eq_refl)). lia.
Qed.

Lemma findOneSorted_spec (matches : A -> bool) (createdAt : A -> Date)
    (l : list A) (d : A) :
  findOneSorted matches createdAt l = Some d ->
  In d l /\ matches d = true
  /\ forall d', In d' l -> matches d' = true -> createdAt d' <= createdAt d.
Proof.
  unfold findOneSorted. intros H. apply mostRecent_spec in H as [Hin Hmax].
  apply filter_In in Hin as [Hin Hm]. repeat split; try assumption.
  intros d' Hd' Hm'. apply Hmax. now apply filter_In.
Qed.

Lemma findOneSorted_None (matches : A -> bool) (createdAt : A -> Date)
    (l : list A) :
  findOneSorted matches createdAt l = None <->
  forall d, In d l -> matches d = false.
Proof.
  unfold findOneSorted. rewrite mostRecent_None. split.
  - intros H d Hd. destruct (matches d) eqn:E; [|reflexivity].
    assert (In d (filter matches l)) as Hin by now apply filter_In.
    rewrite H in Hin. destruct Hin.
  - intros H. induction l as [|x r IH]; simpl; [reflexivity|].
    rewrite (H x (or_introl eq_refl)). apply IH. intros d Hd. apply H. now right.
Qed.

Lemma deleteMany_none_left (matches : A -> bool) (l : list A) :
  forallb (fun d => negb (matches d)) (deleteMany matches l) = true.
Proof.
  unfold deleteMany. apply forallb_forall. intros d Hd.
  now apply filter_In in Hd.
Qed.

Lemma deleteMany_keeps (matches : A -> bool) (l : list A) (d : A) :
  In d (deleteMany matches l) <-> In d l /\ matches d = false.
Proof.
  unfold deleteMany. rewrite filter_In, negb_true_iff. tauto.
Qed.

(** The document that a query by [_id] finds, in its place. *)
Lemma findById_split (id : ObjectId) (l : list A) (d : A) :
  findById id_of id l = Some d ->
  exists before after,
    l = before ++ d :: after
    /\ (forall b, In b before -> id_of b <> id)
    /\ id_of d = id.
Proof.
  unfold findById. induction l as [|x r IH]; cbn; [discriminate|].
  destruct (N.eqb_spec (id_of x) id) as [E|E].
  - intros [= <-]. exists [], r. repeat split; [intros b []|exact E].
  - intros H. destruct (IH H) as (before & after & -> & Hb & Hd).
    exists (x :: before), after. repeat split; [|exact Hd].
    intros b [<-|Hin]; [exact E|now apply Hb].
Qed.

Lemma updateById_at (id : ObjectId) (f : A -> A) (before after : list A)
    (d : A) :
  (forall b, In b before -> id_of b <> id) -> id_of d = id ->
  updateById id_of id f (before ++ d :: after) = before ++ f d :: after.
Proof.
  intros Hb Hd. induction before as [|x r IH]; cbn.
  - apply N.eqb_eq in Hd. now rewrite Hd.
  - destruct (N.eqb_spec (id_of x) id) as [E|E].
    + exfalso. apply (Hb x); [now left|exact E].
    + f_equal. apply IH. intros b Hin. apply Hb. now right.
Qed.

Lemma deleteById_at (id : ObjectId) (before after : list A) (d : A) :
  (forall b, In b before -> id_of b <> id) -> id_of d = id ->
  deleteById id_of id (before ++ d :: after) = before ++ after.
Proof.
  intros Hb Hd. induction before as [|x r IH]; cbn.
  - apply N.eqb_eq in Hd. now rewrite Hd.
  - destruct (N.eqb_spec (id_of x) id) as [E|E].
    + exfalso. apply (Hb x); [now left|exact E].
    + f_equal. apply IH. intros b Hin. apply Hb. now right.
Qed.

(** With ids that are not shared, a query by the [_id] of a stored document
    finds that document. *)
Lemma findById_unique (l : list A) (d : A) :
  NoDup (map id_of l) -> In d l -> findById id_of (id_of d) l = Some d.
Proof.
  unfold findById. induction l as [|x r IH]; cbn; [tauto|].
  intros Hnd [->|Hin]; [now rewrite N.eqb_refl|].
  apply NoDup_cons_iff in Hnd as [Hx Hnd].
  destruct (N.eqb_spec (id_of x) (id_of d)) as [E|E]; [|now apply IH].
  exfalso. apply Hx. rewrite E. now apply in_map.
Qed.

End CollectionFacts.

(** ** Facts about strings and numbers *)

Module JSStringFacts.

Import JSString.

Open Scope string_scope.

Lemma digit_char_spec (d : N) :
  (d < 10)%N ->
  is_digit (digit_char d) = true /\ (N_of_ascii (digit_char d) - 48)%N = d.
Proof.
  intros H. rewrite <- (N2Nat.id d).
  assert (Hn : (N.to_nat d < 10)%nat) by lia.
  revert Hn. generalize (N.to_nat d). intros k Hk.
  do 10 (destruct k as [|k]; [split; reflexivity|]). lia.
Qed.

(** Reading back the digits that [digits_from] writes. *)
Lemma parse_digits_from (fuel : nat) :
  forall (n : N) (s : string),
    (n < 10 ^ N.of_nat fuel)%N ->
    parse_digits (digits_from fuel n s) 0 = parse_digits s n.
Proof.
  induction fuel as [|fuel IH]; intros n s Hn.
  - simpl in *. assert (n = 0%N) by lia. now subst.
  - cbn [digits_from].
    assert (Hd : (n mod 10 < 10)%N) by (apply N.mod_lt; lia).
    destruct (digit_char_spec _ Hd) as [Hisd Hval].
    pose proof (N.div_mod n 10 ltac:(lia)) as Hdm.
    destruct (N.eqb_spec (n / 10) 0) as [E|E].
    + cbn [parse_digits]. rewrite Hisd, Hval. f_equal. lia.
    + rewrite IH.
      * cbn [parse_digits]. rewrite Hisd, Hval. f_equal. lia.
      * rewrite Nat2N.inj_succ, N.pow_succ_r' in Hn.
        apply N.Div0.div_lt_upper_bound; lia.
Qed.

Lemma String_of_N_fuel (n : N) :
  (n < 10 ^ N.of_nat (S (N.to_nat (N.log2 n))))%N.
Proof.
  rewrite Nat2N.inj_succ, N2Nat.id.
  destruct (N.eq_dec n 0) as [->|Hn]; [reflexivity|].
  destruct (N.log2_spec n ltac:(lia)) as [_ Hhi].
  eapply N.lt_le_trans; [exact Hhi|].
  apply N.pow_le_mono_l. lia.
Qed.

(** [parseInt(String(n), 10)] is [n]. *)
Lemma parse_String_of_N (n : N) : parse_digits (String_of_N n) 0 = n.
Proof.
  unfold String_of_N. rewrite parse_digits_from by apply String_of_N_fuel.
  reflexivity.
Qed.

Lemma all_digits_from (fuel : nat) :
  forall (n : N) (s : string),
    all_digits s = true -> all_digits (digits_from fuel n s) = true.
Proof.
  induction fuel as [|fuel IH]; intros n s Hs; [exact Hs|].
  cbn [digits_from].
  assert (Hd : (n mod 10 < 10)%N) by (apply N.mod_lt; lia).
  destruct (digit_char_spec _ Hd) as [Hisd _].
  assert (all_digits (String (digit_char (n mod 10)) s) = true)
    by (cbn [all_digits]; now rewrite Hisd).
  destruct (n / 10 =? 0)%N; [assumption|now apply IH].
Qed.

Lemma digits_from_nonempty (fuel : nat) :
  forall (n : N) (s : string),
    (fuel <> 0%nat \/ s <> "") -> digits_from fuel n s <> "".
Proof.
  induction fuel as [|fuel IH]; intros n s H.
  - destruct H as [H|H]; [congruence|exact H].
  - cbn [digits_from]. destruct (n / 10 =? 0)%N; [discriminate|].
    apply IH. right. discriminate.
Qed.

Lemma all_digits_String_of_N (n : N) : all_digits (String_of_N n) = true.
Proof. apply all_digits_from. reflexivity. Qed.

Lemma String_of_N_nonempty (n : N) : String_of_N n <> "".
Proof. apply digits_from_nonempty. left. discriminate. Qed.

Lemma take_digits_all (s : string) : all_digits s = true -> take_digits s = s.
Proof.
  induction s as [|c r IH]; simpl; [reflexivity|].
  intros H. apply andb_prop in H as [Hc Hr]. rewrite Hc. now rewrite IH.
Qed.

Lemma all_digits_take_digits (s : string) : all_digits (take_digits s) = true.
Proof.
  induction s as [|c r IH]; simpl; [reflexivity|].
  destruct (is_digit c) eqn:E; simpl; [now rewrite E|reflexivity].
Qed.

(** What the pattern captures is a non-empty string of digits. *)
Lemma match_INV_digits (s d : string) :
  match_INV s = Some d -> all_digits d = true /\ d <> "".
Proof.
  assert (Hat : forall s, capture_INV_at s = Some d ->
                          all_digits d = true /\ d <> "").
  { intros s0. unfold capture_INV_at.
    destruct (strip_prefix "INV" s0) as [t|]; [|discriminate].
    pose proof (all_digits_take_digits t) as Ht.
    destruct (take_digits t) as [|c r]; [discriminate|].
    intros H. injection H as <-. split; [exact Ht|discriminate]. }
  induction s as [|c r IH]; cbn [match_INV].
  - destruct (capture_INV_at "") eqn:E; [|discriminate].
    intros H. injection H as ->. now apply Hat in E.
  - destruct (capture_INV_at (String c r)) eqn:E.
    + intros H. injection H as ->. now apply Hat in E.
    + exact IH.
Qed.

(** An invoice number made of [INV] and digits is matched whole. *)
Lemma match_INV_number (d : string) :
  all_digits d = true -> d <> "" -> match_INV ("INV" ++ d) = Some d.
Proof.
  intros Hd Hne.
  assert (E : capture_INV_at ("INV" ++ d) = Some d).
  { unfold capture_INV_at. cbn [append strip_prefix Ascii.eqb Bool.eqb].
    rewrite take_digits_all by exact Hd.
    destruct d; [congruence|reflexivity]. }
  change ("INV" ++ d) with (String "I" ("NV" ++ d)) in *.
  cbn [match_INV]. now rewrite E.
Qed.

Lemma parseInt10_digits (d : string) :
  all_digits d = true -> d <> "" -> parseInt10 d = Some (parse_digits d 0).
Proof.
  intros Hd Hne. destruct d as [|c r]; [congruence|].
  unfold parseInt10. cbn [all_digits] in Hd.
  apply andb_prop in Hd as [-> _]. reflexivity.
Qed.

Lemma all_digits_app (s t : string) :
  all_digits (s ++ t) = all_digits s && all_digits t.
Proof.
  induction s as [|c r IH]; simpl; [reflexivity|].
  now rewrite IH, andb_assoc.
Qed.

Lemma all_digits_repeat_zero (n : nat) : all_digits (repeat_char "0" n) = true.
Proof. induction n; simpl; [reflexivity|exact IHn]. Qed.

Lemma all_digits_padStart (n : nat) (s : string) :
  all_digits s = true -> all_digits (padStart n "0" s) = true.
Proof.
  intros H. unfold padStart.
  now rewrite all_digits_app, all_digits_repeat_zero, H.
Qed.

Lemma padStart_nonempty (n : nat) (c : ascii) (s : string) :
  s <> "" -> padStart n c s <> "".
Proof.
  intros H. unfold padStart. destruct (repeat_char c _); simpl; [exact H|discriminate].
Qed.

(** Leading zeros do not change the value. *)
Lemma parse_digits_padStart (n : nat) (s : string) :
  parse_digits (padStart n "0" s) 0 = parse_digits s 0.
Proof.
  unfold padStart. induction (n - length s)%nat as [|k IH]; simpl; [reflexivity|].
  exact IH.
Qed.

End JSStringFacts.

(** ** Facts about numbers *)

Module JSNumberFacts.

Import JSNumber.

Open Scope N_scope.

(** Below [2 ^ 53] the arithmetic of the hooks is exact. *)
Lemma nearest_exact (v : N) : v < 2 ^ 53 -> nearest v = Finite v.
Proof. intros H. unfold nearest. apply N.ltb_lt in H. now rewrite H. Qed.

Lemma succ_exact (n : N) : n + 1 < 2 ^ 53 -> succ (nearest n) = Finite (n + 1).
Proof.
  intros H. rewrite nearest_exact by lia. cbn [succ]. now apply nearest_exact.
Qed.

Lemma toString_exact (v : N) :
  v < 2 ^ 53 -> toString (Finite v) = JSString.String_of_N v.
Proof. intros H. cbn [toString]. apply N.ltb_lt in H. now rewrite H. Qed.

End JSNumberFacts.

(** ** Facts about the Invoice model *)

Module InvoiceModelFacts.

Import JSString JSStringFacts InvoiceModel.

Open Scope string_scope.

Lemma number_of_digits (k : N) :
  all_digits (padStart 5 "0" (String_of_N k)) = true
  /\ padStart 5 "0" (String_of_N k) <> "".
Proof.
  split.
  - apply all_digits_padStart, all_digits_String_of_N.
  - apply padStart_nonempty, String_of_N_nonempty.
Qed.

Lemma match_number_of (k : N) :
  match_INV (number_of k) = Some (padStart 5 "0" (String_of_N k)).
Proof.
  destruct (number_of_digits k). now apply match_INV_number.
Qed.

(** The numeric suffix of the [k]-th number is [k]. *)
Lemma suffix_number_of (k : N) :
  option_map (fun d => parse_digits d 0) (match_INV (number_of k)) = Some k.
Proof.
  rewrite match_number_of. cbn [option_map].
  now rewrite parse_digits_padStart, parse_String_of_N.
Qed.

Lemma number_of_inj (a b : N) : number_of a = number_of b -> a = b.
Proof.
  intros H. pose proof (suffix_number_of a) as Ha.
  rewrite H, suffix_number_of in Ha. congruence.
Qed.

(** The hooks' number, without the cases that cannot occur: a captured
    group always parses. *)
Lemma nextNumber_spec (lastInvoice : option Invoice.t) :
  nextNumber lastInvoice
  = match lastInvoice with
    | Some li =>
        match match_INV (Invoice.invoiceNumber li) with
        | Some d => JSNumber.succ (JSNumber.nearest (parse_digits d 0))
        | None => JSNumber.Finite 1
        end
    | None => JSNumber.Finite 1
    end.
Proof.
  destruct lastInvoice as [li|]; [|reflexivity].
  unfold nextNumber, truthy_string.
  destruct (String.eqb_spec (Invoice.invoiceNumber li) "") as [E|E].
  - rewrite E. reflexivity.
  - cbn [negb].
    destruct (match_INV (Invoice.invoiceNumber li)) as [d|] eqn:Em; [|reflexivity].
    apply match_INV_digits in Em as [Hd Hne].
    unfold JSNumber.parseInt10. now rewrite parseInt10_digits.
Qed.

(** After the [k]-th number comes the next one, as long as it is below
    [2 ^ 53]. *)
Lemma nextNumber_after (li : Invoice.t) (k : N) :
  Invoice.invoiceNumber li = number_of k ->
  (k + 1 < 2 ^ 53)%N ->
  nextNumber (Some li) = JSNumber.Finite (k + 1).
Proof.
  intros H Hk. rewrite nextNumber_spec, H, match_number_of.
  rewrite parse_digits_padStart, parse_String_of_N.
  now apply JSNumberFacts.succ_exact.
Qed.

Lemma String_of_number_exact (k : N) :
  (k < 2 ^ 53)%N ->
  "INV" ++ padStart 5 "0" (String_of_number (JSNumber.Finite k)) = number_of k.
Proof.
  intros Hk. unfold String_of_number, number_of.
  now rewrite JSNumberFacts.toString_exact.
Qed.

Lemma filter_all {A : Type} (l : list A) : filter (fun _ => true) l = l.
Proof. induction l; simpl; congruence. Qed.

Lemma findLast_snoc (l : list Invoice.t) (i : Invoice.t) :
  (forall d, In d l -> Invoice.createdAt d < Invoice.createdAt i) ->
  findLast (l ++ [i]) = Some i.
Proof.
  intros H. unfold findLast, findOneSorted. rewrite filter_all.
  now apply mostRecent_snoc.
Qed.

Lemma generate_when_empty (coll : list Invoice.t) (this : Invoice.t) :
  Invoice.invoiceNumber this = "" ->
  generateInvoiceNumber coll this
  = Invoice.set_invoiceNumber
      ("INV" ++ padStart 5 "0" (String_of_number (nextNumber (findLast coll))))
      this.
Proof. intros H. unfold generateInvoiceNumber, truthy_string. now rewrite H. Qed.

Lemma generate_when_set (coll : list Invoice.t) (this : Invoice.t) :
  Invoice.invoiceNumber this <> "" -> generateInvoiceNumber coll this = this.
Proof.
  intros H. unfold generateInvoiceNumber, truthy_string.
  now destruct (String.eqb_spec (Invoice.invoiceNumber this) "").
Qed.

(** Saving a new invoice without a number: it gets the generated number and
    is appended, unless validation or the unique index rejects it. *)
Lemma save_new (now : Date) (this : Invoice.t) (s : Store) :
  Invoice.invoiceNumber this = "" ->
  save now true this s
  = let n := nextNumber (findLast (invoices s)) in
    let saved :=
      Invoice.set_updatedAt now
        (Invoice.set_invoiceNumber
           ("INV" ++ padStart 5 "0" (String_of_number n)) this) in
    if negb (validFields this) then (s, Throw (ValidationError "Invoice"))
    else if numberTaken saved (invoices s)
         then (s, Throw (DuplicateKeyError "Invoice"))
         else (set_invoices (invoices s ++ [saved]) s, Ok saved).
Proof.
  intros H. unfold save, bind, gets, modify, throw, ret.
  rewrite (generate_when_empty _ _ H). cbv zeta.
  set (num := "INV" ++ padStart 5 "0"
                         (String_of_number (nextNumber (findLast (invoices s))))).
  assert (Hv : validInvoice (Invoice.set_invoiceNumber num this) = validFields this).
  { unfold validInvoice, validFields.
    cbn [Invoice.invoiceNumber Invoice.amount Invoice.currency Invoice.items
         Invoice.set_invoiceNumber].
    replace (truthy_string num) with true by reflexivity. reflexivity. }
  rewrite Hv. destruct (validFields this); cbn [negb]; [|reflexivity].
  rewrite generate_when_set by (cbn; discriminate).
  cbn [orb andb].
  destruct (numberTaken _ (invoices s)); reflexivity.
Qed.

(** The hooks change nothing but the number. *)
Lemma generate_fields (coll : list Invoice.t) (this : Invoice.t) :
  let g := generateInvoiceNumber coll this in
  Invoice._id g = Invoice._id this
  /\ Invoice.userId g = Invoice.userId this
  /\ Invoice.gymId g = Invoice.gymId this
  /\ Invoice.bookingId g = Invoice.bookingId this
  /\ Invoice.customerId g = Invoice.customerId this
  /\ Invoice.amount g = Invoice.amount this
  /\ Invoice.currency g = Invoice.currency this
  /\ Invoice.dueDate g = Invoice.dueDate this
  /\ Invoice.items g = Invoice.items this
  /\ Invoice.notes g = Invoice.notes this
  /\ Invoice.createdAt g = Invoice.createdAt this
  /\ Invoice.updatedAt g = Invoice.updatedAt this.
Proof.
  unfold generateInvoiceNumber.
  destruct (negb (truthy_string (Invoice.invoiceNumber this)));
    cbn; repeat split.
Qed.

(** Saving a stored invoice again: the hooks run, and the document replaces
    the stored one unless validation or the unique index rejects it. *)
Lemma save_existing (now : Date) (this : Invoice.t) (s : Store) :
  save now false this s
  = let saved :=
      Invoice.set_updatedAt now (generateInvoiceNumber (invoices s) this) in
    if negb (validInvoice (generateInvoiceNumber (invoices s) this))
    then (s, Throw (ValidationError "Invoice"))
    else if negb (Invoice.invoiceNumber this =? Invoice.invoiceNumber saved)
            && numberTaken saved (invoices s)
         then (s, Throw (DuplicateKeyError "Invoice"))
         else (set_invoices
                 (updateById Invoice._id (Invoice._id this) (fun _ => saved)
                    (invoices s)) s,
               Ok saved).
Proof.
  unfold save, bind, gets, modify, throw, ret. cbv zeta.
  destruct (validInvoice (generateInvoiceNumber (invoices s) this)) eqn:Hv;
    cbn [negb]; [|reflexivity].
  assert (Hn : Invoice.invoiceNumber
                 (Invoice.set_updatedAt now (generateInvoiceNumber (invoices s) this))
               <> "").
  { unfold validInvoice in Hv. rewrite !andb_true_iff in Hv.
    destruct Hv as [[[Hn _] _] _]. unfold truthy_string in Hn.
    cbn [Invoice.invoiceNumber Invoice.set_updatedAt].
    now destruct (String.eqb_spec
                    (Invoice.invoiceNumber
                       (generateInvoiceNumber (invoices s) this)) ""). }
  rewrite (generate_when_set _ _ Hn). cbn [orb].
  destruct (generate_fields (invoices s) this) as [Hid _].
  cbn [Invoice._id Invoice.set_updatedAt]. rewrite Hid.
  destruct (_ && _); reflexivity.
Qed.

(** Below [2 ^ 53] the number of the hooks is the next one in the
    sequence. *)
Lemma nextNumber_in_sequence (coll : list Invoice.t) :
  (next_in_sequence coll < 2 ^ 53)%N ->
  nextNumber (findLast coll) = JSNumber.Finite (next_in_sequence coll).
Proof.
  rewrite nextNumber_spec. unfold next_in_sequence, suffix.
  destruct (findLast coll) as [li|]; [|reflexivity].
  destruct (match_INV (Invoice.invoiceNumber li)); cbn [option_map];
    [|reflexivity].
  intros H. now apply JSNumberFacts.succ_exact.
Qed.

Lemma generated_in_sequence (coll : list Invoice.t) :
  (next_in_sequence coll < 2 ^ 53)%N ->
  generated coll = number_of (next_in_sequence coll).
Proof.
  intros H. unfold generated. rewrite nextNumber_in_sequence by exact H.
  now apply String_of_number_exact.
Qed.

Lemma numberTaken_fresh (i : Invoice.t) (coll : list Invoice.t) (k : nat) :
  map Invoice.invoiceNumber coll
  = map (fun j => number_of (N.of_nat j)) (seq 1 k) ->
  Invoice.invoiceNumber i = number_of (N.of_nat (S k)) ->
  numberTaken i coll = false.
Proof.
  intros Hc Hi. unfold numberTaken.
  destruct (existsb _ coll) eqn:E; [exfalso|reflexivity].
  apply existsb_exists in E as (j & Hj & Hsame).
  apply andb_prop in Hsame as [_ Hsame]. apply String.eqb_eq in Hsame.
  assert (Hn : In (Invoice.invoiceNumber j) (map Invoice.invoiceNumber coll))
    by now apply in_map.
  rewrite Hc in Hn. apply in_map_iff in Hn as (m & Hm & Hin).
  apply in_seq in Hin.
  rewrite Hsame, Hi in Hm. apply number_of_inj in Hm. lia.
Qed.

(** Sequential creation continues the sequence: with the first [k] numbers
    in the collection and the [k]-th invoice the most recent, the new
    invoices get the numbers from [k + 1] on. *)
Lemma saveAll_continues (news : list (Date * Invoice.t)) :
  forall (s : Store) (k : nat),
    (N.of_nat (k + List.length news) + 1 < 2 ^ 53)%N ->
    map Invoice.invoiceNumber (invoices s)
    = map (fun j => number_of (N.of_nat j)) (seq 1 k) ->
    nextNumber (findLast (invoices s)) = JSNumber.Finite (N.of_nat (S k)) ->
    (forall d p, In d (invoices s) -> In p news ->
                 Invoice.createdAt d < Invoice.createdAt (snd p)) ->
    Forall (fun p => Invoice.invoiceNumber (snd p) = ""
                     /\ validFields (snd p) = true) news ->
    StronglySorted (fun p q => Invoice.createdAt (snd p) < Invoice.createdAt (snd q))
                   news ->
    exists s',
      saveAll news s = (s', Ok tt)
      /\ map Invoice.invoiceNumber (invoices s')
         = map (fun j => number_of (N.of_nat j)) (seq 1 (k + List.length news)).
Proof.
  induction news as [|[now this] rest IH];
    intros s k Hsafe Hnum Hnext Hnew Hval Hsort.
  - exists s. split; [reflexivity|]. now rewrite Nat.add_0_r.
  - apply Forall_cons_iff in Hval as [[Hempty Hfields] Hval].
    apply StronglySorted_inv in Hsort as [Hsort Hlt].
    cbn [snd] in Hempty, Hfields, Hlt. cbn [List.length] in Hsafe.
    cbn [saveAll]. unfold bind at 1.
    rewrite (save_new _ _ _ Hempty). rewrite Hnext. cbv zeta.
    rewrite String_of_number_exact by lia.
    rewrite Hfields. cbn [negb].
    set (saved := Invoice.set_updatedAt now
                    (Invoice.set_invoiceNumber (number_of (N.of_nat (S k))) this)).
    rewrite (numberTaken_fresh saved (invoices s) k Hnum eq_refl).
    destruct (IH (set_invoices (invoices s ++ [saved]) s) (S k)) as (s' & Hrun & Hres).
    + lia.
    + cbn [invoices set_invoices]. rewrite map_app, Hnum, seq_S, map_app.
      reflexivity.
    + cbn [invoices set_invoices]. rewrite findLast_snoc.
      * rewrite (nextNumber_after saved (N.of_nat (S k)) eq_refl) by lia.
        f_equal. lia.
      * intros d Hd. apply (Hnew d (now, this) Hd). now left.
    + cbn [invoices set_invoices]. intros d p Hd Hp.
      apply in_app_or in Hd as [Hd|[<-|[]]].
      * apply Hnew; [exact Hd|now right].
      * rewrite Forall_forall in Hlt. exact (Hlt p Hp).
    + exact Hval.
    + exact Hsort.
    + exists s'. split; [exact Hrun|].
      rewrite Hres. cbn [List.length]. now rewrite Nat.add_succ_r.
Qed.

End InvoiceModelFacts.

(** ** Facts about the controller *)

Section ControllerFacts.

Variable LocalTZA : Z.
Variable toLocaleDateString : Date -> string.
Variable validAssignment : Assignment.t -> bool.
Variable validTransaction : Transaction.t -> bool.

Local Abbreviation createAssignment :=
  (createAssignment LocalTZA toLocaleDateString validAssignment validTransaction).
Local Abbreviation updateAssignment :=
  (updateAssignment LocalTZA toLocaleDateString validTransaction).
Local Abbreviation renewAssignment :=
  (renewAssignment toLocaleDateString validTransaction).
Local Abbreviation endDate_of_start := (endDate_of_start LocalTZA).

Lemma truthy_Some (x : option Z) (z : Z) :
  truthy x = Some z -> x = Some z /\ z <> 0.
Proof.
  destruct x as [[|p|p]|]; simpl; intros H; try discriminate;
    injection H as <-; split; (reflexivity || discriminate).
Qed.

Lemma truthy_nonzero (z : Z) : z <> 0 -> truthy (Some z) = Some z.
Proof. destruct z; [congruence|reflexivity|reflexivity]. Qed.

Ltac run_in H :=
  cbv beta iota zeta delta
    [bind fresh gets modify ret throw try_catch Assignment_save
     Customer_findByIdAndUpdate Transaction_save Assignment_findByIdAndUpdate
     Assignment_findById Assignment_findByIdAndDelete castObjectId
     customer_of] in H.

Ltac not_this_status H Hst :=
  injection H as <- <-; cbn in Hst; discriminate Hst.

(** What a create that completes successfully has done. *)
Lemma createAssignment_done (now : Date) (req : Request AssignmentBody.t)
    (s s' : Store) (r : Response) :
  createAssignment now req s = (s', r) -> succeeded r = true ->
  exists customerId trainerId gymId startDate duration fees pa inv txn,
    body req = AssignmentBody.mk (Some customerId) (Some trainerId) (Some gymId)
                 (Some startDate) (Some duration) (Some fees)
    /\ r = json_bundle 201 pa inv txn
    /\ assignments s'
       = assignments s
         ++ [Assignment.mk (nextId s) customerId trainerId gymId startDate
               duration (endDate_of_start startDate duration) fees]
    /\ customers s'
       = updateById Customer._id customerId (Customer.inc_totalSpent fees)
           (updateById Customer._id customerId (Customer.set_personalTrainer pa)
              (customers s))
    /\ invoices s' = invoices s ++ [inv]
    /\ Invoice.amount inv = fees
    /\ Invoice.customerId inv = customerId
    /\ Invoice.gymId inv = gymId
    /\ transactions s' = transactions s ++ [txn]
    /\ Transaction.amount txn = fees
    /\ Transaction.transactionType txn = "PERSONAL_TRAINING"%string
    /\ Transaction.userId txn = customerId
    /\ Transaction.gymId txn = gymId
    /\ Transaction.invoiceId txn = Some (Invoice._id inv).
Proof.
  intros H Hst. unfold Controller.createAssignment in H.
  destruct req as [uid rg pid qg [cid tid gid sd du fe]].
  cbn [body user_id AssignmentBody.customerId AssignmentBody.trainerId
       AssignmentBody.gymId AssignmentBody.startDate AssignmentBody.duration
       AssignmentBody.fees] in H |- *.
  destruct cid as [cid|]; [|not_this_status H Hst].
  destruct tid as [tid|]; [|not_this_status H Hst].
  destruct gid as [gid|]; [|not_this_status H Hst].
  destruct sd as [sd|]; [|not_this_status H Hst].
  destruct (truthy du) as [duration|] eqn:Hdu; [|not_this_status H Hst].
  destruct (truthy fe) as [fees|] eqn:Hfe; [|not_this_status H Hst].
  apply truthy_Some in Hdu as [-> _]. apply truthy_Some in Hfe as [-> _].
  run_in H.
  destruct (validAssignment _); run_in H; [|not_this_status H Hst].
  rewrite InvoiceModelFacts.save_new in H by reflexivity. cbv zeta in H.
  destruct (negb (InvoiceModel.validFields _)); [not_this_status H Hst|].
  destruct (InvoiceModel.numberTaken _ _); [not_this_status H Hst|].
  run_in H.
  destruct (validTransaction _); run_in H; [|not_this_status H Hst].
  injection H as <- <-.
  exists cid, tid, gid, sd, duration, fees. do 3 eexists.
  repeat split.
Qed.

(** What a renew that completes successfully has done. *)
Lemma renewAssignment_done (now : Date) (req : Request RenewBody.t)
    (s s' : Store) (r : Response) :
  renewAssignment now req s = (s', r) -> succeeded r = true ->
  exists id startDate duration endDate fees gymId a c pa inv txn,
    params_id req = Some id
    /\ RenewBody.startDate (body req) = Some startDate
    /\ RenewBody.duration (body req) = Some duration
    /\ RenewBody.endDate (body req) = Some endDate
    /\ RenewBody.fees (body req) = Some fees
    /\ RenewBody.gymId (body req) = Some gymId
    /\ findById Assignment._id id (assignments s) = Some a
    /\ findById Customer._id (Assignment.customerId a) (customers s) = Some c
    /\ r = json_bundle 200 (Some pa) inv txn
    /\ Populated.doc pa
       = Assignment.mk (Assignment._id a) (Assignment.customerId a)
           (Assignment.trainerId a) (Assignment.gymId a) startDate duration
           endDate fees
    /\ assignments s'
       = updateById Assignment._id id
           (fun a => Assignment.mk (Assignment._id a) (Assignment.customerId a)
                       (Assignment.trainerId a) (Assignment.gymId a) startDate
                       duration endDate fees)
           (assignments s)
    /\ customers s'
       = updateById Customer._id (Assignment.customerId a)
           (Customer.inc_totalSpent fees)
           (updateById Customer._id (Assignment.customerId a)
              (Customer.set_personalTrainer (Some pa)) (customers s))
    /\ invoices s' = (invoices s ++ [inv])%list
    /\ Invoice.amount inv = fees
    /\ Invoice.customerId inv = Assignment.customerId a
    /\ Invoice.gymId inv = gymId
    /\ transactions s' = (transactions s ++ [txn])%list
    /\ Transaction.amount txn = fees
    /\ Transaction.transactionType txn = "PERSONAL_TRAINING_RENEWAL"%string
    /\ Transaction.userId txn = Assignment.customerId a
    /\ Transaction.invoiceId txn = Some (Invoice._id inv).
Proof.
  intros H Hst. unfold Controller.renewAssignment in H.
  destruct req as [uid rg pid qg [sd du ed fe gid pm td]].
  cbn [body user_id params_id RenewBody.startDate RenewBody.duration
       RenewBody.endDate RenewBody.fees RenewBody.gymId RenewBody.paymentMode
       RenewBody.transactionDate] in H |- *.
  destruct sd as [sd|]; [|not_this_status H Hst].
  destruct (truthy du) as [duration|] eqn:Hdu; [|not_this_status H Hst].
  destruct ed as [ed|]; [|not_this_status H Hst].
  destruct (truthy fe) as [fees|] eqn:Hfe; [|not_this_status H Hst].
  destruct gid as [gid|]; [|not_this_status H Hst].
  apply truthy_Some in Hdu as [-> _]. apply truthy_Some in Hfe as [-> _].
  destruct pid as [pid|]; run_in H; [|not_this_status H Hst].
  cbn [assignments set_assignments] in H.
  rewrite findById_updateById_same in H by reflexivity.
  destruct (findById Assignment._id pid (assignments s)) as [a|] eqn:Ha;
    cbn [option_map] in H; [|not_this_status H Hst].
  cbn [populate_both populate_customer Populated.customerId
       Assignment.customerId customers set_assignments] in H.
  destruct (findById Customer._id (Assignment.customerId a) (customers s))
    as [c|] eqn:Hc; cbn [option_map] in H; [|not_this_status H Hst].
  pose proof (findById_id _ _ _ _ Hc) as Hcid.
  cbn [person_of_customer Person._id] in H. rewrite Hcid in H.
  rewrite InvoiceModelFacts.save_new in H by reflexivity. cbv zeta in H.
  destruct (negb (InvoiceModel.validFields _)); [not_this_status H Hst|].
  destruct (InvoiceModel.numberTaken _ _); [not_this_status H Hst|].
  run_in H.
  destruct (validTransaction _); run_in H; [|not_this_status H Hst].
  injection H as <- <-.
  exists pid, sd, duration, ed, fees, gid, a, c. do 3 eexists.
  repeat split; assumption.
Qed.

(** What an update that completes successfully has done. *)
Lemma updateAssignment_done (now : Date) (req : Request AssignmentBody.t)
    (s s' : Store) (r : Response) :
  updateAssignment now req s = (s', r) -> succeeded r = true ->
  exists id customerId trainerId gymId startDate duration fees a pa,
    params_id req = Some id
    /\ body req = AssignmentBody.mk (Some customerId) (Some trainerId) (Some gymId)
                    (Some startDate) (Some duration) (Some fees)
    /\ findById Assignment._id id (assignments s) = Some a
    /\ r = json_assignment pa
    /\ assignments s'
       = updateById Assignment._id id
           (fun a => Assignment.mk (Assignment._id a) customerId trainerId gymId
                       startDate duration (endDate_of_start startDate duration)
                       fees)
           (assignments s)
    /\ customers s'
       = updateById Customer._id customerId
           (Customer.set_personalTrainer (Some pa)) (customers s)
    /\ invoices s'
       = match findOneSorted (isTrainingInvoice customerId gymId)
                             Invoice.createdAt (invoices s) with
         | Some i =>
             updateById Invoice._id (Invoice._id i)
               (fun _ =>
                  Invoice.set_updatedAt now
                    (InvoiceModel.generateInvoiceNumber (invoices s)
                       (Invoice.set_billing fees
                          (endDate_of_start startDate duration)
                          [InvoiceItem.mk
                             ("Personal Training with "
                              ++ JSString.String_of_Z duration
                              ++ " month(s) duration")%string
                             1 (inject_Z fees) fees]
                          ("Personal training assignment starting "
                           ++ toLocaleDateString startDate)%string
                          i)))
               (invoices s)
         | None => invoices s
         end
    /\ transactions s'
       = match findOneSorted
                 (fun t => (Transaction.userId t =? customerId)%N
                           && (Transaction.gymId t =? gymId)%N
                           && (Transaction.transactionType t
                               =? "PERSONAL_TRAINING")%string)
                 Transaction.createdAt (transactions s) with
         | Some t =>
             updateById Transaction._id (Transaction._id t)
               (fun _ =>
                  Transaction.set_payment fees
                    ("Personal training fees for "
                     ++ JSString.String_of_Z duration ++ " month(s)")%string
                    now t)
               (transactions s)
         | None => transactions s
         end.
Proof.
  intros H Hst. unfold Controller.updateAssignment in H.
  destruct req as [uid rg pid qg [cid tid gid sd du fe]].
  cbn [body user_id params_id AssignmentBody.customerId AssignmentBody.trainerId
       AssignmentBody.gymId AssignmentBody.startDate AssignmentBody.duration
       AssignmentBody.fees] in H |- *.
  destruct cid as [cid|]; [|not_this_status H Hst].
  destruct tid as [tid|]; [|not_this_status H Hst].
  destruct gid as [gid|]; [|not_this_status H Hst].
  destruct sd as [sd|]; [|not_this_status H Hst].
  destruct (truthy du) as [duration|] eqn:Hdu; [|not_this_status H Hst].
  destruct (truthy fe) as [fees|] eqn:Hfe; [|not_this_status H Hst].
  apply truthy_Some in Hdu as [-> _]. apply truthy_Some in Hfe as [-> _].
  destruct pid as [pid|]; run_in H; [|not_this_status H Hst].
  cbn [assignments set_assignments] in H.
  rewrite findById_updateById_same in H by reflexivity.
  destruct (findById Assignment._id pid (assignments s)) as [a|] eqn:Ha;
    cbn [option_map] in H; [|not_this_status H Hst].
  cbn [invoices transactions customers set_customers set_assignments] in H.
  destruct (findOneSorted (isTrainingInvoice cid gid) Invoice.createdAt (invoices s))
    as [i|] eqn:Hi.
  - rewrite InvoiceModelFacts.save_existing in H. cbv zeta in H.
    destruct (negb (InvoiceModel.validInvoice _)); [not_this_status H Hst|].
    destruct (_ && _); [not_this_status H Hst|].
    cbn [invoices transactions customers set_customers set_assignments
         set_invoices] in H.
    match type of H with
    | context [findOneSorted ?m Transaction.createdAt (transactions s)] =>
        destruct (findOneSorted m Transaction.createdAt (transactions s))
          as [t|] eqn:Ht
    end.
    + destruct (validTransaction _); run_in H; [|not_this_status H Hst].
      injection H as <- <-.
      exists pid, cid, tid, gid, sd, duration, fees, a. eexists.
      rewrite Hi, Ht. repeat split; assumption.
    + run_in H. injection H as <- <-.
      exists pid, cid, tid, gid, sd, duration, fees, a. eexists.
      rewrite Hi, Ht. repeat split; assumption.
  - run_in H.
    cbn [invoices transactions customers set_customers set_assignments
         set_invoices] in H.
    match type of H with
    | context [findOneSorted ?m Transaction.createdAt (transactions s)] =>
        destruct (findOneSorted m Transaction.createdAt (transactions s))
          as [t|] eqn:Ht
    end.
    + destruct (validTransaction _); run_in H; [|not_this_status H Hst].
      injection H as <- <-.
      exists pid, cid, tid, gid, sd, duration, fees, a. eexists.
      rewrite Hi, Ht. repeat split; assumption.
    + run_in H. injection H as <- <-.
      exists pid, cid, tid, gid, sd, duration, fees, a. eexists.
      rewrite Hi, Ht. repeat split; assumption.
Qed.

Lemma numberTaken_free (i : Invoice.t) (coll : list Invoice.t) :
  (forall j, In j coll -> Invoice.invoiceNumber j <> Invoice.invoiceNumber i) ->
  InvoiceModel.numberTaken i coll = false.
Proof.
  intros H. unfold InvoiceModel.numberTaken.
  destruct (existsb _ coll) eqn:E; [exfalso|reflexivity].
  apply existsb_exists in E as (j & Hj & Hsame).
  apply andb_prop in Hsame as [_ Hsame]. apply String.eqb_eq in Hsame.
  exact (H j Hj Hsame).
Qed.

Lemma Qle_bool_quotient (fees duration : Z) :
  0 <= fees -> 1 <= duration ->
  Qle_bool 0 (inject_Z fees / inject_Z duration) = true.
Proof.
  intros Hf Hd. apply Qle_bool_iff. apply Qle_shift_div_l.
  - change 0%Q with (inject_Z 0). rewrite <- Zlt_Qlt. lia.
  - rewrite Qmult_0_l. change 0%Q with (inject_Z 0). rewrite <- Zle_Qle. lia.
Qed.

Ltac run :=
  cbv beta iota zeta delta
    [bind fresh gets modify ret throw try_catch Assignment_save
     Customer_findByIdAndUpdate Transaction_save Assignment_findByIdAndUpdate
     Assignment_findById Assignment_findByIdAndDelete castObjectId
     customer_of].

(** A renew succeeds when the request has its required fields, with a fee
    that is not negative and a duration of at least one month, the
    assignment and its customer exist, the transaction validates and the
    next invoice number is not in use. *)
Lemma renewAssignment_succeeds (now : Date) (req : Request RenewBody.t)
    (s : Store) (id : ObjectId) (startDate endDate : Date) (duration fees : Z)
    (gymId : ObjectId) (a : Assignment.t) (c : Customer.t) :
  params_id req = Some id ->
  RenewBody.startDate (body req) = Some startDate ->
  RenewBody.duration (body req) = Some duration ->
  RenewBody.endDate (body req) = Some endDate ->
  RenewBody.fees (body req) = Some fees ->
  RenewBody.gymId (body req) = Some gymId ->
  1 <= duration -> 0 < fees ->
  findById Assignment._id id (assignments s) = Some a ->
  findById Customer._id (Assignment.customerId a) (customers s) = Some c ->
  (forall t, validTransaction t = true) ->
  (forall j, In j (invoices s) ->
             Invoice.invoiceNumber j <> InvoiceModel.generated (invoices s)) ->
  succeeded (snd (renewAssignment now req s)) = true.
Proof.
  intros Hid Hsd Hdu Hed Hfe Hgid Hd1 Hf0 Ha Hc Hvt Hfree.
  unfold Controller.renewAssignment. rewrite Hid, Hsd, Hdu, Hed, Hfe, Hgid.
  rewrite !truthy_nonzero by lia.
  run. cbn [assignments set_assignments].
  rewrite findById_updateById_same by reflexivity. rewrite Ha.
  cbn [option_map populate_both populate_customer Populated.customerId
       Assignment.customerId customers set_assignments].
  rewrite Hc. cbn [option_map person_of_customer Person._id].
  rewrite InvoiceModelFacts.save_new by reflexivity. cbv zeta.
  cbn [invoices set_nextId set_customers set_assignments].
  fold (InvoiceModel.generated (invoices s)).
  replace (InvoiceModel.validFields _) with true.
  2:{ symmetry. unfold InvoiceModel.validFields, InvoiceModel.validItem.
      cbn [Invoice.amount Invoice.currency Invoice.items forallb
           InvoiceItem.description InvoiceItem.quantity InvoiceItem.unitPrice
           InvoiceItem.amount].
      rewrite Qle_bool_quotient by lia.
      repeat (apply andb_true_iff; split); try reflexivity; apply Z.leb_le; lia. }
  cbn [negb]. rewrite numberTaken_free by exact Hfree.
  run. rewrite Hvt. reflexivity.
Qed.

Lemma Qle_bool_inject_Z (fees : Z) : 0 <= fees -> Qle_bool 0 (inject_Z fees) = true.
Proof.
  intros H. apply Qle_bool_iff. change 0%Q with (inject_Z 0).
  now rewrite <- Zle_Qle.
Qed.

(** A create succeeds when the request has its required fields, with a fee
    that is not negative, the assignment and the transaction validate and
    the next invoice number is not in use. *)
Lemma createAssignment_succeeds (now : Date) (req : Request AssignmentBody.t)
    (s : Store) (customerId trainerId gymId : ObjectId) (startDate : Date)
    (duration fees : Z) :
  body req = AssignmentBody.mk (Some customerId) (Some trainerId) (Some gymId)
               (Some startDate) (Some duration) (Some fees) ->
  duration <> 0 -> 0 < fees ->
  (forall a, validAssignment a = true) ->
  (forall t, validTransaction t = true) ->
  (forall j, In j (invoices s) ->
             Invoice.invoiceNumber j <> InvoiceModel.generated (invoices s)) ->
  succeeded (snd (createAssignment now req s)) = true.
Proof.
  intros Hbody Hdu Hf0 Hva Hvt Hfree.
  unfold Controller.createAssignment. rewrite Hbody.
  cbn [AssignmentBody.customerId AssignmentBody.trainerId AssignmentBody.gymId
       AssignmentBody.startDate AssignmentBody.duration AssignmentBody.fees].
  rewrite !truthy_nonzero by lia.
  run. rewrite Hva. run.
  rewrite InvoiceModelFacts.save_new by reflexivity. cbv zeta.
  cbn [invoices set_nextId set_customers set_assignments].
  fold (InvoiceModel.generated (invoices s)).
  replace (InvoiceModel.validFields _) with true.
  2:{ symmetry. unfold InvoiceModel.validFields, InvoiceModel.validItem.
      cbn [Invoice.amount Invoice.currency Invoice.items forallb
           InvoiceItem.description InvoiceItem.quantity InvoiceItem.unitPrice
           InvoiceItem.amount].
      rewrite Qle_bool_inject_Z by lia.
      repeat (apply andb_true_iff; split); try reflexivity; apply Z.leb_le; lia. }
  cbn [negb]. rewrite numberTaken_free by exact Hfree.
  run. rewrite Hvt. reflexivity.
Qed.

End ControllerFacts.

(** ** End dates *)

Section EndDate.

Variable LocalTZA : Z.

Local Abbreviation endDate_of_start := (endDate_of_start LocalTZA).

(** The controller's end date is one day before the date [setMonth] makes. *)
Lemma endDate_of_start_eq (start duration : Z) :
  endDate_of_start start duration
  = JSDate.setMonth LocalTZA start (JSDate.getMonth LocalTZA start + duration)
    - JSDate.msPerDay.
Proof.
  unfold Controller.endDate_of_start. cbv zeta.
  set (e := JSDate.setMonth LocalTZA start _).
  replace (JSDate.getDate LocalTZA e - 1)
    with (JSDate.getDate LocalTZA e + (-1)) by lia.
  rewrite JSDateFacts.setDate_shift. lia.
Qed.

(** [MakeDay] carries months over into years. *)
Lemma MakeDay_carry (year month date : Z) :
  JSDate.MakeDay year month date
  = JSDate.MakeDay (year + month / 12) (month mod 12) date.
Proof.
  unfold JSDate.MakeDay.
  rewrite Z.mod_mod by lia.
  rewrite (Z.div_small (month mod 12) 12) by (apply Z.mod_pos_bound; lia).
  now rewrite Z.add_0_r.
Qed.

(** The controller's end date is the calendar one, later by as many days as
    the day of the month of the start date exceeds the length of the month
    [duration] months later. *)
Lemma endDate_of_start_overflow (start duration : Z) :
  let lt := JSDate.LocalTime LocalTZA start in
  let m := JSDate.MonthFromTime lt + duration in
  let days := DaysInMonth (JSDate.YearFromTime lt + m / 12) (m mod 12) in
  endDate_of_start start duration
  = endDate_calendar LocalTZA start duration
    + Z.max 0 (JSDate.DateFromTime lt - days) * JSDate.msPerDay.
Proof.
  intros lt m days. rewrite endDate_of_start_eq.
  unfold endDate_calendar, addCalendarMonths, JSDate.setMonth, JSDate.getMonth.
  fold lt. fold m. cbv zeta. fold days. rewrite MakeDay_carry.
  unfold JSDate.MakeDay, JSDate.UTC, JSDate.MakeDate, JSDate.msPerDay. lia.
Qed.

(** When the day of the month of the start date exists in the month
    [duration] months later, the controller's end date is the calendar one. *)
Lemma endDate_of_start_calendar (start duration : Z) :
  let lt := JSDate.LocalTime LocalTZA start in
  let m := JSDate.MonthFromTime lt + duration in
  JSDate.DateFromTime lt
  <= DaysInMonth (JSDate.YearFromTime lt + m / 12) (m mod 12) ->
  endDate_of_start start duration = endDate_calendar LocalTZA start duration.
Proof.
  intros lt m H. rewrite endDate_of_start_overflow. fold lt. fold m.
  rewrite Z.max_l by lia. lia.
Qed.

End EndDate.

(** C1 (the code departs from the claim at the end of a month).  The claim
    holds on its own example: three months from 15 January 2024 end on
    14 April 2024.  One month from 31 January 2024 does not end in February:
    [setMonth] carries the missing 31 February over to 2 March, so
    [createAssignment] and [updateAssignment] store 1 March 2024 as the end
    date, where the start date plus one calendar month minus one day is
    28 February 2024. *)
Theorem endDate_month_end_overflow :
  endDate_of_start Sample.LocalTZA (JSDate.ymd 2024 0 15) 3 = JSDate.ymd 2024 3 14
  /\ endDate_calendar Sample.LocalTZA (JSDate.ymd 2024 0 15) 3 = JSDate.ymd 2024 3 14
  /\ endDate_of_start Sample.LocalTZA (JSDate.ymd 2024 0 31) 1 = JSDate.ymd 2024 2 1
  /\ endDate_calendar Sample.LocalTZA (JSDate.ymd 2024 0 31) 1 = JSDate.ymd 2024 1 28
  /\ map Assignment.endDate
       (assignments
          (fst (Sample.createAssignment (JSDate.ymd 2024 0 10)
                  Sample.create_month_end Sample.store)))
     = [JSDate.ymd 2024 2 1]
  /\ map Assignment.endDate
       (assignments
          (fst (Sample.updateAssignment (JSDate.ymd 2024 0 20)
                  (Sample.request 100 None
                     (Sample.assignment_body 1 7 (JSDate.ymd 2024 0 31) 1 500))
                  Sample.store1)))
     = [JSDate.ymd 2024 2 1].
Proof. repeat split; vm_compute; reflexivity. Qed.

(** ** Listings *)

Section Listings.

Variable LocalTZA : Z.

Local Abbreviation getExpiringAssignments := (getExpiringAssignments LocalTZA).
Local Abbreviation local_day :=
  (fun t : Date => JSDate.Day (JSDate.LocalTime LocalTZA t)).

(** The bounds the handler computes are those of the window. *)
Lemma expiring_bounds (now : Date) :
  let today := JSDate.setHours LocalTZA now 0 0 0 0 in
  today = window_from LocalTZA now
  /\ JSDate.setHours LocalTZA
       (JSDate.setDate LocalTZA today (JSDate.getDate LocalTZA today + 7))
       23 59 59 999
     = window_to LocalTZA now.
Proof.
  cbv zeta. split; [reflexivity|].
  rewrite JSDateFacts.setDate_shift.
  unfold window_to, JSDate.setHours. do 2 f_equal.
  unfold JSDate.LocalTime, JSDate.UTC, JSDate.MakeDate, JSDate.MakeTime,
    JSDate.Day.
  replace (now + LocalTZA) with (JSDate.LocalTime LocalTZA now) by reflexivity.
  set (d := JSDate.LocalTime LocalTZA now / JSDate.msPerDay).
  replace (d * JSDate.msPerDay + (0 * 3600000 + 0 * 60000 + 0 * 1000 + 0)
           - LocalTZA + 7 * JSDate.msPerDay + LocalTZA)
    with ((d + 7) * JSDate.msPerDay) by lia.
  apply Z.div_mul. discriminate.
Qed.

(** What the handler answers. *)
Lemma getExpiringAssignments_eq (now : Date) (req : Request unit) (s : Store) :
  getExpiringAssignments now req s
  = (s, json_assignments
          (map (populate_both false s)
               (filter (fun a => (window_from LocalTZA now <=? Assignment.endDate a)
                                 && (Assignment.endDate a <=? window_to LocalTZA now)
                                 && in_gym (query_gymId req) a)
                       (assignments s)))).
Proof.
  unfold Controller.getExpiringAssignments, try_catch, bind, gets, ret.
  cbv zeta. destruct (expiring_bounds now) as [-> ->]. reflexivity.
Qed.

(** An instant lies in the window exactly when its local day is today or
    one of the next seven days. *)
Lemma window_days (now t : Date) :
  (window_from LocalTZA now <=? t) && (t <=? window_to LocalTZA now)
  = (local_day now <=? local_day t) && (local_day t <=? local_day now + 7).
Proof.
  unfold window_from, window_to, JSDate.UTC,
    JSDate.MakeDate, JSDate.MakeTime.
  set (d := JSDate.Day (JSDate.LocalTime LocalTZA now)).
  pose proof (JSDateFacts.Day_le_iff d (JSDate.LocalTime LocalTZA t)) as Hlo.
  pose proof (JSDateFacts.Day_ge_iff (d + 7) (JSDate.LocalTime LocalTZA t)) as Hhi.
  unfold JSDate.LocalTime, JSDate.msPerDay in *.
  destruct (Z.leb_spec d (JSDate.Day (t + LocalTZA)));
    destruct (Z.leb_spec (JSDate.Day (t + LocalTZA)) (d + 7));
    cbn [andb]; rewrite ?andb_true_iff, ?andb_false_iff, ?Z.leb_le, ?Z.leb_gt;
    lia.
Qed.

(** C8.  The expiring-assignments query returns exactly the assignments of
    the store (of the gym of the query, when it names one) whose end date
    lies in the closed interval from today 00:00:00.000 to today plus seven
    days 23:59:59.999, local time: those whose end date falls on today or
    on one of the seven days after it.  Every instant of today is in the
    window and every instant of the day eight days from today is out. *)
Theorem getExpiringAssignments_window (now : Date) (req : Request unit)
    (s : Store) :
  getExpiringAssignments now req s
  = (s, json_assignments
          (map (populate_both false s)
               (filter (fun a => (window_from LocalTZA now <=? Assignment.endDate a)
                                 && (Assignment.endDate a <=? window_to LocalTZA now)
                                 && in_gym (query_gymId req) a)
                       (assignments s))))
  /\ (forall a : Assignment.t,
        (window_from LocalTZA now <=? Assignment.endDate a)
        && (Assignment.endDate a <=? window_to LocalTZA now)
        = (local_day now <=? local_day (Assignment.endDate a))
          && (local_day (Assignment.endDate a) <=? local_day now + 7))
  /\ (forall ms : Z,
        let t := window_from LocalTZA now + ms mod JSDate.msPerDay in
        (window_from LocalTZA now <=? t) && (t <=? window_to LocalTZA now) = true)
  /\ (forall ms : Z,
        let t := window_from LocalTZA now + 8 * JSDate.msPerDay
                 + ms mod JSDate.msPerDay in
        (window_from LocalTZA now <=? t) && (t <=? window_to LocalTZA now) = false).
Proof.
  split; [apply getExpiringAssignments_eq|].
  split; [intros a; apply window_days|].
  assert (Hto : window_to LocalTZA now
                = window_from LocalTZA now + 8 * JSDate.msPerDay - 1).
  { unfold window_to, window_from, JSDate.UTC,
      JSDate.MakeDate, JSDate.MakeTime, JSDate.msPerDay. lia. }
  split; intros ms t; subst t; rewrite Hto;
    pose proof (Z.mod_pos_bound ms JSDate.msPerDay eq_refl) as Hms;
    unfold JSDate.msPerDay in *.
  - apply andb_true_iff. split; apply Z.leb_le; lia.
  - apply andb_false_iff. right. apply Z.leb_gt. lia.
Qed.

(** C10.  With no [gymId] in the query, [getAssignments] answers every
    assignment of the store and [getExpiringAssignments] every assignment in
    the window, whatever their gym: the gym of the caller ([req.gymId]) is
    not consulted. *)
Theorem listings_not_scoped_to_caller (now : Date) (user : ObjectId)
    (id caller_gym : option ObjectId) (s : Store) :
  getAssignments (mkRequest user caller_gym id None tt) s
  = (s, json_assignments (map (populate_both false s) (assignments s)))
  /\ getExpiringAssignments now (mkRequest user caller_gym id None tt) s
     = (s, json_assignments
             (map (populate_both false s)
                  (filter (fun a => (window_from LocalTZA now <=? Assignment.endDate a)
                                    && (Assignment.endDate a <=? window_to LocalTZA now))
                          (assignments s)))).
Proof.
  split.
  - unfold getAssignments, try_catch, bind, gets, ret. cbn [query_gymId].
    now rewrite InvoiceModelFacts.filter_all.
  - rewrite getExpiringAssignments_eq. cbn [query_gymId in_gym].
    do 3 f_equal. apply filter_ext. intros a. apply andb_true_r.
Qed.

End Listings.

(** ** Deleting *)

(** C9 (the claim holds for the ids that are ObjectIds).  For the text of
    an ObjectId that no assignment has, [deleteAssignment] answers 404 with
    the error "Assignment not found." and leaves the whole store as it was:
    customers, invoices and transactions are untouched.  For a text that is
    no ObjectId, which names no assignment either, the store is left as it
    was as well, but [findById] rejects with a cast error and the answer is
    the 500 of the [catch], not 404. *)
Theorem deleteAssignment_missing (req : Request unit) (s : Store) :
  (forall id,
     params_id req = Some id ->
     findById Assignment._id id (assignments s) = None ->
     deleteAssignment req s = (s, json_error 404 "Assignment not found."))
  /\ (params_id req = None ->
      deleteAssignment req s = (s, json_exn (CastError "_id"))).
Proof.
  split.
  - intros id Hid H. unfold deleteAssignment. rewrite Hid.
    cbv beta iota zeta delta
      [try_catch bind gets ret throw Assignment_findById castObjectId].
    now rewrite H.
  - intros Hid. unfold deleteAssignment. now rewrite Hid.
Qed.

Lemma deleteAssignment_missing_witness :
  findById Assignment._id 100%N (assignments Sample.store) = None
  /\ deleteAssignment (Sample.request 100 None tt) Sample.store
     = (Sample.store, json_error 404 "Assignment not found.").
Proof.
  split; [reflexivity|].
  apply (proj1 (deleteAssignment_missing (Sample.request 100 None tt)
                  Sample.store) 100%N);
    reflexivity.
Defined.

(** C9, the case that departs from the claim: an [:id] that is no ObjectId
    is answered with 500. *)
Lemma deleteAssignment_malformed_id :
  deleteAssignment (Sample.request_malformed tt) Sample.store1
  = (Sample.store1, json_exn (CastError "_id"))
  /\ status_of (snd (deleteAssignment (Sample.request_malformed tt)
                       Sample.store1)) = 500
  /\ forall a, In a (assignments Sample.store1) ->
               params_id (Sample.request_malformed tt)
               <> Some (Assignment._id a).
Proof.
  split; [reflexivity|]. split; [reflexivity|]. discriminate.
Qed.

Lemma isTrainingTransaction_spec (customerId gymId : ObjectId)
    (t : Transaction.t) :
  isTrainingTransaction customerId gymId t
  = (Transaction.userId t =? customerId)%N
    && (Transaction.gymId t =? gymId)%N
    && ((Transaction.transactionType t =? "PERSONAL_TRAINING")%string
        || (Transaction.transactionType t =? "PERSONAL_TRAINING_RENEWAL")%string).
Proof.
  unfold isTrainingTransaction. cbn [existsb]. now rewrite orb_false_r.
Qed.

(** C6.  For the id of a stored assignment [a], [deleteAssignment] clears
    [personalTrainer] of [a]'s customer whatever it held, removes every
    invoice of that customer and gym with an item description containing
    "Personal Training" and every transaction of that customer and gym of
    type PERSONAL_TRAINING or PERSONAL_TRAINING_RENEWAL, removes the
    assignment, and answers 200. *)
Theorem deleteAssignment_existing (req : Request unit) (s : Store)
    (id : ObjectId) (a : Assignment.t) :
  params_id req = Some id ->
  findById Assignment._id id (assignments s) = Some a ->
  let customerId := Assignment.customerId a in
  let gymId := Assignment.gymId a in
  exists s',
    deleteAssignment req s = (s', json_message "Assignment deleted successfully.")
    /\ customers s'
       = updateById Customer._id customerId (Customer.set_personalTrainer None)
           (customers s)
    /\ option_map Customer.personalTrainer
         (findById Customer._id customerId (customers s'))
       = option_map (fun _ => None) (findById Customer._id customerId (customers s))
    /\ invoices s'
       = filter (fun i =>
                   negb ((Invoice.customerId i =? customerId)%N
                         && (Invoice.gymId i =? gymId)%N
                         && existsb (fun it => JSString.contains "Personal Training"
                                                 (InvoiceItem.description it))
                                    (Invoice.items i)))
                (invoices s)
    /\ transactions s'
       = filter (fun t =>
                   negb ((Transaction.userId t =? customerId)%N
                         && (Transaction.gymId t =? gymId)%N
                         && ((Transaction.transactionType t
                              =? "PERSONAL_TRAINING")%string
                             || (Transaction.transactionType t
                                 =? "PERSONAL_TRAINING_RENEWAL")%string)))
                (transactions s)
    /\ (forall c, c <> customerId ->
                   findById Customer._id c (customers s')
                   = findById Customer._id c (customers s))
    /\ (exists before after,
          assignments s = before ++ a :: after
          /\ (forall b, In b before -> Assignment._id b <> id)
          /\ assignments s' = before ++ after)
    /\ (NoDup (map Assignment._id (assignments s)) ->
        forall b, In b (assignments s') <->
                  In b (assignments s) /\ Assignment._id b <> id)
    /\ trainers s' = trainers s
    /\ nextId s' = nextId s.
Proof.
  intros Hid H customerId gymId. subst customerId gymId.
  unfold deleteAssignment. rewrite Hid.
  cbv beta iota zeta delta
    [try_catch bind gets ret throw modify Customer_findByIdAndUpdate
     Assignment_findById Assignment_findByIdAndDelete castObjectId].
  rewrite H. eexists. split; [reflexivity|].
  cbn [customers invoices transactions assignments trainers set_customers
       set_invoices set_transactions set_assignments nextId].
  destruct (findById_split _ _ _ _ H) as (before & after & Hl & Hb & Ha).
  assert (Hdel : deleteById Assignment._id id (assignments s) = before ++ after)
    by (rewrite Hl; now apply deleteById_at).
  split; [reflexivity|]. split.
  { rewrite findById_updateById_same by reflexivity.
    destruct (findById Customer._id (Assignment.customerId a) (customers s));
      reflexivity. }
  split; [reflexivity|]. split.
  { unfold deleteMany. apply filter_ext. intros t.
    now rewrite isTrainingTransaction_spec. }
  split.
  { intros c Hc. rewrite findById_updateById by reflexivity.
    destruct (N.eqb_spec c (Assignment.customerId a)); [contradiction|].
    reflexivity. }
  split; [exists before, after; now rewrite Hdel|].
  split; [|split; reflexivity].
  intros Hnd b. rewrite Hdel, Hl. rewrite Hl, map_app in Hnd. cbn [map] in Hnd.
  apply NoDup_remove in Hnd as [_ Hnot]. rewrite Ha in Hnot.
  rewrite !in_app_iff. cbn [In]. split.
  - intros Hin. split; [tauto|]. intros E. apply Hnot. rewrite <- E.
    apply in_or_app. destruct Hin as [Hin|Hin]; [left|right]; now apply in_map.
  - intros [[Hin|[<-|Hin]] Hne]; [now left|contradiction|now right].
Qed.

Lemma deleteAssignment_existing_witness :
  assignments Sample.store_both
  = [Sample.assignment_asha; Sample.assignment_bina]
  /\ map Invoice.customerId (invoices Sample.store_both) = [1%N; 2%N]
  /\ map Transaction.userId (transactions Sample.store_both) = [1%N; 2%N]
  /\ exists s',
       deleteAssignment (Sample.request 100 None tt) Sample.store_both
       = (s', json_message "Assignment deleted successfully.")
       /\ option_map Customer.personalTrainer
            (findById Customer._id 1%N (customers s'))
          = Some None
       /\ findById Customer._id 2%N (customers s')
          = findById Customer._id 2%N (customers Sample.store_both)
       /\ map Invoice.customerId (invoices s') = [2%N]
       /\ map Transaction.userId (transactions s') = [2%N]
       /\ assignments s' = [Sample.assignment_bina].
Proof.
  assert (Hall : assignments Sample.store_both
                 = [Sample.assignment_asha; Sample.assignment_bina])
    by (vm_compute; reflexivity).
  assert (H : findById Assignment._id 100%N (assignments Sample.store_both)
              = Some Sample.assignment_asha) by (rewrite Hall; reflexivity).
  split; [exact Hall|].
  split; [vm_compute; reflexivity|]. split; [vm_compute; reflexivity|].
  destruct (deleteAssignment_existing (Sample.request 100 None tt)
              Sample.store_both 100%N Sample.assignment_asha eq_refl H)
    as (s' & Hrun & _ & Hpt & Hinv & Htxn & Hcus & Hasg & _).
  cbn [Sample.assignment_asha Assignment.customerId Assignment.gymId]
    in Hpt, Hinv, Htxn, Hcus.
  exists s'. split; [exact Hrun|].
  split; [rewrite Hpt; vm_compute; reflexivity|].
  split; [apply Hcus; discriminate|].
  split; [rewrite Hinv; vm_compute; reflexivity|].
  split; [rewrite Htxn; vm_compute; reflexivity|].
  destruct Hasg as (before & after & Hl & Hb & ->).
  rewrite Hall in Hl. destruct before as [|x before].
  - injection Hl as <-. reflexivity.
  - injection Hl as <- _. exfalso. apply (Hb Sample.assignment_asha).
    + now left.
    + reflexivity.
Defined.

(** ** Creating, renewing and updating *)

Section Effects.

Variable LocalTZA : Z.
Variable toLocaleDateString : Date -> string.
Variable validAssignment : Assignment.t -> bool.
Variable validTransaction : Transaction.t -> bool.

Local Abbreviation createAssignment :=
  (createAssignment LocalTZA toLocaleDateString validAssignment validTransaction).
Local Abbreviation updateAssignment :=
  (updateAssignment LocalTZA toLocaleDateString validTransaction).
Local Abbreviation renewAssignment :=
  (renewAssignment toLocaleDateString validTransaction).
Local Abbreviation endDate_of_start := (endDate_of_start LocalTZA).
Local Abbreviation createAssignment_done :=
  (createAssignment_done LocalTZA toLocaleDateString validAssignment
     validTransaction).
Local Abbreviation renewAssignment_done :=
  (renewAssignment_done toLocaleDateString validTransaction).
Local Abbreviation updateAssignment_done :=
  (updateAssignment_done LocalTZA toLocaleDateString validTransaction).
Local Abbreviation renewAssignment_succeeds :=
  (renewAssignment_succeeds toLocaleDateString validTransaction).

(** C7.  A renew that completes successfully has stored the end date of the
    request as it is, whatever the start date and the duration, and has
    inserted one new invoice and one new transaction of type
    PERSONAL_TRAINING_RENEWAL after those already there, which stay as they
    were: every renewal makes the invoices one more.  And a renew of an
    existing assignment does complete successfully when the request has its
    required fields with a positive fee and a duration of at least one
    month, the customer of the assignment exists, the transaction validates
    and the next invoice number is free. *)
Theorem renewAssignment_appends (now : Date) (req : Request RenewBody.t)
    (s : Store) :
  (forall (s' : Store) (r : Response),
     renewAssignment now req s = (s', r) -> succeeded r = true ->
     exists id endDate pa inv txn,
       params_id req = Some id
       /\ RenewBody.endDate (body req) = Some endDate
       /\ r = json_bundle 200 (Some pa) inv txn
       /\ option_map Assignment.endDate
            (findById Assignment._id id (assignments s'))
          = Some endDate
       /\ Assignment.endDate (Populated.doc pa) = endDate
       /\ invoices s' = invoices s ++ [inv]
       /\ transactions s' = transactions s ++ [txn]
       /\ Transaction.transactionType txn = "PERSONAL_TRAINING_RENEWAL"%string
       /\ Transaction.invoiceId txn = Some (Invoice._id inv)
       /\ List.length (invoices s') = S (List.length (invoices s)))
  /\ (forall (id : ObjectId) (startDate endDate : Date) (duration fees : Z)
             (gymId : ObjectId) (a : Assignment.t) (c : Customer.t),
        params_id req = Some id ->
        RenewBody.startDate (body req) = Some startDate ->
        RenewBody.duration (body req) = Some duration ->
        RenewBody.endDate (body req) = Some endDate ->
        RenewBody.fees (body req) = Some fees ->
        RenewBody.gymId (body req) = Some gymId ->
        1 <= duration -> 0 < fees ->
        findById Assignment._id id (assignments s) = Some a ->
        findById Customer._id (Assignment.customerId a) (customers s) = Some c ->
        (forall t, validTransaction t = true) ->
        (forall j, In j (invoices s) ->
                   Invoice.invoiceNumber j
                   <> InvoiceModel.generated (invoices s)) ->
        succeeded (snd (renewAssignment now req s)) = true).
Proof.
  split.
  - intros s' r H Hok.
    destruct (renewAssignment_done _ _ _ _ _ H Hok)
      as (id & sd & du & ed & fe & gid & a & c & pa & inv & txn & Hid & _ & _
          & Hed & _ & _ & Ha & _ & Hr & Hdoc & Hasg & _ & Hinv & _ & _ & _
          & Htxn & _ & Hty & _ & Hlink).
    exists id, ed, pa, inv, txn. repeat split; try assumption.
    + rewrite Hasg, findById_updateById_same by reflexivity. now rewrite Ha.
    + now rewrite Hdoc.
    + rewrite Hinv, length_app. cbn. lia.
  - intros id sd ed du fe gid a c. apply renewAssignment_succeeds.
Qed.

(** C3.  A create that completes successfully leaves the [totalSpent] of
    its customer greater by exactly the fees of the request, and a renew of
    an assignment of that customer that then completes successfully leaves
    it greater again by the fees of the renewal: the amounts add up. *)
Theorem totalSpent_create_then_renew (now now' : Date)
    (req : Request AssignmentBody.t) (req' : Request RenewBody.t)
    (s s1 s2 : Store) (r r' : Response) (c : Customer.t) (id' : ObjectId)
    (a : Assignment.t) :
  createAssignment now req s = (s1, r) -> succeeded r = true ->
  AssignmentBody.customerId (body req) = Some (Customer._id c) ->
  findById Customer._id (Customer._id c) (customers s) = Some c ->
  renewAssignment now' req' s1 = (s2, r') -> succeeded r' = true ->
  params_id req' = Some id' ->
  findById Assignment._id id' (assignments s1) = Some a ->
  Assignment.customerId a = Customer._id c ->
  exists fees fees',
    AssignmentBody.fees (body req) = Some fees
    /\ RenewBody.fees (body req') = Some fees'
    /\ totalSpentOf (Customer._id c) s1 = Some (Customer.totalSpent c + fees)
    /\ totalSpentOf (Customer._id c) s2
       = Some (Customer.totalSpent c + fees + fees').
Proof.
  intros H Hok Hcid Hc H' Hok' Hid' Ha Hac.
  destruct (createAssignment_done _ _ _ _ _ H Hok)
    as (cid & tid & gid & sd & du & fe & pa & inv & txn & Hbody & _ & _ & Hcus
        & _).
  destruct (renewAssignment_done _ _ _ _ _ H' Hok')
    as (id'' & sd' & du' & ed' & fe' & gid' & a' & c' & pa' & inv' & txn'
        & Hid'' & _ & _ & _ & Hfe' & _ & Ha' & _ & _ & _ & _ & Hcus' & _).
  rewrite Hbody in Hcid |- *. cbn in Hcid. injection Hcid as ->.
  rewrite Hid' in Hid''. injection Hid'' as <-.
  rewrite Ha in Ha'. injection Ha' as <-. rewrite Hac in Hcus'.
  exists fe, fe'. split; [reflexivity|]. split; [exact Hfe'|].
  assert (H1 : totalSpentOf (Customer._id c) s1
               = Some (Customer.totalSpent c + fe)).
  { unfold totalSpentOf. rewrite Hcus.
    rewrite !findById_updateById_same by reflexivity. now rewrite Hc. }
  split; [exact H1|].
  unfold totalSpentOf in *. rewrite Hcus'.
  rewrite !findById_updateById_same by reflexivity.
  destruct (findById Customer._id (Customer._id c) (customers s1)) as [c1|];
    [|discriminate].
  cbn in H1 |- *. injection H1 as ->. reflexivity.
Qed.

(** C5.  An update that completes successfully creates no invoice and no
    transaction.  Of the invoices it changes only the most recently created
    one among those of the customer and gym of the request with an item
    description containing "Personal Training": that one gets the amount,
    due date, items and notes of the request (and a new [updatedAt]), and
    keeps its other fields.  Likewise of the transactions it changes only
    the most recently created PERSONAL_TRAINING transaction of that customer
    and gym: that one gets the amount of the request, the description
    "Personal training fees for ... month(s)" and the time of the update as
    its transaction date, and keeps its other fields.  With ids that are not
    shared, the changed document stands where the former one stood and all
    the others are as they were.  When there is no such invoice and no such
    transaction, the update changes neither collection and still answers 200
    with the assignment. *)
Theorem updateAssignment_overwrites_latest (now : Date)
    (req : Request AssignmentBody.t) (s : Store) :
  (forall (s' : Store) (r : Response),
     updateAssignment now req s = (s', r) -> succeeded r = true ->
     exists customerId gymId startDate duration fees,
       AssignmentBody.customerId (body req) = Some customerId
       /\ AssignmentBody.gymId (body req) = Some gymId
       /\ AssignmentBody.startDate (body req) = Some startDate
       /\ AssignmentBody.duration (body req) = Some duration
       /\ AssignmentBody.fees (body req) = Some fees
       /\ map Invoice._id (invoices s') = map Invoice._id (invoices s)
       /\ map Transaction._id (transactions s')
          = map Transaction._id (transactions s)
       /\ match findOneSorted (isTrainingInvoice customerId gymId)
                              Invoice.createdAt (invoices s) with
          | Some i =>
              In i (invoices s)
              /\ isTrainingInvoice customerId gymId i = true
              /\ (forall j, In j (invoices s) ->
                            isTrainingInvoice customerId gymId j = true ->
                            Invoice.createdAt j <= Invoice.createdAt i)
              /\ exists i',
                   invoices s'
                   = updateById Invoice._id (Invoice._id i) (fun _ => i')
                       (invoices s)
                   /\ Invoice.amount i' = fees
                   /\ Invoice.dueDate i' = endDate_of_start startDate duration
                   /\ Invoice.items i'
                      = [InvoiceItem.mk
                           ("Personal Training with "
                            ++ JSString.String_of_Z duration
                            ++ " month(s) duration")%string
                           1 (inject_Z fees) fees]
                   /\ Invoice.notes i'
                      = Some ("Personal training assignment starting "
                              ++ toLocaleDateString startDate)%string
                   /\ Invoice.updatedAt i' = now
                   /\ Invoice._id i' = Invoice._id i
                   /\ Invoice.userId i' = Invoice.userId i
                   /\ Invoice.gymId i' = Invoice.gymId i
                   /\ Invoice.bookingId i' = Invoice.bookingId i
                   /\ Invoice.customerId i' = Invoice.customerId i
                   /\ Invoice.currency i' = Invoice.currency i
                   /\ Invoice.createdAt i' = Invoice.createdAt i
                   /\ (Invoice.invoiceNumber i <> ""%string ->
                       Invoice.invoiceNumber i' = Invoice.invoiceNumber i)
                   /\ (NoDup (map Invoice._id (invoices s)) ->
                       exists before after,
                         invoices s = before ++ i :: after
                         /\ invoices s' = before ++ i' :: after)
          | None =>
              invoices s' = invoices s
              /\ forall j, In j (invoices s) ->
                           isTrainingInvoice customerId gymId j = false
          end
       /\ let personal_training t :=
            (Transaction.userId t =? customerId)%N
            && (Transaction.gymId t =? gymId)%N
            && (Transaction.transactionType t =? "PERSONAL_TRAINING")%string in
          match findOneSorted personal_training Transaction.createdAt
                  (transactions s) with
          | Some t =>
              In t (transactions s)
              /\ personal_training t = true
              /\ (forall u, In u (transactions s) ->
                            personal_training u = true ->
                            Transaction.createdAt u <= Transaction.createdAt t)
              /\ exists t',
                   transactions s'
                   = updateById Transaction._id (Transaction._id t)
                       (fun _ => t') (transactions s)
                   /\ t' = Transaction.mk
                             (Transaction._id t) (Transaction.userId t)
                             (Transaction.gymId t) (Transaction.invoiceId t)
                             (Transaction.transactionType t) now fees
                             (Transaction.paymentMode t)
                             (Transaction.membershipType t)
                             ("Personal training fees for "
                              ++ JSString.String_of_Z duration
                              ++ " month(s)")%string
                             (Transaction.status t) (Transaction.createdAt t)
                   /\ (NoDup (map Transaction._id (transactions s)) ->
                       exists before after,
                         transactions s = before ++ t :: after
                         /\ transactions s' = before ++ t' :: after)
          | None =>
              transactions s' = transactions s
              /\ forall u, In u (transactions s) -> personal_training u = false
          end)
  /\ (forall (id customerId trainerId gymId : ObjectId) (startDate : Date)
             (duration fees : Z) (a : Assignment.t),
        params_id req = Some id ->
        body req = AssignmentBody.mk (Some customerId) (Some trainerId)
                     (Some gymId) (Some startDate) (Some duration) (Some fees) ->
        duration <> 0 -> fees <> 0 ->
        findById Assignment._id id (assignments s) = Some a ->
        findOneSorted (isTrainingInvoice customerId gymId) Invoice.createdAt
                      (invoices s) = None ->
        findOneSorted
          (fun t => (Transaction.userId t =? customerId)%N
                    && (Transaction.gymId t =? gymId)%N
                    && (Transaction.transactionType t =? "PERSONAL_TRAINING")%string)
          Transaction.createdAt (transactions s) = None ->
        exists s' pa,
          updateAssignment now req s = (s', json_assignment pa)
          /\ invoices s' = invoices s
          /\ transactions s' = transactions s).
Proof.
  split.
  - intros s' r H Hok.
    destruct (updateAssignment_done _ _ _ _ _ H Hok)
      as (id & cid & tid & gid & sd & du & fe & a & pa & _ & Hbody & _ & _ & _
          & _ & Hinv & Htxn).
    exists cid, gid, sd, du, fe. rewrite Hbody. cbn.
    do 5 (split; [reflexivity|]).
    split; [|split; [|split]].
    + rewrite Hinv.
      destruct (findOneSorted _ _ (invoices s)) as [i|]; [|reflexivity].
      apply updateById_ids. intros d _.
      cbn [Invoice._id Invoice.set_updatedAt].
      match goal with
      | |- context [InvoiceModel.generateInvoiceNumber ?c ?t] =>
          destruct (InvoiceModelFacts.generate_fields c t) as [-> _]
      end.
      reflexivity.
    + rewrite Htxn. destruct (findOneSorted _ _ (transactions s)); [|reflexivity].
      apply updateById_ids. reflexivity.
    + destruct (findOneSorted _ _ (invoices s)) as [i|] eqn:Hi.
      2:{ split; [exact Hinv|]. intros j Hj.
          destruct (isTrainingInvoice cid gid j) eqn:E; [|reflexivity].
          exfalso. unfold findOneSorted in Hi. apply mostRecent_None in Hi.
          assert (Hf : In j (filter (isTrainingInvoice cid gid) (invoices s)))
            by (apply filter_In; now split).
          rewrite Hi in Hf. exact Hf. }
      destruct (findOneSorted_spec _ _ _ _ Hi) as (Hin & Hm & Hmax).
      do 3 (split; [assumption|]).
      eexists. split; [exact Hinv|].
      cbn [Invoice.updatedAt Invoice.set_updatedAt Invoice.amount
           Invoice.dueDate Invoice.items Invoice.notes Invoice._id
           Invoice.userId Invoice.gymId Invoice.bookingId Invoice.customerId
           Invoice.currency Invoice.createdAt Invoice.invoiceNumber].
      match goal with
      | |- context [InvoiceModel.generateInvoiceNumber ?c ?t] =>
          pose proof (InvoiceModelFacts.generate_when_set c t) as Hnum;
          destruct (InvoiceModelFacts.generate_fields c t)
            as (-> & -> & -> & -> & -> & -> & -> & -> & -> & -> & -> & _)
      end.
      do 12 (split; [reflexivity|]). split.
      * intros Hne. now rewrite Hnum.
      * intros Hnd.
        pose proof (findById_unique Invoice._id _ _ Hnd Hin) as Hfind.
        destruct (findById_split _ _ _ _ Hfind)
          as (before & after & Hl & Hb & _).
        assert (Hup : forall f,
                  updateById Invoice._id (Invoice._id i) f (invoices s)
                  = before ++ f i :: after)
          by (intros f; rewrite Hl; now apply updateById_at).
        exists before, after. split; [exact Hl|].
        rewrite Hinv. exact (Hup (fun _ => _)).
    + cbv zeta.
      destruct (findOneSorted _ _ (transactions s)) as [t|] eqn:Ht.
      2:{ split; [exact Htxn|]. intros u Hu.
          apply not_true_is_false. intros E.
          unfold findOneSorted in Ht. apply mostRecent_None in Ht.
          match type of Ht with
          | filter ?p _ = [] =>
              assert (Hf : In u (filter p (transactions s)))
                by (apply filter_In; split; [exact Hu|exact E])
          end.
          rewrite Ht in Hf. exact Hf. }
      destruct (findOneSorted_spec _ _ _ _ Ht) as (Hin & Hm & Hmax).
      do 3 (split; [assumption|]).
      eexists. split; [exact Htxn|]. split; [reflexivity|].
      intros Hnd.
      pose proof (findById_unique Transaction._id _ _ Hnd Hin) as Hfind.
      destruct (findById_split _ _ _ _ Hfind) as (before & after & Hl & Hb & _).
      assert (Hup : forall f,
                updateById Transaction._id (Transaction._id t) f
                  (transactions s)
                = before ++ f t :: after)
        by (intros f; rewrite Hl; now apply updateById_at).
      exists before, after. split; [exact Hl|].
      rewrite Htxn. exact (Hup (fun _ => _)).
  - intros id cid tid gid sd du fe a Hid Hbody Hdu Hfe Ha Hi Ht.
    unfold Controller.updateAssignment. rewrite Hid, Hbody.
    cbn [AssignmentBody.customerId AssignmentBody.trainerId AssignmentBody.gymId
         AssignmentBody.startDate AssignmentBody.duration AssignmentBody.fees].
    rewrite (truthy_nonzero _ Hdu), (truthy_nonzero _ Hfe).
    cbv beta iota zeta delta
      [bind gets modify ret try_catch Customer_findByIdAndUpdate
       Assignment_findByIdAndUpdate castObjectId].
    cbn [assignments set_assignments].
    rewrite findById_updateById_same by reflexivity. rewrite Ha.
    cbn [option_map invoices transactions set_customers set_assignments].
    rewrite Hi. cbn [invoices transactions set_customers set_assignments].
    rewrite Ht. do 2 eexists. repeat split.
Qed.

End Effects.

(** ** Invoice numbers *)

(** C2 (the claim needs two conditions).  The hooks give an invoice saved
    without a number the number [INV] followed by the next number,
    zero-padded to five digits, where the next number is one more than the
    numeric suffix, read with the pattern [INV(\d+)], of the invoice created
    most recently in the whole collection (of whatever gym), and one when
    the collection is empty or that number does not match; this as long as
    the next number is below [2 ^ 53], where the arithmetic of the hooks is
    exact.  Hence invoices created one after the other in an empty
    collection, each with a later [createdAt] than the one before, are all
    saved and numbered INV00001, INV00002, ... in order: their suffixes are
    1, 2, ... *)
Theorem invoice_numbers_sequential :
  (forall (coll : list Invoice.t) (this : Invoice.t),
     (InvoiceModel.next_in_sequence coll < 2 ^ 53)%N ->
     InvoiceModel.generateInvoiceNumber coll (Invoice.set_invoiceNumber "" this)
     = Invoice.set_invoiceNumber
         (InvoiceModel.number_of (InvoiceModel.next_in_sequence coll)) this)
  /\ (forall (coll : list Invoice.t),
        match InvoiceModel.findLast coll with
        | Some li =>
            In li coll
            /\ forall j, In j coll -> Invoice.createdAt j <= Invoice.createdAt li
        | None => coll = []
        end)
  /\ (forall (news : list (Date * Invoice.t)) (s : Store),
        invoices s = [] ->
        (N.of_nat (List.length news) + 1 < 2 ^ 53)%N ->
        Forall (fun p => Invoice.invoiceNumber (snd p) = ""%string
                         /\ InvoiceModel.validFields (snd p) = true) news ->
        StronglySorted
          (fun p q => Invoice.createdAt (snd p) < Invoice.createdAt (snd q))
          news ->
        exists s',
          InvoiceModel.saveAll news s = (s', Ok tt)
          /\ map Invoice.invoiceNumber (invoices s')
             = map (fun k => InvoiceModel.number_of (N.of_nat k))
                   (seq 1 (List.length news))
          /\ map (fun i => InvoiceModel.suffix (Invoice.invoiceNumber i))
                 (invoices s')
             = map (fun k => Some (N.of_nat k)) (seq 1 (List.length news))).
Proof.
  split; [|split].
  - intros coll this Hsafe.
    rewrite InvoiceModelFacts.generate_when_empty by reflexivity.
    fold (InvoiceModel.generated coll).
    rewrite InvoiceModelFacts.generated_in_sequence by exact Hsafe.
    reflexivity.
  - intros coll. unfold InvoiceModel.findLast.
    destruct (findOneSorted _ _ coll) as [li|] eqn:E.
    + apply findOneSorted_spec in E as (Hin & _ & Hmax).
      split; [exact Hin|]. intros j Hj. now apply Hmax.
    + unfold findOneSorted in E. rewrite InvoiceModelFacts.filter_all in E.
      now apply mostRecent_None in E.
  - intros news s Hs Hsafe Hval Hsort.
    destruct (InvoiceModelFacts.saveAll_continues news s 0) as (s' & Hrun & Hnum);
      try assumption.
    + now rewrite Hs.
    + now rewrite Hs.
    + rewrite Hs. intros d p [].
    + exists s'. split; [exact Hrun|]. split; [exact Hnum|].
      rewrite <- (map_map Invoice.invoiceNumber InvoiceModel.suffix), Hnum, map_map.
      apply map_ext. intros k. apply InvoiceModelFacts.suffix_number_of.
Qed.

Lemma invoice_numbers_sequential_witness :
  invoices Sample.store = []
  /\ Forall (fun p => Invoice.invoiceNumber (snd p) = ""%string
                      /\ InvoiceModel.validFields (snd p) = true)
            Sample.three_invoices
  /\ StronglySorted
       (fun p q => Invoice.createdAt (snd p) < Invoice.createdAt (snd q))
       Sample.three_invoices
  /\ exists s',
       InvoiceModel.saveAll Sample.three_invoices Sample.store = (s', Ok tt)
       /\ map Invoice.invoiceNumber (invoices s')
          = ["INV00001"; "INV00002"; "INV00003"]%string.
Proof.
  assert (Hval : Forall (fun p => Invoice.invoiceNumber (snd p) = ""%string
                                  /\ InvoiceModel.validFields (snd p) = true)
                        Sample.three_invoices)
    by (repeat constructor).
  assert (Hsort : StronglySorted
                    (fun p q => Invoice.createdAt (snd p) < Invoice.createdAt (snd q))
                    Sample.three_invoices)
    by (repeat constructor; reflexivity).
  split; [reflexivity|]. split; [exact Hval|]. split; [exact Hsort|].
  destruct invoice_numbers_sequential as (_ & _ & Hseq).
  destruct (Hseq Sample.three_invoices Sample.store eq_refl eq_refl Hval Hsort)
    as (s' & Hrun & Hnum & _).
  exists s'. split; [exact Hrun|]. rewrite Hnum. vm_compute. reflexivity.
Defined.

(** C2, the two cases that depart from the claim.  Three invoices created
    one after the other within one millisecond: the hook of the third reads
    the first again, generates INV00002 a second time, and the unique index
    rejects the save.  And from the suffix [2 ^ 53] on the hook does not
    count on: after INV9007199254740992 it generates INV9007199254740992
    again, where the next number in the sequence ends in 993. *)
Lemma invoice_numbers_collide :
  (exists s',
     InvoiceModel.saveAll Sample.three_at_once Sample.store
     = (s', Throw (DuplicateKeyError "Invoice"))
     /\ map Invoice.invoiceNumber (invoices s')
        = ["INV00001"; "INV00002"]%string)
  /\ InvoiceModel.next_in_sequence [Sample.invoice_2_53] = 9007199254740993%N
  /\ Invoice.invoiceNumber
       (InvoiceModel.generateInvoiceNumber [Sample.invoice_2_53]
          (snd (Sample.new_invoice 52 7 3000)))
     = "INV9007199254740992"%string
  /\ InvoiceModel.save 3000 true (snd (Sample.new_invoice 52 7 3000))
       (set_invoices [Sample.invoice_2_53] Sample.store)
     = (set_invoices [Sample.invoice_2_53] Sample.store,
        Throw (DuplicateKeyError "Invoice")).
Proof.
  split; [eexists; split; vm_compute; reflexivity|].
  repeat split; vm_compute; reflexivity.
Qed.

(** ** Sequences of operations *)

Section TraceFacts.

Variable LocalTZA : Z.
Variable toLocaleDateString : Date -> string.
Variable validAssignment : Assignment.t -> bool.
Variable validTransaction : Transaction.t -> bool.

Local Abbreviation run :=
  (run LocalTZA toLocaleDateString validAssignment validTransaction).
Local Abbreviation steps :=
  (steps LocalTZA toLocaleDateString validAssignment validTransaction).
Local Abbreviation total_charged :=
  (total_charged LocalTZA toLocaleDateString validAssignment validTransaction).

Lemma totalSpentOf_set_personalTrainer (id cid : ObjectId)
    (p : option Populated.t) (l : list Customer.t) :
  option_map Customer.totalSpent
    (findById Customer._id id
       (updateById Customer._id cid (Customer.set_personalTrainer p) l))
  = option_map Customer.totalSpent (findById Customer._id id l).
Proof.
  rewrite findById_updateById by reflexivity.
  destruct (N.eqb_spec id cid) as [->|]; [|reflexivity].
  now destruct (findById Customer._id cid l).
Qed.

Lemma totalSpentOf_inc (id cid : ObjectId) (fees : Z) (l : list Customer.t) :
  option_map Customer.totalSpent
    (findById Customer._id id
       (updateById Customer._id cid (Customer.inc_totalSpent fees) l))
  = option_map (fun t => t + (if (cid =? id)%N then fees else 0))
      (option_map Customer.totalSpent (findById Customer._id id l)).
Proof.
  rewrite findById_updateById by reflexivity. rewrite (N.eqb_sym cid id).
  destruct (N.eqb_spec id cid) as [->|].
  - now destruct (findById Customer._id cid l).
  - destruct (findById Customer._id id l); cbn; [|reflexivity].
    f_equal. lia.
Qed.

(** One successful operation adds to the total of a customer what it
    charges to that customer. *)
Lemma run_totalSpent (op : Op) (s s1 : Store) (r : Response) (id : ObjectId) :
  run op s = (s1, r) -> succeeded r = true ->
  totalSpentOf id s1
  = option_map (fun t => t + charged_to id op s) (totalSpentOf id s).
Proof.
  intros H Hok. unfold totalSpentOf, charged_to.
  destruct op as [now req|now req|now req|req]; cbn [Trace.run charge] in *.
  - destruct (createAssignment_done _ _ _ _ _ _ _ _ _ H Hok)
      as (cid & tid & gid & sd & du & fe & pa & inv & txn & Hbody & _ & _
          & Hcus & _).
    rewrite Hbody, Hcus. cbn [AssignmentBody.customerId AssignmentBody.fees].
    now rewrite totalSpentOf_inc, totalSpentOf_set_personalTrainer.
  - destruct (updateAssignment_done _ _ _ _ _ _ _ _ H Hok)
      as (id' & cid & tid & gid & sd & du & fe & a & pa & _ & _ & _ & _ & _
          & Hcus & _).
    rewrite Hcus, totalSpentOf_set_personalTrainer.
    destruct (option_map _ _); cbn; [f_equal; lia|reflexivity].
  - destruct (renewAssignment_done _ _ _ _ _ _ _ H Hok)
      as (id' & sd & du & ed & fe & gid & a & c & pa & inv & txn & Hid & _ & _
          & _ & Hfe & _ & Ha & _ & _ & _ & _ & Hcus & _).
    rewrite Hid, Ha, Hfe, Hcus.
    now rewrite totalSpentOf_inc, totalSpentOf_set_personalTrainer.
  - unfold deleteAssignment in H.
    destruct (params_id req) as [id'|];
      cbv beta iota zeta delta
        [try_catch bind gets ret throw modify Customer_findByIdAndUpdate
         Assignment_findById Assignment_findByIdAndDelete castObjectId] in H;
      [|injection H as <- <-; discriminate Hok].
    destruct (findById Assignment._id id' (assignments s)) as [a|].
    + injection H as <- <-.
      cbn [customers set_customers set_invoices set_transactions set_assignments].
      rewrite totalSpentOf_set_personalTrainer.
      destruct (option_map _ _); cbn; [f_equal; lia|reflexivity].
    + injection H as <- <-. discriminate Hok.
Qed.

Lemma steps_run_all (ops : list Op) (s : Store) :
  all_succeed LocalTZA toLocaleDateString validAssignment validTransaction ops s
  = true ->
  steps s ops
    (run_all LocalTZA toLocaleDateString validAssignment validTransaction ops s).
Proof.
  revert s. induction ops as [|op ops IH]; intros s H; cbn in *.
  - constructor.
  - apply andb_prop in H as [Hok Hrest].
    eapply steps_cons; [apply surjective_pairing|exact Hok|now apply IH].
Qed.

(** C4, as the code has it.  Over any sequence of operations that all
    complete successfully, the [totalSpent] of every customer grows by the
    sum of the fees of the create and renew events applied to that customer
    (so it equals that sum when it starts at zero); updates and deletes leave
    it alone.  Every successful create or renew inserts one invoice and one
    transaction for the customer it charges, both of the amount of its fee
    and linked to each other.  That every assignment keeps exactly one
    current invoice and transaction is not part of it: a delete removes the
    invoices and transactions of all the assignments of the customer in the
    gym. *)
Theorem totalSpent_sums_fees :
  (forall (s s' : Store) (ops : list Op),
     steps s ops s' ->
     forall (id : ObjectId) (c : Customer.t),
       findById Customer._id id (customers s) = Some c ->
       totalSpentOf id s' = Some (Customer.totalSpent c + total_charged id ops s))
  /\ (forall (op : Op) (s s1 : Store) (r : Response) (id : ObjectId) (fee : Z),
        run op s = (s1, r) -> succeeded r = true ->
        charge op s = Some (id, fee) ->
        exists inv txn,
          invoices s1 = invoices s ++ [inv]
          /\ transactions s1 = transactions s ++ [txn]
          /\ Invoice.customerId inv = id
          /\ Invoice.amount inv = fee
          /\ Transaction.userId txn = id
          /\ Transaction.amount txn = fee
          /\ Transaction.invoiceId txn = Some (Invoice._id inv)).
Proof.
  split.
  - intros s s' ops Hsteps.
    induction Hsteps as [s|s s1 s2 op ops r Hrun Hok _ IH]; intros id c Hc.
    + unfold totalSpentOf. rewrite Hc. cbn. f_equal. lia.
    + pose proof (run_totalSpent op s s1 r id Hrun Hok) as H1.
      unfold totalSpentOf in H1 at 2. rewrite Hc in H1. cbn [option_map] in H1.
      unfold totalSpentOf in H1.
      destruct (findById Customer._id id (customers s1)) as [c1|] eqn:Hc1;
        [|discriminate].
      cbn [option_map] in H1. injection H1 as H1.
      rewrite (IH id c1 Hc1). cbn [Trace.total_charged].
      rewrite Hrun. cbn [fst]. f_equal. lia.
  - intros op s s1 r id fee H Hok Hch.
    destruct op as [now req|now req|now req|req]; cbn [Trace.run charge] in *;
      try discriminate.
    + destruct (createAssignment_done _ _ _ _ _ _ _ _ _ H Hok)
        as (cid & tid & gid & sd & du & fe & pa & inv & txn & Hbody & _ & _
            & _ & Hinv & Ham & Hic & _ & Htxn & Htam & _ & Htu & _ & Hlink).
      rewrite Hbody in Hch. cbn in Hch. injection Hch as <- <-.
      exists inv, txn. repeat split; assumption.
    + destruct (renewAssignment_done _ _ _ _ _ _ _ H Hok)
        as (id' & sd & du & ed & fe & gid & a & c & pa & inv & txn & Hid & _
            & _ & _ & Hfe & _ & Ha & _ & _ & _ & _ & _ & Hinv & Ham & Hic & _
            & Htxn & Htam & _ & Htu & Hlink).
      rewrite Hid, Ha, Hfe in Hch. injection Hch as <- <-.
      exists inv, txn. repeat split; assumption.
Qed.

End TraceFacts.

(** C4, as the specification states it, fails.  Asha gets two assignments
    in the same gym, both billed; deleting the first removes the invoices
    and transactions of both, so the second assignment stays without any
    invoice or transaction, while all three operations succeed. *)
Lemma delete_leaves_assignment_unbilled :
  Sample.steps Sample.store Sample.two_then_delete Sample.store3
  /\ In Sample.assignment_asha_again (assignments Sample.store3)
  /\ invoices Sample.store3 = []
  /\ transactions Sample.store3 = []
  /\ ~ Sample.ledger_consistent Sample.store Sample.two_then_delete Sample.store3.
Proof.
  assert (Hin : In Sample.assignment_asha_again (assignments Sample.store3))
    by (vm_compute; left; reflexivity).
  assert (Hinv : invoices Sample.store3 = []) by (vm_compute; reflexivity).
  split; [|split; [exact Hin|split; [exact Hinv|split]]].
  - apply steps_run_all. vm_compute. reflexivity.
  - vm_compute. reflexivity.
  - intros [_ Hone]. destruct (Hone _ Hin) as [Hlen _].
    unfold currentInvoices in Hlen. rewrite Hinv in Hlen. discriminate Hlen.
Qed.

Lemma totalSpent_sums_fees_witness :
  Sample.steps Sample.store Sample.two_then_delete Sample.store3
  /\ findById Customer._id 1%N (customers Sample.store) = Some Sample.asha
  /\ totalSpentOf 1 Sample.store3 = Some 700
  /\ succeeded (snd (Sample.run (create (JSDate.ymd 2024 0 10) Sample.create_asha)
                       Sample.store)) = true
  /\ charge (create (JSDate.ymd 2024 0 10) Sample.create_asha) Sample.store
     = Some (1%N, 500)
  /\ exists inv txn,
       invoices Sample.store1 = invoices Sample.store ++ [inv]
       /\ transactions Sample.store1 = transactions Sample.store ++ [txn]
       /\ Invoice.amount inv = 500
       /\ Transaction.amount txn = 500.
Proof.
  assert (Hsteps : Sample.steps Sample.store Sample.two_then_delete Sample.store3).
  { apply steps_run_all. vm_compute. reflexivity. }
  destruct (totalSpent_sums_fees Sample.LocalTZA Sample.toLocaleDateString
              Sample.accept Sample.accept) as [Htotal Hbilled].
  split; [exact Hsteps|]. split; [reflexivity|].
  split.
  { rewrite (Htotal _ _ _ Hsteps 1%N Sample.asha eq_refl).
    vm_compute. reflexivity. }
  assert (Hok : succeeded (snd (Sample.run (create (JSDate.ymd 2024 0 10)
                                              Sample.create_asha)
                                  Sample.store)) = true)
    by (vm_compute; reflexivity).
  split; [exact Hok|]. split; [reflexivity|].
  destruct (Hbilled (create (JSDate.ymd 2024 0 10) Sample.create_asha)
              Sample.store Sample.store1 _ 1%N 500
              (surjective_pairing _) Hok eq_refl)
    as (inv & txn & Hinv & Htxn & _ & Ham & _ & Htam & _).
  exists inv, txn. repeat split; assumption.
Defined.

(** ** The theorems at the sample data *)

Lemma renewAssignment_appends_witness :
  findById Assignment._id 100%N (assignments Sample.store1)
  = Some Sample.assignment_asha
  /\ option_map Customer.name (findById Customer._id 1%N (customers Sample.store1))
     = Some "Asha"%string
  /\ succeeded (snd (Sample.renewAssignment (JSDate.ymd 2024 3 10)
                       Sample.renew_asha Sample.store1)) = true
  /\ List.length (invoices Sample.store2)
     = S (List.length (invoices Sample.store1))
  /\ map Assignment.endDate (assignments Sample.store2) = [JSDate.ymd 2024 6 14]
  /\ map Invoice.invoiceNumber (invoices Sample.store2)
     = ["INV00001"; "INV00002"]%string
  /\ map Transaction.transactionType (transactions Sample.store2)
     = ["PERSONAL_TRAINING"; "PERSONAL_TRAINING_RENEWAL"]%string.
Proof.
  destruct (renewAssignment_appends Sample.toLocaleDateString Sample.accept
              (JSDate.ymd 2024 3 10) Sample.renew_asha Sample.store1)
    as [Hdone Hsucceeds].
  assert (Ha : findById Assignment._id 100%N (assignments Sample.store1)
               = Some Sample.assignment_asha) by (vm_compute; reflexivity).
  assert (Hc : exists c, findById Customer._id 1%N (customers Sample.store1)
                         = Some c) by (eexists; vm_compute; reflexivity).
  destruct Hc as [c Hc].
  split; [exact Ha|]. split; [vm_compute; reflexivity|].
  assert (Hok : succeeded (snd (Sample.renewAssignment (JSDate.ymd 2024 3 10)
                                  Sample.renew_asha Sample.store1)) = true).
  { apply (Hsucceeds 100%N (JSDate.ymd 2024 3 15) (JSDate.ymd 2024 6 14) 3 450
                     7%N Sample.assignment_asha c);
      try reflexivity; try exact Ha; try exact Hc; try lia.
    intros j Hj. vm_compute in Hj. destruct Hj as [<-|[]].
    vm_compute. discriminate. }
  split; [exact Hok|].
  destruct (Hdone Sample.store2 _ (surjective_pairing _) Hok)
    as (id & ed & pa & inv & txn & _ & _ & _ & _ & _ & _ & _ & _ & _ & Hlen).
  split; [exact Hlen|].
  repeat split; vm_compute; reflexivity.
Defined.

Lemma totalSpent_create_then_renew_witness :
  succeeded (snd (Sample.createAssignment (JSDate.ymd 2024 0 10)
                    Sample.create_asha Sample.store)) = true
  /\ succeeded (snd (Sample.renewAssignment (JSDate.ymd 2024 3 10)
                       Sample.renew_asha Sample.store1)) = true
  /\ totalSpentOf 1 Sample.store = Some 0
  /\ totalSpentOf 1 Sample.store1 = Some 500
  /\ totalSpentOf 1 Sample.store2 = Some 950.
Proof.
  assert (Hok : succeeded (snd (Sample.createAssignment (JSDate.ymd 2024 0 10)
                                  Sample.create_asha Sample.store)) = true)
    by (vm_compute; reflexivity).
  assert (Hok' : succeeded (snd (Sample.renewAssignment (JSDate.ymd 2024 3 10)
                                   Sample.renew_asha Sample.store1)) = true)
    by (vm_compute; reflexivity).
  split; [exact Hok|]. split; [exact Hok'|]. split; [reflexivity|].
  destruct (totalSpent_create_then_renew Sample.LocalTZA
              Sample.toLocaleDateString Sample.accept Sample.accept
              (JSDate.ymd 2024 0 10) (JSDate.ymd 2024 3 10)
              Sample.create_asha Sample.renew_asha
              Sample.store Sample.store1 Sample.store2 _ _
              Sample.asha 100%N Sample.assignment_asha
              (surjective_pairing _) Hok eq_refl eq_refl
              (surjective_pairing _) Hok' eq_refl
              ltac:(vm_compute; reflexivity) eq_refl)
    as (fees & fees' & Hf & Hf' & H1 & H2).
  cbn in Hf, Hf'. injection Hf as <-. injection Hf' as <-.
  split; [exact H1|exact H2].
Defined.

Lemma updateAssignment_overwrites_latest_witness :
  succeeded (snd (Sample.updateAssignment (JSDate.ymd 2024 1 1)
                    Sample.update_asha Sample.store_both)) = true
  /\ map Invoice._id
       (invoices (fst (Sample.updateAssignment (JSDate.ymd 2024 1 1)
                         Sample.update_asha Sample.store_both)))
     = map Invoice._id (invoices Sample.store_both)
  /\ map Invoice.amount (invoices Sample.store_both) = [500; 300]
  /\ map Invoice.amount
       (invoices (fst (Sample.updateAssignment (JSDate.ymd 2024 1 1)
                         Sample.update_asha Sample.store_both)))
     = [600; 300]
  /\ map Transaction.amount (transactions Sample.store_both) = [500; 300]
  /\ map (fun t => (Transaction.userId t, Transaction.amount t,
                    Transaction.transactionDate t, Transaction.description t,
                    Transaction.createdAt t))
       (transactions (fst (Sample.updateAssignment (JSDate.ymd 2024 1 1)
                             Sample.update_asha Sample.store_both)))
     = [(1%N, 600, JSDate.ymd 2024 1 1,
         "Personal training fees for 4 month(s)"%string, JSDate.ymd 2024 0 10);
        (2%N, 300, JSDate.ymd 2024 0 20,
         "Personal training fees for 2 month(s)"%string, JSDate.ymd 2024 0 20)]
  /\ exists s' pa,
       Sample.updateAssignment (JSDate.ymd 2024 1 1) Sample.update_asha
         Sample.store_unbilled
       = (s', json_assignment pa)
       /\ invoices s' = [] /\ transactions s' = [].
Proof.
  assert (Hok : succeeded (snd (Sample.updateAssignment (JSDate.ymd 2024 1 1)
                                  Sample.update_asha Sample.store_both)) = true)
    by (vm_compute; reflexivity).
  split; [exact Hok|].
  destruct (updateAssignment_overwrites_latest Sample.LocalTZA
              Sample.toLocaleDateString Sample.accept (JSDate.ymd 2024 1 1)
              Sample.update_asha Sample.store_both) as [Hdone _].
  destruct (Hdone _ _ (surjective_pairing _) Hok)
    as (cid & gid & sd & du & fe & _ & _ & _ & _ & _ & Hids & _).
  split; [exact Hids|].
  do 4 (split; [vm_compute; reflexivity|]).
  destruct (updateAssignment_overwrites_latest Sample.LocalTZA
              Sample.toLocaleDateString Sample.accept (JSDate.ymd 2024 1 1)
              Sample.update_asha Sample.store_unbilled) as [_ Hskip].
  apply (Hskip 100%N 1%N 3%N 7%N (JSDate.ymd 2024 0 15) 4 600
               Sample.assignment_asha);
    try reflexivity; discriminate.
Defined.

(** * Further properties *)

(** ** The controller, whatever the outcome *)

Section Outcomes.

Variable LocalTZA : Z.
Variable toLocaleDateString : Date -> string.
Variable validAssignment : Assignment.t -> bool.
Variable validTransaction : Transaction.t -> bool.

Local Abbreviation createAssignment :=
  (createAssignment LocalTZA toLocaleDateString validAssignment validTransaction).
Local Abbreviation updateAssignment :=
  (updateAssignment LocalTZA toLocaleDateString validTransaction).
Local Abbreviation renewAssignment :=
  (renewAssignment toLocaleDateString validTransaction).

Ltac run :=
  cbv beta iota zeta delta
    [bind fresh gets modify ret throw try_catch Assignment_save
     Customer_findByIdAndUpdate Transaction_save Assignment_findByIdAndUpdate
     Assignment_findById Assignment_findByIdAndDelete castObjectId
     customer_of].

Ltac proj :=
  cbn [fst snd assignments customers trainers invoices transactions nextId
       set_assignments set_customers set_invoices set_transactions set_nextId
       option_map populate_both populate_customer Populated.customerId
       person_of_customer Person._id].

Ltac split_on c := destruct c eqn:?.

Ltac walk :=
  repeat first
    [ progress run
    | progress proj
    | rewrite findById_updateById_same by reflexivity
    | rewrite InvoiceModelFacts.save_new by reflexivity; cbv zeta
    | rewrite InvoiceModelFacts.save_existing; cbv zeta
    | match goal with
      | |- context [if validAssignment ?a then _ else _] =>
          split_on (validAssignment a)
      | |- context [if validTransaction ?a then _ else _] =>
          split_on (validTransaction a)
      | |- context [if negb (InvoiceModel.validFields ?a) then _ else _] =>
          split_on (InvoiceModel.validFields a); cbn [negb]
      | |- context [if negb (InvoiceModel.validInvoice ?a) then _ else _] =>
          split_on (InvoiceModel.validInvoice a); cbn [negb]
      | |- context [if InvoiceModel.numberTaken ?a ?b then _ else _] =>
          split_on (InvoiceModel.numberTaken a b)
      | |- context [if negb ?a && InvoiceModel.numberTaken ?b ?c then _ else _] =>
          split_on (negb a && InvoiceModel.numberTaken b c)
      | |- context [match findById ?f ?i ?l with Some _ => _ | None => _ end] =>
          split_on (findById f i l)
      | |- context [match option_map _ (option_map _ (findById ?f ?i ?l)) with
                    | Some _ => _ | None => _ end] =>
          split_on (findById f i l)
      | |- context [match option_map _ (findById ?f ?i ?l) with
                    | Some _ => _ | None => _ end] =>
          split_on (findById f i l)
      | |- context [match findOneSorted ?f ?c ?l with Some _ => _ | None => _ end] =>
          split_on (findOneSorted f c l)
      | |- context [match params_id ?r with Some _ => _ | None => _ end] =>
          split_on (params_id r)
      | |- context [match ?p with Some _ => _ | None => _ end] =>
          is_var p;
          match type of p with option ObjectId => destruct p end
      end ].

Ltac open_assignment_request req :=
  destruct req as [uid rg pid qg [cid tid gid sd du fe]];
  cbn [body user_id params_id AssignmentBody.customerId
       AssignmentBody.trainerId AssignmentBody.gymId AssignmentBody.startDate
       AssignmentBody.duration AssignmentBody.fees].

Ltac open_renew_request req :=
  destruct req as [uid rg pid qg [sd du ed fe gid pm td]];
  cbn [body user_id params_id RenewBody.startDate RenewBody.duration
       RenewBody.endDate RenewBody.fees RenewBody.gymId RenewBody.paymentMode
       RenewBody.transactionDate].

Lemma truthy_falsy (x : option Z) :
  truthy x = if falsy_number x then None else x.
Proof. destruct x as [[| |]|]; reflexivity. Qed.

Lemma set_assignments_same (s : Store) : set_assignments (assignments s) s = s.
Proof. now destruct s. Qed.

Lemma updateById_missing {A : Type} (id_of : A -> ObjectId) (id : ObjectId)
    (f : A -> A) (l : list A) :
  findById id_of id l = None -> updateById id_of id f l = l.
Proof.
  unfold findById. induction l as [|d r IH]; simpl; [reflexivity|].
  destruct (id_of d =? id)%N; [discriminate|]. intros H. now rewrite IH.
Qed.

(** X1.  [createAssignment] and [updateAssignment] answer 400 "All fields
    are required." exactly when the customer, the trainer, the gym or the
    start date is absent or the duration or the fees are absent or zero, and
    [renewAssignment] exactly when the start date, the end date or the gym
    is absent or the duration or the fees are absent or zero; a request
    refused in this way writes nothing. *)
Theorem required_fields (now : Date) (req : Request AssignmentBody.t)
    (req' : Request RenewBody.t) (s : Store) :
  let refused := (s, json_error 400 "All fields are required.") in
  (if lacks_field (body req) then createAssignment now req s = refused
   else status_of (snd (createAssignment now req s)) <> 400)
  /\ (if lacks_field (body req) then updateAssignment now req s = refused
      else status_of (snd (updateAssignment now req s)) <> 400)
  /\ (if renewal_lacks_field (body req') then renewAssignment now req' s = refused
      else status_of (snd (renewAssignment now req' s)) <> 400).
Proof.
  cbv zeta. split; [|split].
  - unfold Controller.createAssignment. open_assignment_request req.
    destruct cid, tid, gid, sd, du as [[| |]|], fe as [[| |]|];
      cbn [lacks_field renewal_lacks_field AssignmentBody.customerId
           AssignmentBody.trainerId AssignmentBody.gymId
           AssignmentBody.startDate AssignmentBody.duration
           AssignmentBody.fees RenewBody.startDate RenewBody.duration
           RenewBody.endDate RenewBody.fees RenewBody.gymId
           absent falsy_number orb truthy Z.eqb]; try reflexivity;
      walk; cbn [snd status_of]; discriminate.
  - unfold Controller.updateAssignment. open_assignment_request req.
    destruct cid, tid, gid, sd, du as [[| |]|], fe as [[| |]|];
      cbn [lacks_field renewal_lacks_field AssignmentBody.customerId
           AssignmentBody.trainerId AssignmentBody.gymId
           AssignmentBody.startDate AssignmentBody.duration
           AssignmentBody.fees RenewBody.startDate RenewBody.duration
           RenewBody.endDate RenewBody.fees RenewBody.gymId
           absent falsy_number orb truthy Z.eqb]; try reflexivity;
      walk; cbn [snd status_of]; discriminate.
  - unfold Controller.renewAssignment. open_renew_request req'.
    destruct sd, du as [[| |]|], ed, fe as [[| |]|], gid;
      cbn [lacks_field renewal_lacks_field AssignmentBody.customerId
           AssignmentBody.trainerId AssignmentBody.gymId
           AssignmentBody.startDate AssignmentBody.duration
           AssignmentBody.fees RenewBody.startDate RenewBody.duration
           RenewBody.endDate RenewBody.fees RenewBody.gymId
           absent falsy_number orb truthy Z.eqb]; try reflexivity;
      walk; cbn [snd status_of]; discriminate.
Qed.

Lemma lacks_field_false (b : AssignmentBody.t) :
  lacks_field b = false ->
  exists customerId trainerId gymId startDate duration fees,
    b = AssignmentBody.mk (Some customerId) (Some trainerId) (Some gymId)
          (Some startDate) (Some duration) (Some fees)
    /\ truthy (Some duration) = Some duration
    /\ truthy (Some fees) = Some fees.
Proof.
  destruct b as [[c|] [t|] [g|] [sd|] [[|du|du]|] [[|fe|fe]|]];
    cbn; try discriminate; intros _; repeat eexists.
Qed.

Lemma renewal_lacks_field_false (b : RenewBody.t) :
  renewal_lacks_field b = false ->
  exists startDate duration endDate fees gymId,
    b = RenewBody.mk (Some startDate) (Some duration) (Some endDate) (Some fees)
          (Some gymId) (RenewBody.paymentMode b) (RenewBody.transactionDate b)
    /\ truthy (Some duration) = Some duration
    /\ truthy (Some fees) = Some fees.
Proof.
  destruct b as [[sd|] [[|du|du]|] [ed|] [[|fe|fe]|] [g|] pm td];
    cbn; try discriminate; intros _; repeat eexists.
Qed.

(** X2.  An update or a renewal that has its required fields but names, by
    a well-formed id, an assignment that does not exist answers 404
    "Assignment not found." and writes nothing.  When the [:id] of the
    request is no ObjectId at all, the query throws a CastError instead: the
    answer is 500 with the error, and again nothing is written. *)
Theorem unknown_assignment_404 (now : Date) (s : Store) :
  (forall req : Request AssignmentBody.t,
     lacks_field (body req) = false ->
     match params_id req with
     | Some id =>
         findById Assignment._id id (assignments s) = None ->
         updateAssignment now req s
         = (s, json_error 404 "Assignment not found.")
     | None =>
         updateAssignment now req s = (s, json_exn (CastError "_id"))
         /\ status_of (json_exn (CastError "_id")) = 500
     end)
  /\ (forall req : Request RenewBody.t,
        renewal_lacks_field (body req) = false ->
        match params_id req with
        | Some id =>
            findById Assignment._id id (assignments s) = None ->
            renewAssignment now req s
            = (s, json_error 404 "Assignment not found.")
        | None =>
            renewAssignment now req s = (s, json_exn (CastError "_id"))
            /\ status_of (json_exn (CastError "_id")) = 500
        end).
Proof.
  split; intros req Hfields.
  - destruct (lacks_field_false _ Hfields)
      as (cid & tid & gid & sd & du & fe & Hb & Hdu & Hfe).
    unfold Controller.updateAssignment. rewrite Hb.
    cbn [AssignmentBody.customerId AssignmentBody.trainerId
         AssignmentBody.gymId AssignmentBody.startDate AssignmentBody.duration
         AssignmentBody.fees].
    rewrite Hdu, Hfe. destruct (params_id req) as [id|].
    + intros Hid. run. proj.
      rewrite updateById_missing by exact Hid. rewrite Hid. proj.
      now rewrite set_assignments_same.
    + split; reflexivity.
  - destruct (renewal_lacks_field_false _ Hfields)
      as (sd & du & ed & fe & gid & Hb & Hdu & Hfe).
    unfold Controller.renewAssignment. rewrite Hb.
    cbn [RenewBody.startDate RenewBody.duration RenewBody.endDate
         RenewBody.fees RenewBody.gymId].
    rewrite Hdu, Hfe. destruct (params_id req) as [id|].
    + intros Hid. run. proj.
      rewrite updateById_missing by exact Hid. rewrite Hid. proj.
      now rewrite set_assignments_same.
    + split; reflexivity.
Qed.

Lemma option_map_add_0 (x : option Z) : option_map (fun t => t + 0) x = x.
Proof. destruct x; cbn; [f_equal; lia|reflexivity]. Qed.

Ltac totals_leaf :=
  cbn [snd fst succeeded status_of Z.leb Z.ltb Z.compare Pos.compare
       Pos.compare_cont andb];
  first
    [ discriminate
    | intros _; unfold totalSpentOf; proj;
      rewrite ?totalSpentOf_set_personalTrainer; reflexivity ].

(** An operation that does not complete successfully leaves every total as
    it was. *)
Lemma failure_keeps_totals (op : Op) (s : Store) (id : ObjectId) :
  succeeded (snd (run LocalTZA toLocaleDateString validAssignment
                    validTransaction op s)) = false ->
  totalSpentOf id (fst (run LocalTZA toLocaleDateString validAssignment
                          validTransaction op s))
  = totalSpentOf id s.
Proof.
  destruct op as [now req|now req|now req|req]; cbn [run].
  - unfold Controller.createAssignment. open_assignment_request req.
    destruct cid, tid, gid, sd, (truthy du), (truthy fe); walk; totals_leaf.
  - unfold Controller.updateAssignment. open_assignment_request req.
    destruct cid, tid, gid, sd, (truthy du), (truthy fe); walk; totals_leaf.
  - unfold Controller.renewAssignment. open_renew_request req.
    destruct sd, (truthy du), ed, (truthy fe), gid; walk; totals_leaf.
  - unfold deleteAssignment. walk; totals_leaf.
Qed.

(** X3.  The [totalSpent] of a customer changes only when a create or a
    renew completes successfully: after any operation, whatever its outcome,
    it is the total before plus the fee charged to that customer if the
    operation succeeded.  A failed operation, an update and a delete never
    change a total, though a failed create or renew may already have written
    the assignment and the invoice. *)
Theorem totalSpent_after (op : Op) (s : Store) (id : ObjectId) :
  let after := run LocalTZA toLocaleDateString validAssignment validTransaction
                 op s in
  totalSpentOf id (fst after)
  = option_map (fun t => t + (if succeeded (snd after)
                              then charged_to id op s else 0))
      (totalSpentOf id s).
Proof.
  cbv zeta.
  destruct (succeeded (snd (run _ _ _ _ op s))) eqn:Hok.
  - eapply run_totalSpent; [apply surjective_pairing|exact Hok].
  - rewrite option_map_add_0. now apply failure_keeps_totals.
Qed.

Lemma findById_snoc {A : Type} (id_of : A -> ObjectId) (l : list A) (d : A) :
  (forall d', In d' l -> id_of d' <> id_of d) ->
  findById id_of (id_of d) (l ++ [d]) = Some d
  /\ deleteById id_of (id_of d) (l ++ [d]) = l.
Proof.
  unfold findById. induction l as [|x r IH]; intros H; cbn.
  - now rewrite N.eqb_refl.
  - destruct (N.eqb_spec (id_of x) (id_of d)) as [E|E].
    + exfalso. exact (H x (or_introl eq_refl) E).
    + destruct IH as [IH1 IH2]; [intros d' Hd'; apply H; now right|].
      split; [exact IH1|now rewrite IH2].
Qed.

(** X4.  A create does not undo what it has written when a later step
    fails.  With the required fields present, the assignment is in the store
    afterwards exactly when it validated, whatever the response.  In
    particular negative fees, which the required-fields check lets through,
    are refused by the [min] bound of the invoice: the response is the 500 of
    that validation error, the assignment stays, and no invoice or
    transaction is written.  The customer's [personalTrainer] snapshot is
    overwritten all the same, by the assignment found under the new id with
    its trainer populated: when the id is not in use, a customer of that id
    carries the snapshot of the new assignment afterwards, whatever it
    carried before, and the other customers are as they were. *)
Theorem create_keeps_assignment_on_failure (now : Date)
    (req : Request AssignmentBody.t) (s : Store)
    (customerId trainerId gymId : ObjectId) (startDate : Date)
    (duration fees : Z) :
  body req = AssignmentBody.mk (Some customerId) (Some trainerId) (Some gymId)
               (Some startDate) (Some duration) (Some fees) ->
  duration <> 0 -> fees <> 0 ->
  let a := Assignment.mk (nextId s) customerId trainerId gymId startDate
             duration (endDate_of_start LocalTZA startDate duration) fees in
  let after := createAssignment now req s in
  assignments (fst after)
  = (if validAssignment a then assignments s ++ [a] else assignments s)
  /\ (validAssignment a = true -> fees < 0 ->
      let snapshot :=
        option_map (fun a' => Populated.mk a' Unpopulated
                                (populate_trainer true s a'))
          (findById Assignment._id (nextId s) (assignments s ++ [a])) in
      snd after = json_exn (ValidationError "Invoice")
      /\ customers (fst after)
         = updateById Customer._id customerId
             (Customer.set_personalTrainer snapshot) (customers s)
      /\ ((forall b, In b (assignments s) -> Assignment._id b <> nextId s) ->
          snapshot
          = Some (Populated.mk a Unpopulated (populate_trainer true s a))
          /\ (forall c,
                findById Customer._id customerId (customers s) = Some c ->
                findById Customer._id customerId (customers (fst after))
                = Some (Customer.set_personalTrainer
                          (Some (Populated.mk a Unpopulated
                                   (populate_trainer true s a))) c))
          /\ (forall id, id <> customerId ->
                findById Customer._id id (customers (fst after))
                = findById Customer._id id (customers s)))
      /\ invoices (fst after) = invoices s
      /\ transactions (fst after) = transactions s).
Proof.
  intros Hb Hdu Hfe a after. subst a after.
  unfold Controller.createAssignment. rewrite Hb.
  cbn [AssignmentBody.customerId AssignmentBody.trainerId AssignmentBody.gymId
       AssignmentBody.startDate AssignmentBody.duration AssignmentBody.fees].
  rewrite !truthy_nonzero by assumption. run.
  destruct (validAssignment _) eqn:Hva.
  - run. rewrite InvoiceModelFacts.save_new by reflexivity. cbv zeta.
    split.
    + walk; reflexivity.
    + intros _ Hneg.
      replace (InvoiceModel.validFields _) with false.
      2:{ symmetry. unfold InvoiceModel.validFields. cbn [Invoice.amount].
          destruct (Z.leb_spec 0 fees); [lia|reflexivity]. }
      cbn [negb fst snd]. proj. unfold populate_trainer. proj.
      split; [reflexivity|]. split; [reflexivity|].
      split; [|split; reflexivity].
      intros Hfresh.
      match goal with
      | |- context [findById Assignment._id (nextId s) (assignments s ++ [?d])] =>
          destruct (findById_snoc Assignment._id (assignments s) d Hfresh)
            as [Hfound _];
          change (Assignment._id d) with (nextId s) in Hfound
      end.
      rewrite Hfound. cbn [option_map]. split; [reflexivity|]. split.
      * intros c Hc.
        rewrite findById_updateById_same by reflexivity. now rewrite Hc.
      * intros id Hid. rewrite findById_updateById by reflexivity.
        destruct (N.eqb_spec id customerId); [contradiction|reflexivity].
  - run. proj. split; [reflexivity|]. intros H. discriminate H.
Qed.

(** X5.  A renewal does not undo what it has written either.  With the
    required fields present, the stored assignment has the dates, duration
    and fees of the request afterwards, whatever the response.  When the
    customer of the assignment no longer exists, reading the [_id] of the
    populated customer throws: the response is a 500, the assignment keeps
    the new values, and no customer, invoice or transaction is written. *)
Theorem renew_keeps_assignment_on_failure (now : Date)
    (req : Request RenewBody.t) (s : Store) (id : ObjectId)
    (a : Assignment.t) :
  renewal_lacks_field (body req) = false ->
  params_id req = Some id ->
  findById Assignment._id id (assignments s) = Some a ->
  let after := renewAssignment now req s in
  option_map (fun a' => (Some (Assignment.startDate a'),
                         Some (Assignment.duration a'),
                         Some (Assignment.endDate a'),
                         Some (Assignment.fees a')))
    (findById Assignment._id id (assignments (fst after)))
  = Some (RenewBody.startDate (body req), RenewBody.duration (body req),
          RenewBody.endDate (body req), RenewBody.fees (body req))
  /\ (findById Customer._id (Assignment.customerId a) (customers s) = None ->
      snd after
      = json_exn (TypeError "Cannot read properties of null (reading '_id')")
      /\ customers (fst after) = customers s
      /\ invoices (fst after) = invoices s
      /\ transactions (fst after) = transactions s).
Proof.
  intros Hfields Hid Ha after. subst after.
  destruct (renewal_lacks_field_false _ Hfields)
    as (sd & du & ed & fe & gid & Hb & Hdu & Hfe).
  unfold Controller.renewAssignment. rewrite Hb, Hid.
  cbn [RenewBody.startDate RenewBody.duration RenewBody.endDate
       RenewBody.fees RenewBody.gymId RenewBody.paymentMode
       RenewBody.transactionDate].
  rewrite Hdu, Hfe. run. proj.
  rewrite findById_updateById_same by reflexivity. rewrite Ha. proj.
  cbn [Assignment.customerId].
  destruct (findById Customer._id (Assignment.customerId a) (customers s))
    as [c|] eqn:Hc; proj.
  - split; [|discriminate].
    walk; rewrite ?findById_updateById_same by reflexivity; rewrite ?Ha;
      reflexivity.
  - split.
    + rewrite findById_updateById_same by reflexivity. now rewrite Ha.
    + intros _. repeat split.
Qed.

Ltac open_ok :=
  cbn [snd fst succeeded status_of Z.leb Z.ltb Z.compare Pos.compare
       Pos.compare_cont andb].

(** The transaction of a renewal carries the gym of the request. *)
Lemma renew_transaction_gym (now : Date) (req : Request RenewBody.t)
    (s : Store) (pa : option Populated.t) (inv : Invoice.t)
    (txn : Transaction.t) :
  snd (renewAssignment now req s) = json_bundle 200 pa inv txn ->
  Some (Transaction.gymId txn) = RenewBody.gymId (body req).
Proof.
  unfold Controller.renewAssignment. open_renew_request req.
  destruct sd, (truthy du), ed, (truthy fe), gid; walk; cbn [snd];
    try discriminate.
  intros E. injection E as <- <- <-. reflexivity.
Qed.

Lemma In_deleteMany {A : Type} (matches : A -> bool) (l : list A) (d : A) :
  In d l -> matches d = false -> In d (deleteMany matches l).
Proof.
  intros Hin Hm. unfold deleteMany. apply filter_In.
  split; [exact Hin|now rewrite Hm].
Qed.

(** X6.  A renewal bills under the gym of the request, not under the gym of
    the assignment, which it leaves as it is.  When the two differ, the
    invoice and the transaction of a successful renewal are not among the
    records that a later delete of the assignment removes: they stay in the
    store. *)
Theorem renewal_under_other_gym_survives_delete (now : Date)
    (req : Request RenewBody.t) (del : Request unit) (s : Store)
    (id : ObjectId) (a : Assignment.t) (gymId : ObjectId) :
  succeeded (snd (renewAssignment now req s)) = true ->
  params_id req = Some id ->
  findById Assignment._id id (assignments s) = Some a ->
  RenewBody.gymId (body req) = Some gymId ->
  gymId <> Assignment.gymId a ->
  params_id del = params_id req ->
  let s1 := fst (renewAssignment now req s) in
  let s2 := fst (deleteAssignment del s1) in
  exists pa inv txn,
    snd (renewAssignment now req s) = json_bundle 200 (Some pa) inv txn
    /\ Assignment.gymId (Populated.doc pa) = Assignment.gymId a
    /\ Invoice.gymId inv = gymId
    /\ Transaction.gymId txn = gymId
    /\ snd (deleteAssignment del s1)
       = json_message "Assignment deleted successfully."
    /\ In inv (invoices s2)
    /\ In txn (transactions s2).
Proof.
  intros Hok Hpid Ha Hg Hne Hid s1 s2.
  destruct (renewAssignment_done toLocaleDateString validTransaction now req s
              s1 _ (surjective_pairing _) Hok)
    as (id' & sd & du & ed & fe & gid & a' & c & pa & inv & txn & Hpid' & _ & _
        & _ & _ & Hgid & Ha' & _ & Hr & Hdoc & Hasg & _ & Hinv & _ & _ & Hig
        & Htxn & _).
  rewrite Hpid in Hpid'. injection Hpid' as <-.
  rewrite Ha in Ha'. injection Ha' as <-.
  rewrite Hg in Hgid. injection Hgid as <-.
  pose proof (renew_transaction_gym now req s _ _ _ Hr) as Htg.
  rewrite Hg in Htg. injection Htg as Htg.
  exists pa, inv, txn.
  split; [exact Hr|]. split; [now rewrite Hdoc|]. split; [exact Hig|].
  split; [exact Htg|].
  assert (Hfound : findById Assignment._id id (assignments s1)
                   = Some (Populated.doc pa)).
  { rewrite Hasg, findById_updateById_same by reflexivity.
    now rewrite Ha, Hdoc. }
  subst s2. clearbody s1. unfold deleteAssignment. rewrite Hid, Hpid. run.
  rewrite Hfound. run. proj. rewrite Hdoc. cbn [Assignment.customerId Assignment.gymId].
  split; [reflexivity|]. split.
  - apply In_deleteMany; [rewrite Hinv; apply in_or_app; right; now left|].
    unfold isTrainingInvoice. rewrite Hig.
    destruct (N.eqb_spec gymId (Assignment.gymId a)); [contradiction|].
    now rewrite andb_false_r.
  - apply In_deleteMany; [rewrite Htxn; apply in_or_app; right; now left|].
    unfold isTrainingTransaction. rewrite Htg.
    destruct (N.eqb_spec gymId (Assignment.gymId a)); [contradiction|].
    now rewrite andb_false_r.
Qed.

(** The invoice and the transaction of a create are among the records that
    a delete of the assignment looks for. *)
Lemma create_records_match (now : Date) (req : Request AssignmentBody.t)
    (s : Store) (pa : option Populated.t) (inv : Invoice.t)
    (txn : Transaction.t) (customerId gymId : ObjectId) :
  snd (createAssignment now req s) = json_bundle 201 pa inv txn ->
  AssignmentBody.customerId (body req) = Some customerId ->
  AssignmentBody.gymId (body req) = Some gymId ->
  isTrainingInvoice customerId gymId inv = true
  /\ isTrainingTransaction customerId gymId txn = true.
Proof.
  unfold Controller.createAssignment. open_assignment_request req.
  destruct cid, tid, gid, sd, (truthy du), (truthy fe); walk; cbn [snd];
    try discriminate.
  intros E Hc Hg. injection E as <- <- <-.
  injection Hc as ->. injection Hg as ->.
  unfold isTrainingInvoice, isTrainingTransaction.
  cbn [Invoice.customerId Invoice.gymId Invoice.items Transaction.userId
       Transaction.gymId Transaction.transactionType].
  rewrite !N.eqb_refl. split; reflexivity.
Qed.

Lemma deleteMany_snoc {A : Type} (matches : A -> bool) (l : list A) (d : A) :
  matches d = true -> deleteMany matches (l ++ [d]) = deleteMany matches l.
Proof.
  intros H. unfold deleteMany. rewrite filter_app. cbn. rewrite H. cbn.
  apply app_nil_r.
Qed.

(** X7.  Create followed by delete.  When the id that a successful create
    gives to its assignment is not in use, the assignment can be found under
    that id afterwards, and a delete of it succeeds and leaves the
    assignments as they were before the create.  The invoice and the
    transaction of the create are removed, together with every other
    personal-training invoice and transaction of that customer in that gym.
    The [totalSpent] of the customer is not given back: it stays greater by
    the fees. *)
Theorem create_then_delete (now : Date) (req : Request AssignmentBody.t)
    (del : Request unit) (s : Store) :
  succeeded (snd (createAssignment now req s)) = true ->
  (forall a, In a (assignments s) -> Assignment._id a <> nextId s) ->
  params_id del = Some (nextId s) ->
  let s1 := fst (createAssignment now req s) in
  let s2 := fst (deleteAssignment del s1) in
  exists customerId gymId fees a,
    AssignmentBody.customerId (body req) = Some customerId
    /\ AssignmentBody.gymId (body req) = Some gymId
    /\ AssignmentBody.fees (body req) = Some fees
    /\ findById Assignment._id (nextId s) (assignments s1) = Some a
    /\ Assignment.customerId a = customerId
    /\ Assignment.fees a = fees
    /\ snd (deleteAssignment del s1)
       = json_message "Assignment deleted successfully."
    /\ assignments s2 = assignments s
    /\ invoices s2
       = deleteMany (isTrainingInvoice customerId gymId) (invoices s)
    /\ transactions s2
       = deleteMany (isTrainingTransaction customerId gymId) (transactions s)
    /\ forall id,
         totalSpentOf id s2
         = option_map (fun t => t + (if (customerId =? id)%N then fees else 0))
             (totalSpentOf id s).
Proof.
  intros Hok Hfresh Hid s1 s2.
  destruct (createAssignment_done LocalTZA toLocaleDateString validAssignment
              validTransaction now req s s1 _ (surjective_pairing _) Hok)
    as (cid & tid & gid & sd & du & fe & pa & inv & txn & Hbody & Hr & Hasg
        & Hcus & Hinv & _ & _ & _ & Htxn & _).
  destruct (create_records_match now req s pa inv txn cid gid Hr)
    as [Hmi Hmt]; [now rewrite Hbody|now rewrite Hbody|].
  set (a := Assignment.mk (nextId s) cid tid gid sd du
              (endDate_of_start LocalTZA sd du) fe) in *.
  destruct (findById_snoc Assignment._id (assignments s) a Hfresh)
    as [Hfind Hdel].
  cbn [Assignment._id a] in Hfind, Hdel.
  exists cid, gid, fe, a. rewrite Hbody.
  cbn [AssignmentBody.customerId AssignmentBody.gymId AssignmentBody.fees].
  do 3 (split; [reflexivity|]).
  assert (Hfound : findById Assignment._id (nextId s) (assignments s1) = Some a)
    by (now rewrite Hasg).
  split; [now rewrite Hasg|]. do 2 (split; [reflexivity|]).
  subst s2. clearbody s1. unfold deleteAssignment. rewrite Hid. run.
  rewrite Hfound. run. proj. cbn [Assignment.customerId Assignment.gymId a].
  split; [reflexivity|].
  split; [now rewrite Hasg|].
  split; [rewrite Hinv; now apply deleteMany_snoc|].
  split; [rewrite Htxn; now apply deleteMany_snoc|].
  intros id. unfold totalSpentOf. proj. rewrite Hcus.
  now rewrite totalSpentOf_set_personalTrainer, totalSpentOf_inc,
    totalSpentOf_set_personalTrainer.
Qed.

Lemma wellformed_mono (l : list Invoice.t) (n n' : ObjectId) :
  wellformed l n -> (n <= n')%N -> wellformed l n'.
Proof.
  intros (Hid & Hnum & Hall) Hle. repeat split; try assumption.
  eapply Forall_impl; [|exact Hall]. cbn. intros i [H1 H2]. split; [exact H1|lia].
Qed.

Lemma wellformed_snoc (l : list Invoice.t) (n n' : ObjectId) (i : Invoice.t) :
  wellformed l n ->
  (n <= Invoice._id i < n')%N ->
  Invoice.invoiceNumber i <> ""%string ->
  InvoiceModel.numberTaken i l = false ->
  wellformed (l ++ [i]) n'.
Proof.
  intros (Hid & Hnum & Hall) Hi Hne Hfree.
  rewrite Forall_forall in Hall.
  assert (Hids : ~ In (Invoice._id i) (map Invoice._id l)).
  { intros Hin. apply in_map_iff in Hin as (j & Hj & Hin).
    destruct (Hall j Hin) as [_ Hlt]. lia. }
  assert (Hnums : ~ In (Invoice.invoiceNumber i) (map Invoice.invoiceNumber l)).
  { intros Hin. apply in_map_iff in Hin as (j & Hj & Hin).
    unfold InvoiceModel.numberTaken in Hfree.
    assert (existsb (fun j => negb (Invoice._id j =? Invoice._id i)%N
                              && (Invoice.invoiceNumber j
                                  =? Invoice.invoiceNumber i)%string) l = true)
      as Hex; [|congruence].
    apply existsb_exists. exists j. split; [exact Hin|].
    apply andb_true_iff. split.
    - apply negb_true_iff, N.eqb_neq. destruct (Hall j Hin) as [_ Hlt]. lia.
    - now apply String.eqb_eq. }
  repeat split.
  - rewrite map_app. apply NoDup_app; cbn; [exact Hid|repeat constructor; tauto|].
    intros x Hx [<-|[]]. contradiction.
  - rewrite map_app. apply NoDup_app; cbn; [exact Hnum|repeat constructor; tauto|].
    intros x Hx [<-|[]]. contradiction.
  - apply Forall_app. split.
    + apply Forall_forall. intros j Hj. destruct (Hall j Hj). split; [assumption|lia].
    + repeat constructor; [exact Hne|lia].
Qed.

Lemma map_updateById {A B : Type} (id_of : A -> ObjectId) (g : A -> B)
    (id : ObjectId) (f : A -> A) (l : list A) :
  (forall d, In d l -> id_of d = id -> g (f d) = g d) ->
  map g (updateById id_of id f l) = map g l.
Proof.
  induction l as [|d r IH]; intros H; cbn; [reflexivity|].
  destruct (N.eqb_spec (id_of d) id) as [E|E]; cbn.
  - now rewrite (H d (or_introl eq_refl) E).
  - rewrite IH; [reflexivity|]. intros d' Hd'. apply H. now right.
Qed.

Lemma NoDup_map_In {A B : Type} (g : A -> B) (l : list A) (x y : A) :
  NoDup (map g l) -> In x l -> In y l -> g x = g y -> x = y.
Proof.
  induction l as [|d r IH]; cbn; intros Hnd Hx Hy E; [contradiction|].
  apply NoDup_cons_iff in Hnd as [Hd Hnd].
  destruct Hx as [<-|Hx], Hy as [<-|Hy]; try reflexivity.
  - exfalso. apply Hd. rewrite E. now apply in_map.
  - exfalso. apply Hd. rewrite <- E. now apply in_map.
  - now apply IH.
Qed.

Lemma In_updateById {A : Type} (id_of : A -> ObjectId) (id : ObjectId)
    (f : A -> A) (l : list A) (d : A) :
  In d (updateById id_of id f l) ->
  In d l \/ exists d', In d' l /\ id_of d' = id /\ d = f d'.
Proof.
  induction l as [|x r IH]; cbn; [tauto|].
  destruct (N.eqb_spec (id_of x) id) as [E|E]; cbn.
  - intros [<-|H]; [right; exists x; tauto|left; now right].
  - intros [<-|H]; [left; now left|].
    destruct (IH H) as [H'|(d' & H1 & H2 & H3)]; [left; now right|].
    right. exists d'. tauto.
Qed.

Lemma wellformed_replace (l : list Invoice.t) (n : ObjectId)
    (i i' : Invoice.t) :
  wellformed l n -> In i l ->
  Invoice._id i' = Invoice._id i ->
  Invoice.invoiceNumber i' = Invoice.invoiceNumber i ->
  wellformed (updateById Invoice._id (Invoice._id i) (fun _ => i') l) n.
Proof.
  intros (Hid & Hnum & Hall) Hin Hsame Hnumber.
  assert (Hthe : forall d, In d l -> Invoice._id d = Invoice._id i -> d = i)
    by (intros d Hd E; now apply (NoDup_map_In Invoice._id l)).
  repeat split.
  - rewrite map_updateById; [exact Hid|]. intros d Hd E. congruence.
  - rewrite map_updateById; [exact Hnum|]. intros d Hd E.
    rewrite (Hthe d Hd E). exact Hnumber.
  - rewrite Forall_forall in *. intros d Hd.
    apply In_updateById in Hd as [Hd|(d' & Hd' & E & ->)]; [now apply Hall|].
    rewrite Hsame, Hnumber. now apply Hall.
Qed.

Lemma NoDup_map_filter {A B : Type} (g : A -> B) (p : A -> bool) (l : list A) :
  NoDup (map g l) -> NoDup (map g (filter p l)).
Proof.
  induction l as [|d r IH]; cbn; intros H; [constructor|].
  apply NoDup_cons_iff in H as [Hd H].
  destruct (p d); cbn; [|now apply IH].
  constructor; [|now apply IH].
  intros Hin. apply Hd. apply in_map_iff in Hin as (x & Hx & Hin).
  apply filter_In in Hin as [Hin _]. rewrite <- Hx. now apply in_map.
Qed.

Lemma wellformed_deleteMany (l : list Invoice.t) (n : ObjectId)
    (matches : Invoice.t -> bool) :
  wellformed l n -> wellformed (deleteMany matches l) n.
Proof.
  intros (Hid & Hnum & Hall). unfold deleteMany. repeat split.
  - now apply NoDup_map_filter.
  - now apply NoDup_map_filter.
  - rewrite Forall_forall in *. intros d Hd. apply filter_In in Hd as [Hd _].
    now apply Hall.
Qed.

Lemma wellformed_rebilled (l : list Invoice.t) (n : ObjectId) (i : Invoice.t)
    (matches : Invoice.t -> bool) (now due : Date) (amount : Z)
    (items : list InvoiceItem.t) (notes : string) :
  wellformed l n ->
  findOneSorted matches Invoice.createdAt l = Some i ->
  wellformed
    (updateById Invoice._id
       (Invoice._id (Invoice.set_billing amount due items notes i))
       (fun _ => Invoice.set_updatedAt now
                   (InvoiceModel.generateInvoiceNumber l
                      (Invoice.set_billing amount due items notes i)))
       l) n.
Proof.
  intros Hwf Hi. apply findOneSorted_spec in Hi as (Hin & _).
  assert (Hne : Invoice.invoiceNumber i <> ""%string).
  { destruct Hwf as (_ & _ & Hall). rewrite Forall_forall in Hall.
    now apply Hall. }
  rewrite InvoiceModelFacts.generate_when_set by exact Hne.
  change (Invoice._id (Invoice.set_billing amount due items notes i))
    with (Invoice._id i).
  apply wellformed_replace; [exact Hwf|exact Hin|reflexivity|reflexivity].
Qed.

Ltac wellformed_leaf Hwf :=
  unfold invoices_wellformed in *; proj;
  first
    [ apply (wellformed_mono _ _ _ Hwf); lia
    | apply wellformed_deleteMany; exact Hwf
    | match type of Hwf with
      | wellformed (invoices ?s) _ => apply (wellformed_snoc _ (nextId s))
      end;
      [ exact Hwf
      | cbn [Invoice._id Invoice.set_updatedAt Invoice.set_invoiceNumber]; lia
      | cbn [Invoice.invoiceNumber Invoice.set_updatedAt
             Invoice.set_invoiceNumber append]; discriminate
      | eassumption ]
    | eapply wellformed_rebilled; [exact Hwf|eassumption] ].

(** Every operation keeps the invoices well formed, whatever its outcome. *)
Lemma run_wellformed (op : Op) (s : Store) :
  invoices_wellformed s ->
  invoices_wellformed
    (fst (run LocalTZA toLocaleDateString validAssignment validTransaction op s)).
Proof.
  intros Hwf.
  destruct op as [now req|now req|now req|req]; cbn [run].
  - unfold Controller.createAssignment. open_assignment_request req.
    destruct cid, tid, gid, sd, (truthy du), (truthy fe); walk;
      wellformed_leaf Hwf.
  - unfold Controller.updateAssignment. open_assignment_request req.
    destruct cid, tid, gid, sd, (truthy du), (truthy fe); walk;
      wellformed_leaf Hwf.
  - unfold Controller.renewAssignment. open_renew_request req.
    destruct sd, (truthy du), ed, (truthy fe), gid; walk;
      wellformed_leaf Hwf.
  - unfold deleteAssignment. walk; wellformed_leaf Hwf.
Qed.

(** X8.  The operations keep the invoices well formed.  After any sequence
    of creates, updates, renewals and deletes, successful or not, on a store
    whose invoices have different ids below the next id and different,
    non-empty numbers, the invoices still do: no operation stores two
    invoices under one number or one id. *)
Theorem invoices_stay_wellformed (ops : list Op) (s : Store) :
  invoices_wellformed s ->
  invoices_wellformed
    (run_all LocalTZA toLocaleDateString validAssignment validTransaction ops s).
Proof.
  revert s. induction ops as [|op ops IH]; intros s Hwf; cbn; [exact Hwf|].
  apply IH. now apply run_wellformed.
Qed.


Lemma ids_rebilled (l : list Invoice.t) (now due : Date) (amount : Z)
    (items : list InvoiceItem.t) (notes : string) (i : Invoice.t) :
  map Invoice._id
    (updateById Invoice._id
       (Invoice._id (Invoice.set_billing amount due items notes i))
       (fun _ => Invoice.set_updatedAt now
                   (InvoiceModel.generateInvoiceNumber l
                      (Invoice.set_billing amount due items notes i)))
       l)
  = map Invoice._id l.
Proof.
  apply updateById_ids. intros _ _.
  cbn [Invoice._id Invoice.set_updatedAt].
  now destruct (InvoiceModelFacts.generate_fields l
                  (Invoice.set_billing amount due items notes i)) as [-> _].
Qed.

Ltac ids_leaf :=
  repeat split; proj;
  rewrite ?ids_rebilled;
  repeat (rewrite updateById_ids by (intros; assumption || reflexivity));
  try reflexivity;
  try (intros;
       rewrite findById_updateById by reflexivity;
       match goal with
       | |- (if (?c =? ?d)%N then _ else _) = _ =>
           destruct (N.eqb_spec c d); [congruence|reflexivity]
       end).

(** X9.  An update allocates and removes nothing.  Whatever its outcome,
    the four collections hold documents with the same ids in the same order
    afterwards and no id has been used up; and only the customer named in
    the request is written, so the previous customer of an assignment that
    the update moves to another customer keeps its snapshot. *)
Theorem update_allocates_nothing (now : Date)
    (req : Request AssignmentBody.t) (s : Store) :
  let after := fst (updateAssignment now req s) in
  map Assignment._id (assignments after) = map Assignment._id (assignments s)
  /\ map Customer._id (customers after) = map Customer._id (customers s)
  /\ map Invoice._id (invoices after) = map Invoice._id (invoices s)
  /\ map Transaction._id (transactions after)
     = map Transaction._id (transactions s)
  /\ nextId after = nextId s
  /\ forall c,
       AssignmentBody.customerId (body req) <> Some c ->
       findById Customer._id c (customers after)
       = findById Customer._id c (customers s).
Proof.
  cbv zeta. unfold Controller.updateAssignment. open_assignment_request req.
  destruct cid, tid, gid, sd, (truthy du), (truthy fe); walk; ids_leaf.
Qed.

End Outcomes.

(** X10.  The generator does not look for a free number.  When the invoice
    created last has the [k]-th number, with [k + 1] below 2^53 so that the
    hook's addition on doubles is exact, and another stored invoice already
    has the next number, saving a new invoice without a number fails with
    the duplicate-key error of the unique index and writes nothing; as the
    store is unchanged, so does every later attempt. *)
Theorem generator_stuck_behind_taken_number (now : Date) (this li other : Invoice.t)
    (k : N) (s : Store) :
  Invoice.invoiceNumber this = ""%string ->
  InvoiceModel.validFields this = true ->
  InvoiceModel.findLast (invoices s) = Some li ->
  Invoice.invoiceNumber li = InvoiceModel.number_of k ->
  (k + 1 < 2 ^ 53)%N ->
  In other (invoices s) ->
  Invoice.invoiceNumber other = InvoiceModel.number_of (k + 1) ->
  Invoice._id other <> Invoice._id this ->
  forall later : Date,
    InvoiceModel.save now true this s = (s, Throw (DuplicateKeyError "Invoice"))
    /\ InvoiceModel.save later true this
         (fst (InvoiceModel.save now true this s))
       = (s, Throw (DuplicateKeyError "Invoice")).
Proof.
  intros Hempty Hfields Hlast Hli Hk Hin Hother Hid later.
  assert (Hsave : forall t,
            InvoiceModel.save t true this s
            = (s, Throw (DuplicateKeyError "Invoice"))).
  { intros t. rewrite InvoiceModelFacts.save_new by exact Hempty. cbv zeta.
    rewrite Hfields, Hlast, (InvoiceModelFacts.nextNumber_after li k Hli Hk).
    cbn [negb]. rewrite InvoiceModelFacts.String_of_number_exact by exact Hk.
    replace (InvoiceModel.numberTaken _ (invoices s)) with true; [reflexivity|].
    symmetry. unfold InvoiceModel.numberTaken. apply existsb_exists.
    exists other. split; [exact Hin|].
    cbn [Invoice._id Invoice.invoiceNumber Invoice.set_updatedAt
         Invoice.set_invoiceNumber].
    rewrite Hother, String.eqb_refl, andb_true_r.
    apply negb_true_iff, N.eqb_neq. exact Hid. }
  split; [apply Hsave|]. rewrite Hsave. apply Hsave.
Qed.

(** ** Facts about queries with a filter *)

Section FilteredFacts.

Context {A : Type}.
Variable matches : A -> bool.

Lemma findOne_In (l : list A) (d : A) :
  findOne matches l = Some d -> In d l /\ matches d = true.
Proof. apply find_some. Qed.

Lemma findOne_None (l : list A) (d : A) :
  findOne matches l = None -> In d l -> matches d = false.
Proof. intros H Hd. exact (find_none _ _ H d Hd). Qed.

Lemma findOne_none_of (l : list A) :
  (forall d, In d l -> matches d = false) -> findOne matches l = None.
Proof.
  induction l as [|d r IH]; intros H; cbn; [reflexivity|].
  rewrite (H d (or_introl eq_refl)). apply IH. intros d' Hd'. apply H.
  now right.
Qed.

Lemma updateOne_keeps (f : A -> A) (l : list A) (d : A) :
  In d l -> matches d = false -> In d (updateOne matches f l).
Proof.
  induction l as [|x r IH]; cbn; [tauto|]. intros [->|H] Hd.
  - rewrite Hd. now left.
  - destruct (matches x); [now right|]. right. now apply IH.
Qed.

Lemma deleteOne_keeps (l : list A) (d : A) :
  In d l -> matches d = false -> In d (deleteOne matches l).
Proof.
  induction l as [|x r IH]; cbn; [tauto|]. intros [->|H] Hd.
  - rewrite Hd. now left.
  - destruct (matches x); [exact H|]. right. now apply IH.
Qed.

Lemma deleteOne_snoc (l : list A) (d : A) :
  (forall x, In x l -> matches x = false) -> matches d = true ->
  deleteOne matches (l ++ [d]) = l.
Proof.
  induction l as [|x r IH]; intros H Hd; cbn.
  - now rewrite Hd.
  - rewrite (H x (or_introl eq_refl)). f_equal. apply IH; [|exact Hd].
    intros y Hy. apply H. now right.
Qed.

Lemma findOne_snoc (l : list A) (d : A) :
  (forall x, In x l -> matches x = false) -> matches d = true ->
  findOne matches (l ++ [d]) = Some d.
Proof.
  induction l as [|x r IH]; intros H Hd; cbn.
  - now rewrite Hd.
  - rewrite (H x (or_introl eq_refl)). apply IH; [|exact Hd].
    intros y Hy. apply H. now right.
Qed.

(** The document that [findOneAndUpdate] changes is the one [findOne]
    finds. *)
Lemma In_updateOne (f : A -> A) (l : list A) (d : A) :
  findOne matches l = Some d -> In (f d) (updateOne matches f l).
Proof.
  induction l as [|x r IH]; cbn; [discriminate|].
  destruct (matches x); [intros [= ->]; now left|]. intros H. right.
  now apply IH.
Qed.

Lemma updateOne_In (f : A -> A) (l : list A) (d : A) :
  In d (updateOne matches f l) ->
  In d l \/ exists d', findOne matches l = Some d' /\ d = f d'.
Proof.
  induction l as [|x r IH]; cbn; [tauto|].
  destruct (matches x) eqn:E; cbn.
  - intros [<-|H]; [right; now exists x|left; now right].
  - intros [<-|H]; [left; now left|].
    destruct (IH H) as [H'|H']; [left; now right|now right].
Qed.

Lemma deleteOne_In (l : list A) (d : A) :
  In d (deleteOne matches l) -> In d l.
Proof.
  induction l as [|x r IH]; cbn; [tauto|].
  destruct (matches x); [now right|]. intros [<-|H]; [now left|].
  right. now apply IH.
Qed.

Lemma map_updateOne {B : Type} (g : A -> B) (f : A -> A) (l : list A) :
  (forall d, g (f d) = g d) -> map g (updateOne matches f l) = map g l.
Proof.
  intros H. induction l as [|x r IH]; cbn; [reflexivity|].
  destruct (matches x); cbn; [now rewrite H|now rewrite IH].
Qed.

End FilteredFacts.

(** ** Facts about the booking routes *)

Section BookingFacts.

Import BookingModel BookingRoutes.

Open Scope string_scope.

Lemma required_for_at (t : string) (x : option string) :
  required_for t (Some t) x = required_string x.
Proof. unfold required_for, type_is. now rewrite String.eqb_refl. Qed.

(** A body that the schema accepts passes the checks of the route. *)
Lemma valid_not_refused (now : Date) (id user gym : ObjectId)
    (b : BookingBody.t) :
  validBooking (create now id user gym b) = true -> refusal b = None.
Proof.
  unfold validBooking, create, refusal.
  destruct b as [u g c ty st sta en ci cn ti tn ei en' no cb pr cu pm].
  cbn [Booking.customerId Booking.type Booking.status Booking.startTime
       Booking.endTime Booking.classId Booking.className Booking.trainerId
       Booking.trainerName Booking.equipmentId Booking.equipmentName
       Booking.price Booking.currency Booking.paymentMode
       BookingBody.type BookingBody.classId BookingBody.trainerId
       BookingBody.equipmentId BookingBody.startTime BookingBody.endTime
       BookingBody.price].
  rewrite !andb_true_iff.
  intros [[[[[[[[[[[[[_ _] _] Hs] He] Hci] _] Hti] _] Hei] _] Hp] _] _].
  unfold required_for in Hci, Hti, Hei.
  destruct (type_is "class" ty); [rewrite Hci|]; cbn [negb andb];
  destruct (type_is "personal_training" ty); [rewrite Hti| |rewrite Hti|];
    cbn [negb andb];
  destruct (type_is "equipment" ty); try rewrite Hei; cbn [negb andb];
  rewrite Hs, He; cbn [negb orb];
  destruct pr as [p|]; try discriminate; now rewrite Hp.
Qed.

(** X11.  [POST /] of the booking routes stores a booking exactly when the
    schema accepts the document made of the body: the checks of the route
    refuse nothing that the schema would accept, they only turn some of its
    500 answers into 400.  The stored booking belongs to the gym and the
    user of the session, whatever [userId], [gymId] and [createdBy] the body
    names; a refused request, 400 or 500, leaves the bookings as they
    were. *)
Theorem post_stores_what_schema_accepts (now : Date) (req : GymRequest)
    (db : Database) :
  let doc := create now (nextId (store db)) (gym_user req) (gym_gymId req)
               (gym_body req) in
  let after := post now req db in
  if validBooking doc
  then exists saved,
         snd after = reply_booking 201 (plain saved)
         /\ bookings (fst after) = (bookings db ++ [saved])%list
         /\ saved = set_updatedAt now doc
         /\ Booking.userId saved = gym_user req
         /\ Booking.gymId saved = gym_gymId req
         /\ Booking.createdBy saved = gym_user req
  else bookings (fst after) = bookings db
       /\ reply_status (snd after)
          = (if present (refusal (gym_body req)) then 400 else 500)%Z.
Proof.
  cbv zeta. unfold post.
  destruct (validBooking _) eqn:Hv.
  - rewrite (valid_not_refused _ _ _ _ _ Hv). cbv beta iota zeta. rewrite ?Hv.
    eexists. repeat split.
  - destruct (refusal (gym_body req)); [split; reflexivity|].
    cbv beta iota zeta. rewrite ?Hv. split; reflexivity.
Qed.

Lemma later_asym (a b : Booking.t) : later a b = true -> later b a = false.
Proof.
  unfold later.
  destruct (Booking.startTime a), (Booking.startTime b); try reflexivity;
    try discriminate.
  intros H. apply Z.ltb_lt in H. apply Z.ltb_ge. lia.
Qed.

Lemma not_later_trans (a b c : Booking.t) :
  later b a = false -> later c b = false -> later c a = false.
Proof.
  unfold later.
  destruct (Booking.startTime a), (Booking.startTime b),
    (Booking.startTime c); try reflexivity; try discriminate.
  intros H1 H2. apply Z.ltb_ge in H1, H2. apply Z.ltb_ge. lia.
Qed.

Lemma insert_sorted_perm (b : Booking.t) (l : list Booking.t) :
  Permutation (insert_sorted b l) (b :: l).
Proof.
  induction l as [|x r IH]; cbn; [reflexivity|].
  destruct (later x b); [|reflexivity].
  rewrite IH. apply perm_swap.
Qed.

Lemma sort_perm (l : list Booking.t) : Permutation (sort_startTime_desc l) l.
Proof.
  induction l as [|x r IH]; cbn; [constructor|].
  rewrite insert_sorted_perm. now constructor.
Qed.

Lemma insert_sorted_sorted (b : Booking.t) (l : list Booking.t) :
  StronglySorted (fun x y => later y x = false) l ->
  StronglySorted (fun x y => later y x = false) (insert_sorted b l).
Proof.
  induction l as [|x r IH]; cbn; intros H.
  - repeat constructor.
  - apply StronglySorted_inv in H as [Hr Hx].
    destruct (later x b) eqn:E.
    + constructor; [now apply IH|].
      rewrite Forall_forall in *. intros y Hy.
      apply (Permutation_in _ (insert_sorted_perm b r)) in Hy as [<-|Hy].
      * now apply later_asym.
      * now apply Hx.
    + constructor; [now constructor|].
      constructor; [exact E|].
      rewrite Forall_forall in *. intros y Hy.
      apply (not_later_trans b x y); [exact E|now apply Hx].
Qed.

Lemma sort_sorted (l : list Booking.t) :
  StronglySorted (fun x y => later y x = false) (sort_startTime_desc l).
Proof.
  induction l as [|x r IH]; cbn; [constructor|].
  now apply insert_sorted_sorted.
Qed.

(** X12.  [GET /] of the booking routes answers with the bookings of the
    gym of the session and no others: each of them once, each with its
    customer populated, and no booking before one that starts later. *)
Theorem get_all_lists_the_gym (req : GymRequest) (db : Database) :
  exists views,
    get_all req db = (db, reply_bookings views)
    /\ Permutation (map view_doc views)
         (filter (in_gym (gym_gymId req)) (bookings db))
    /\ StronglySorted (fun x y => later y x = false) (map view_doc views)
    /\ Forall (fun v => Booking.gymId (view_doc v) = gym_gymId req
                        /\ In (view_doc v) (bookings db)
                        /\ v = populate db (view_doc v))
         views.
Proof.
  eexists. split; [reflexivity|].
  rewrite map_map. cbn [populate view_doc]. rewrite map_id.
  split; [apply sort_perm|]. split; [apply sort_sorted|].
  rewrite Forall_forall. intros v Hv. apply in_map_iff in Hv as (b & <- & Hb).
  apply (Permutation_in _ (sort_perm _)) in Hb.
  apply filter_In in Hb as [Hb Hg]. apply N.eqb_eq in Hg.
  cbn [populate view_doc]. tauto.
Qed.

Lemma other_gym_not_this (id gym : ObjectId) (b : Booking.t) :
  Booking.gymId b <> gym -> is_booking id gym b = false.
Proof.
  intros H. unfold is_booking. apply andb_false_iff. right.
  now apply N.eqb_neq.
Qed.

(** X13.  No booking route removes or changes a booking of another gym:
    whatever the method, the request and its outcome, a booking that belongs
    to a gym other than that of the session is in the collection afterwards
    as it was. *)
Theorem other_gyms_bookings_stay (r : Route) (req : GymRequest)
    (db : Database) (b : Booking.t) :
  In b (bookings db) ->
  Booking.gymId b <> gym_gymId req ->
  In b (bookings (fst (router r req db))).
Proof.
  intros Hb Hg.
  pose proof (fun id => other_gym_not_this id _ _ Hg) as Hn.
  destruct r as [| |now|now|]; cbn [router].
  - exact Hb.
  - unfold get_one. destruct (gym_params_id req); [|exact Hb].
    now destruct (findOne _ _).
  - unfold post. destruct (refusal _); [exact Hb|].
    destruct (validBooking _); cbn; [|exact Hb].
    apply in_or_app. now left.
  - unfold put. destruct (gym_params_id req) as [id|]; [|exact Hb].
    cbv zeta. destruct (findOne _ _); [|exact Hb]. cbn.
    apply updateOne_keeps; [exact Hb|apply Hn].
  - unfold delete. destruct (gym_params_id req) as [id|]; [|exact Hb].
    cbv zeta. destruct (findOne _ _); [|exact Hb]. cbn.
    apply deleteOne_keeps; [exact Hb|apply Hn].
Qed.

(** X14.  A booking is out of reach of the other gyms.  When the [:id] of
    the request is an ObjectId and every booking with that id belongs to
    another gym than that of the session, [GET /:id], [PUT /:id] and
    [DELETE /:id] answer 404 "Booking not found" and write nothing.  When
    the [:id] is no ObjectId, the query throws and the three routes answer
    500, each with the message of its [catch], and write nothing either. *)
Theorem other_gyms_booking_not_found (now : Date) (req : GymRequest)
    (db : Database) :
  (forall id,
     gym_params_id req = Some id ->
     (forall b, In b (bookings db) -> Booking._id b = id ->
                Booking.gymId b <> gym_gymId req) ->
     let not_found := (db, reply_message 404 false "Booking not found" None) in
     get_one req db = not_found
     /\ put now req db = not_found
     /\ delete req db = not_found)
  /\ (gym_params_id req = None ->
      get_one req db
      = (db, reply_message 500 false "Error fetching booking" None)
      /\ put now req db
         = (db, reply_message 500 false "Error updating booking" None)
      /\ delete req db
         = (db, reply_message 500 false "Error deleting booking" None)).
Proof.
  split.
  - intros id Hid H.
    assert (Hnone : findOne (is_booking id (gym_gymId req)) (bookings db)
                    = None).
    { apply findOne_none_of. intros b Hb. unfold is_booking.
      destruct (N.eqb_spec (Booking._id b) id) as [E|E]; [|reflexivity].
      cbn [andb]. apply N.eqb_neq. now apply H. }
    cbv zeta. unfold get_one, put, delete. rewrite Hid. cbv zeta.
    now rewrite Hnone.
  - intros Hid. unfold get_one, put, delete. rewrite Hid. repeat split.
Qed.

Lemma the_booking (l : list Booking.t) (b : Booking.t) :
  NoDup (map Booking._id l) -> In b l ->
  findOne (is_booking (Booking._id b) (Booking.gymId b)) l = Some b.
Proof.
  intros Hnd Hb.
  destruct (findOne _ l) as [d|] eqn:E.
  - apply findOne_In in E as [Hd Hm]. unfold is_booking in Hm.
    apply andb_prop in Hm as [Hm _]. apply N.eqb_eq in Hm.
    f_equal. now apply (NoDup_map_In Booking._id l).
  - apply (findOne_None _ _ b) in E; [|exact Hb].
    unfold is_booking in E. now rewrite !N.eqb_refl in E.
Qed.

Lemma no_booking (l : list Booking.t) (b : Booking.t) (gym : ObjectId) :
  NoDup (map Booking._id l) -> In b l -> Booking.gymId b <> gym ->
  findOne (is_booking (Booking._id b) gym) l = None.
Proof.
  intros Hnd Hb Hg. apply findOne_none_of. intros d Hd. unfold is_booking.
  destruct (N.eqb_spec (Booking._id d) (Booking._id b)) as [E|E];
    [|reflexivity].
  rewrite (NoDup_map_In Booking._id l d b Hnd Hd Hb E). cbn [andb].
  now apply N.eqb_neq.
Qed.

(** X15.  [PUT /:id] sets the paths of the body as they come, [gymId]
    among them.  With ids that are not shared, a gym that puts a [gymId] other
    than its own on one of its bookings gets 200 and no longer finds the
    booking: [GET /:id] answers 404 to it, and answers the gym named in the
    body with the booking. *)
Theorem put_moves_booking_to_another_gym (now : Date) (req : GymRequest)
    (db : Database) (b : Booking.t) (gym' : ObjectId) :
  NoDup (map Booking._id (bookings db)) ->
  In b (bookings db) ->
  gym_params_id req = Some (Booking._id b) ->
  Booking.gymId b = gym_gymId req ->
  BookingBody.gymId (gym_body req) = Some gym' ->
  gym' <> gym_gymId req ->
  let moved := update now (gym_body req) b in
  let db' := fst (put now req db) in
  snd (put now req db) = reply_booking 200 (plain moved)
  /\ Booking.gymId moved = gym'
  /\ get_one req db' = (db', reply_message 404 false "Booking not found" None)
  /\ forall req',
       gym_params_id req' = gym_params_id req ->
       gym_gymId req' = gym' ->
       get_one req' db' = (db', reply_booking 200 (populate db' moved)).
Proof.
  intros Hnd Hb Hid Hgym Hbody Hother.
  pose proof (the_booking _ _ Hnd Hb) as Hfind. rewrite Hgym in Hfind.
  cbv zeta. unfold put. rewrite Hid. cbv zeta. rewrite Hfind. cbn [fst snd].
  set (l' := updateOne _ _ (bookings db)).
  assert (Hnd' : NoDup (map Booking._id l'))
    by (unfold l'; now rewrite map_updateOne).
  assert (Hin : In (update now (gym_body req) b) l')
    by now apply In_updateOne.
  assert (Hg : Booking.gymId (update now (gym_body req) b) = gym')
    by (cbn; now rewrite Hbody).
  split; [reflexivity|]. split; [exact Hg|]. split.
  - unfold get_one. cbn [bookings set_bookings use_id set_store].
    rewrite Hid.
    change (Booking._id b) with (Booking._id (update now (gym_body req) b)).
    rewrite (no_booking _ _ _ Hnd' Hin); [reflexivity|]. now rewrite Hg.
  - intros req' Hid' Hgym'. unfold get_one.
    cbn [bookings set_bookings use_id set_store].
    rewrite Hid', Hgym'. rewrite <- Hg at 1.
    change (Booking._id b) with (Booking._id (update now (gym_body req) b)).
    now rewrite (the_booking _ _ Hnd' Hin).
Qed.

Lemma negative_price_refused (b : BookingBody.t) (p : Q) :
  BookingBody.price b = Some p -> Qle_bool 0 p = false ->
  present (refusal b) = true.
Proof.
  intros Hp Hneg. unfold refusal. rewrite Hp, Hneg. cbn [negb].
  repeat match goal with
         | |- context [if ?c then _ else _] => destruct c
         end; reflexivity.
Qed.

(** X16.  [PUT /:id] does not validate.  A negative price, which [POST /]
    refuses with 400, is stored by a [PUT] on a booking of the gym: the
    answer is 200 and the booking then in the collection has that price and
    no longer passes the validation of the schema. *)
Theorem put_stores_what_post_refuses (now : Date) (req : GymRequest)
    (db : Database) (b : Booking.t) (p : Q) :
  NoDup (map Booking._id (bookings db)) ->
  In b (bookings db) ->
  gym_params_id req = Some (Booking._id b) ->
  Booking.gymId b = gym_gymId req ->
  BookingBody.price (gym_body req) = Some p ->
  Qle_bool 0 p = false ->
  fst (post now req db) = db
  /\ reply_status (snd (post now req db)) = 400
  /\ exists stored,
       snd (put now req db) = reply_booking 200 (plain stored)
       /\ In stored (bookings (fst (put now req db)))
       /\ Booking._id stored = Booking._id b
       /\ Booking.price stored = Some p
       /\ validBooking stored = false.
Proof.
  intros Hnd Hb Hid Hgym Hp Hneg.
  pose proof (negative_price_refused _ _ Hp Hneg) as Href.
  assert (Hpost : exists m,
            post now req db = (db, reply_message 400 false m None)).
  { unfold post. destruct (refusal (gym_body req)) as [m|]; [|discriminate].
    now exists m. }
  destruct Hpost as [m ->]. split; [reflexivity|]. split; [reflexivity|].
  pose proof (the_booking _ _ Hnd Hb) as Hfind. rewrite Hgym in Hfind.
  unfold put. rewrite Hid. cbv zeta. rewrite Hfind.
  cbn [fst snd bookings set_bookings use_id set_store].
  eexists. split; [reflexivity|]. split; [now apply In_updateOne|].
  split; [reflexivity|]. split; [cbn; now rewrite Hp|].
  unfold validBooking.
  cbn [Booking.price update assign_opt]. rewrite Hp. cbn [assign_opt].
  rewrite Hneg. now rewrite !andb_false_r.
Qed.


(** X17.  A booking that [POST /] has stored under an id not in use is
    found by [GET /:id] of the same gym, with its customer populated, and
    [DELETE /:id] removes it again: the bookings are then those from before
    the [POST], and a second [DELETE] answers 404. *)
Theorem post_get_delete (now : Date) (req req' : GymRequest) (db : Database) :
  reply_status (snd (post now req db)) = 201 ->
  (forall b, In b (bookings db) -> Booking._id b <> nextId (store db)) ->
  gym_params_id req' = Some (nextId (store db)) ->
  gym_gymId req' = gym_gymId req ->
  let db1 := fst (post now req db) in
  let db2 := fst (delete req' db1) in
  exists saved,
    snd (post now req db) = reply_booking 201 (plain saved)
    /\ get_one req' db1 = (db1, reply_booking 200 (populate db1 saved))
    /\ snd (delete req' db1)
       = reply_message 200 true "Booking deleted successfully" None
    /\ bookings db2 = bookings db
    /\ delete req' db2 = (db2, reply_message 404 false "Booking not found" None).
Proof.
  intros Hok Hfresh Hid Hgym. cbv zeta.
  unfold post in *.
  destruct (refusal (gym_body req)); [discriminate Hok|].
  cbv beta iota zeta in *.
  destruct (validBooking _); [|discriminate Hok].
  cbn [fst snd bookings set_bookings use_id set_store].
  set (saved := set_updatedAt now _).
  assert (Hsaved : is_booking (nextId (store db)) (gym_gymId req') saved = true).
  { unfold is_booking. rewrite Hgym. cbn. now rewrite !N.eqb_refl. }
  assert (Hold : forall x, In x (bookings db) ->
                   is_booking (nextId (store db)) (gym_gymId req') x = false).
  { intros x Hx. unfold is_booking.
    apply andb_false_iff. left. apply N.eqb_neq. now apply Hfresh. }
  exists saved. split; [reflexivity|].
  unfold get_one, delete. rewrite Hid.
  cbn [fst snd bookings set_bookings use_id set_store].
  rewrite (findOne_snoc _ _ _ Hold Hsaved).
  cbn [fst snd bookings set_bookings use_id set_store].
  rewrite (deleteOne_snoc _ _ _ Hold Hsaved).
  rewrite (findOne_none_of _ _ Hold).
  repeat split.
Qed.

Lemma NoDup_map_deleteOne {A B : Type} (matches : A -> bool) (g : A -> B)
    (l : list A) :
  NoDup (map g l) -> NoDup (map g (deleteOne matches l)).
Proof.
  induction l as [|x r IH]; cbn; intros H; [constructor|].
  apply NoDup_cons_iff in H as [Hx H].
  destruct (matches x); [exact H|]. cbn. constructor; [|now apply IH].
  intros Hin. apply Hx. apply in_map_iff in Hin as (y & <- & Hy).
  apply in_map. now apply deleteOne_In in Hy.
Qed.

(** X18.  The booking routes keep the ids apart.  If the bookings have
    different ids, all below the next fresh id, they still do after any
    booking route, whatever the request and its outcome; this is what makes
    the [_id] of the filters name one booking. *)
Theorem booking_ids_stay_unique (r : Route) (req : GymRequest)
    (db : Database) :
  bookings_wellformed db -> bookings_wellformed (fst (router r req db)).
Proof.
  intros [Hnd Hlt].
  destruct r as [| |now|now|]; cbn [router].
  - now split.
  - unfold get_one. destruct (gym_params_id req); [|now split].
    destruct (findOne _ _); now split.
  - unfold post. destruct (refusal _); [now split|]. cbv zeta.
    assert (Hup : Forall (fun b => (Booking._id b < nextId (store db) + 1)%N)
                    (bookings db))
      by (eapply Forall_impl; [|exact Hlt]; cbn; intros; lia).
    destruct (validBooking _);
      unfold bookings_wellformed;
      cbn [fst bookings store set_bookings use_id set_store nextId set_nextId];
      [|now split].
    split.
    + rewrite map_app. cbn [map set_updatedAt create Booking._id].
      apply NoDup_app; [exact Hnd|repeat constructor; intros []|].
      intros x Hx [<-|[]]. apply in_map_iff in Hx as (b & Hb & Hin).
      rewrite Forall_forall in Hlt. specialize (Hlt b Hin). lia.
    + apply Forall_app. split; [exact Hup|].
      repeat constructor. cbn. lia.
  - unfold put. destruct (gym_params_id req); [|now split]. cbv zeta.
    destruct (findOne _ _); [|now split].
    unfold bookings_wellformed. cbn [fst bookings store set_bookings].
    split; [now rewrite map_updateOne|].
    rewrite Forall_forall in *. intros b Hb.
    apply updateOne_In in Hb as [Hb|(b' & Hb' & ->)]; [now apply Hlt|].
    apply findOne_In in Hb' as [Hb' _]. exact (Hlt b' Hb').
  - unfold delete. destruct (gym_params_id req); [|now split]. cbv zeta.
    destruct (findOne _ _); [|now split].
    unfold bookings_wellformed. cbn [fst bookings store set_bookings].
    split; [now apply NoDup_map_deleteOne|].
    rewrite Forall_forall in *. intros b Hb. apply Hlt.
    now apply deleteOne_In in Hb.
Qed.

End BookingFacts.

(** ** Facts about the member routes *)

Section MemberFacts.

Variable construct : MemberFields.t -> MemberFields.t.
Variable validMember : MemberFields.t -> bool.
Variable assignFields : MemberFields.t -> MemberFields.t -> MemberFields.t.
Variable validUpdate : MemberFields.t -> bool.
Variable admits : list Member.t -> Member.t -> bool.

Local Abbreviation member_router :=
  (MemberRoutes.router construct validMember assignFields validUpdate admits).

Import MemberRoutes.

Open Scope string_scope.

Lemma filter_updateOne_other {A : Type} (matches keep : A -> bool)
    (f : A -> A) (l : list A) :
  (forall d, matches d = true -> keep d = false /\ keep (f d) = false) ->
  filter keep (updateOne matches f l) = filter keep l.
Proof.
  intros H. induction l as [|x r IH]; cbn; [reflexivity|].
  destruct (matches x) eqn:E; cbn.
  - destruct (H x E) as [-> ->]. reflexivity.
  - now rewrite IH.
Qed.

Lemma filter_deleteOne_other {A : Type} (matches keep : A -> bool)
    (l : list A) :
  (forall d, matches d = true -> keep d = false) ->
  filter keep (deleteOne matches l) = filter keep l.
Proof.
  intros H. induction l as [|x r IH]; cbn; [reflexivity|].
  destruct (matches x) eqn:E; cbn.
  - now rewrite (H x E).
  - now rewrite IH.
Qed.

Lemma member_of_other_gym (id gym gym' : ObjectId) (m : Member.t) :
  gym' <> gym -> is_member id gym' m = true -> of_gym gym m = false.
Proof.
  intros Hg Hm. unfold is_member in Hm. apply andb_prop in Hm as [_ Hm].
  apply N.eqb_eq in Hm. unfold of_gym. apply N.eqb_neq. congruence.
Qed.

(** X19.  The member routes keep the gyms apart.  Whatever the method, the
    request and its outcome, the members of every gym other than that of the
    account are afterwards exactly those from before, unchanged and in the
    same order: no request adds a member to another gym, changes one or
    removes one. *)
Theorem members_of_other_gyms_untouched (r : Route) (req : MemberRequest)
    (db : Database) (gym : ObjectId) :
  member_gymId req <> Some gym ->
  filter (of_gym gym) (members (fst (member_router r req db)))
  = filter (of_gym gym) (members db).
Proof.
  intros Hg.
  destruct r; cbn [router]; unfold get_all, get_one, post, put, delete, with_gym;
    (destruct (member_gymId req) as [gym'|]; [|reflexivity]);
    assert (Hne : gym' <> gym) by congruence; cbv zeta.
  - reflexivity.
  - destruct (member_params_id req); [|reflexivity].
    now destruct (findOne _ _).
  - destruct (validMember _ && admits _ _);
      cbn [fst members set_members use_id set_store]; [|reflexivity].
    rewrite filter_app. cbn [filter]. unfold of_gym at 2.
    cbn [Member.gymId]. apply N.eqb_neq in Hne. rewrite Hne. apply app_nil_r.
  - destruct (member_params_id req); [|reflexivity].
    destruct (validUpdate _); [|reflexivity].
    destruct (findOne _ _); [|reflexivity].
    destruct (admits _ _); [|reflexivity].
    cbn [fst members set_members]. apply filter_updateOne_other.
    intros d Hd. split; [now apply (member_of_other_gym _ _ _ _ Hne Hd)|].
    change (of_gym gym (Member.mk (Member._id d) (Member.gymId d)
                          (assignFields (member_body req) (Member.fields d))))
      with (of_gym gym d).
    now apply (member_of_other_gym _ _ _ _ Hne Hd).
  - destruct (member_params_id req); [|reflexivity].
    destruct (findOne _ _); [|reflexivity].
    cbn [fst members set_members]. apply filter_deleteOne_other.
    intros d Hd. now apply (member_of_other_gym _ _ _ _ Hne Hd).
Qed.

(** X20.  A member never changes gym.  Whatever the method, the request and
    its outcome, a member in the collection afterwards has the id and the
    gym of a member from before, or is the member that a [POST] has just
    created, under the fresh id and in the gym of the account: the body of a
    request cannot name or change the gym. *)
Theorem member_keeps_its_gym (r : Route) (req : MemberRequest)
    (db : Database) (m' : Member.t) :
  In m' (members (fst (member_router r req db))) ->
  (exists m, In m (members db)
             /\ Member._id m = Member._id m'
             /\ Member.gymId m = Member.gymId m')
  \/ (r = POST
      /\ Member._id m' = nextId (store db)
      /\ member_gymId req = Some (Member.gymId m')).
Proof.
  assert (Hsame : In m' (members db) ->
                  exists m, In m (members db)
                            /\ Member._id m = Member._id m'
                            /\ Member.gymId m = Member.gymId m')
    by (intros H; now exists m').
  destruct r; cbn [router]; unfold get_all, get_one, post, put, delete, with_gym;
    (destruct (member_gymId req) as [gym'|]; [|now left; apply Hsame]);
    cbv zeta.
  - left. now apply Hsame.
  - destruct (member_params_id req); [|left; now apply Hsame].
    destruct (findOne _ _); left; now apply Hsame.
  - destruct (validMember _ && admits _ _);
      cbn [fst members set_members use_id set_store]; [|left; now apply Hsame].
    intros H. apply in_app_or in H as [H|[<-|[]]]; [left; now apply Hsame|].
    right. repeat split.
  - destruct (member_params_id req); [|left; now apply Hsame].
    destruct (validUpdate _); [|left; now apply Hsame].
    destruct (findOne _ _); [|left; now apply Hsame].
    destruct (admits _ _); [|left; now apply Hsame].
    cbn [fst members set_members]. intros H. left.
    apply updateOne_In in H as [H|(d & Hd & ->)]; [now apply Hsame|].
    apply findOne_In in Hd as [Hd _]. now exists d.
  - destruct (member_params_id req); [|left; now apply Hsame].
    destruct (findOne _ _); [|left; now apply Hsame].
    cbn [fst members set_members]. intros H. left.
    apply Hsame. now apply deleteOne_In in H.
Qed.

End MemberFacts.

(** ** Facts about the customer view *)

Section ViewCustomerModalFacts.

Import ViewCustomerModal.

Open Scope string_scope.

Lemma ceil_div_le (x y n : Z) : 0 < y -> (ceil_div x y <= n <-> x <= n * y).
Proof.
  intros Hy. unfold ceil_div.
  pose proof (Z.div_mod (- x) y ltac:(lia)) as Hdm.
  pose proof (Z.mod_pos_bound (- x) y Hy) as Hm.
  split; intros H; nia.
Qed.

(** X21.  The badge of a membership counts started days.  For a valid end
    date the status is "Membership Expired" only when the end lies a full
    day or more in the past, and "Expiring Today" when it lies less than a
    day in the past or is now: during the first day after its end a
    membership that the same view treats as expired is shown as "Expiring
    Today".  An end date that is no date is shown as "Active". *)
Theorem membership_status_by_started_days (today time : Date) :
  let shown := status (getMembershipStatus today (ValidDate time)) in
  (shown = "Membership Expired" <-> time - today <= - msPerDay)
  /\ (shown = "Expiring Today" <-> - msPerDay < time - today <= 0)
  /\ (shown = "Active" <-> 10 * msPerDay < time - today)
  /\ (today - msPerDay < time < today ->
      isMembershipExpired today (ValidDate time) = true
      /\ shown = "Expiring Today")
  /\ status (getMembershipStatus today InvalidDate) = "Active".
Proof.
  cbv zeta. unfold getMembershipStatus, isMembershipExpired.
  set (d := ceil_div (time - today) msPerDay).
  assert (Hday : 0 < msPerDay) by reflexivity.
  pose proof (ceil_div_le (time - today) msPerDay (-1) Hday) as H1.
  pose proof (ceil_div_le (time - today) msPerDay 0 Hday) as H0.
  pose proof (ceil_div_le (time - today) msPerDay 10 Hday) as H10.
  fold d in H1, H0, H10.
  destruct (Z.ltb_spec d 0) as [L|L]; [|destruct (Z.eqb_spec d 0) as [E|E];
    [|destruct (Z.leb_spec d 10) as [T|T]]]; cbn [status append];
    repeat split; try discriminate; intros; try lia;
    apply Z.ltb_lt; lia.
Qed.

End ViewCustomerModalFacts.

(** ** Facts about the add-customer form *)


(** ** The properties on the sample data *)

Lemma unknown_assignment_404_witness :
  lacks_field (body Sample.update_asha) = false
  /\ params_id Sample.update_asha = Some 100%N
  /\ findById Assignment._id 100%N (assignments Sample.store) = None
  /\ Sample.updateAssignment (JSDate.ymd 2024 1 1) Sample.update_asha
       Sample.store
     = (Sample.store, json_error 404 "Assignment not found.")
  /\ Sample.renewAssignment (JSDate.ymd 2024 3 10)
       (Sample.request_malformed (body Sample.renew_asha)) Sample.store1
     = (Sample.store1, json_exn (CastError "_id")).
Proof.
  destruct (unknown_assignment_404 Sample.LocalTZA Sample.toLocaleDateString
              Sample.accept (JSDate.ymd 2024 1 1) Sample.store)
    as [Hupdate _].
  destruct (unknown_assignment_404 Sample.LocalTZA Sample.toLocaleDateString
              Sample.accept (JSDate.ymd 2024 3 10) Sample.store1)
    as [_ Hrenew].
  split; [reflexivity|]. split; [reflexivity|]. split; [reflexivity|].
  split.
  - exact (Hupdate Sample.update_asha eq_refl eq_refl).
  - exact (proj1 (Hrenew (Sample.request_malformed (body Sample.renew_asha))
                    eq_refl)).
Defined.

Lemma create_keeps_assignment_on_failure_witness :
  let after := Sample.createAssignment (JSDate.ymd 2024 0 10)
                 Examples.create_negative Sample.store in
  List.length (assignments (fst after)) = 1%nat
  /\ snd after = json_exn (ValidationError "Invoice")
  /\ option_map Customer.personalTrainer
       (findById Customer._id 1%N (customers Sample.store))
     = Some None
  /\ option_map
       (fun c => option_map Populated.doc (Customer.personalTrainer c))
       (findById Customer._id 1%N (customers (fst after)))
     = Some (Some (Assignment.mk 100 1 3 7 (JSDate.ymd 2024 0 15) 3
                     (JSDate.ymd 2024 3 14) (-500)))
  /\ invoices (fst after) = []
  /\ transactions (fst after) = [].
Proof.
  destruct (create_keeps_assignment_on_failure Sample.LocalTZA
              Sample.toLocaleDateString Sample.accept Sample.accept
              (JSDate.ymd 2024 0 10) Examples.create_negative Sample.store
              1%N 3%N 7%N (JSDate.ymd 2024 0 15) 3 (-500) eq_refl
              ltac:(discriminate) ltac:(discriminate))
    as [Hasg Hfail].
  destruct (Hfail eq_refl eq_refl) as (Hres & _ & Hsnap & Hinv & Htxn).
  destruct (Hsnap ltac:(intros b [])) as (_ & Hcus & _).
  cbv zeta. split; [|split; [exact Hres|]].
  - unfold Sample.createAssignment. rewrite Hasg. reflexivity.
  - split; [reflexivity|]. split; [|split; [exact Hinv|exact Htxn]].
    unfold Sample.createAssignment. rewrite (Hcus Sample.asha eq_refl).
    vm_compute. reflexivity.
Defined.

Lemma renew_keeps_assignment_on_failure_witness :
  renewal_lacks_field (body Sample.renew_asha) = false
  /\ findById Assignment._id 100%N (assignments Examples.store_orphan)
     = Some Examples.assignment_orphan
  /\ findById Customer._id 5%N (customers Examples.store_orphan) = None
  /\ let after := Sample.renewAssignment (JSDate.ymd 2024 3 10)
                    Sample.renew_asha Examples.store_orphan in
     snd after
     = json_exn (TypeError "Cannot read properties of null (reading '_id')")
     /\ option_map Assignment.fees
          (findById Assignment._id 100%N (assignments (fst after)))
        = Some 450
     /\ invoices (fst after) = [].
Proof.
  split; [reflexivity|]. split; [reflexivity|]. split; [reflexivity|].
  destruct (renew_keeps_assignment_on_failure Sample.toLocaleDateString
              Sample.accept (JSDate.ymd 2024 3 10) Sample.renew_asha
              Examples.store_orphan 100%N Examples.assignment_orphan
              eq_refl eq_refl eq_refl)
    as [Hkept Hfail].
  destruct (Hfail eq_refl) as (Hres & _ & Hinv & _).
  cbv zeta. split; [exact Hres|]. split; [|exact Hinv].
  unfold Sample.renewAssignment.
  destruct (findById Assignment._id 100%N _) as [a'|];
    cbn [option_map] in *; [|discriminate Hkept].
  injection Hkept as _ _ _ Hfees. now rewrite Hfees.
Defined.

Lemma renewal_under_other_gym_survives_delete_witness :
  let s1 := fst (Sample.renewAssignment (JSDate.ymd 2024 3 10)
                   Examples.renew_elsewhere Sample.store1) in
  let s2 := fst (deleteAssignment (Sample.request 100 None tt) s1) in
  succeeded (snd (Sample.renewAssignment (JSDate.ymd 2024 3 10)
                    Examples.renew_elsewhere Sample.store1)) = true
  /\ findById Assignment._id 100%N (assignments Sample.store1)
     = Some Sample.assignment_asha
  /\ exists inv txn,
       Invoice.gymId inv = 8%N
       /\ In inv (invoices s2)
       /\ In txn (transactions s2).
Proof.
  cbv zeta.
  assert (Hok : succeeded (snd (Sample.renewAssignment (JSDate.ymd 2024 3 10)
                                  Examples.renew_elsewhere Sample.store1))
                = true) by (vm_compute; reflexivity).
  assert (Ha : findById Assignment._id 100%N (assignments Sample.store1)
               = Some Sample.assignment_asha) by (vm_compute; reflexivity).
  split; [exact Hok|]. split; [exact Ha|].
  destruct (renewal_under_other_gym_survives_delete Sample.toLocaleDateString
              Sample.accept (JSDate.ymd 2024 3 10) Examples.renew_elsewhere
              (Sample.request 100 None tt) Sample.store1 100%N
              Sample.assignment_asha 8%N Hok eq_refl Ha eq_refl
              ltac:(discriminate) eq_refl)
    as (pa & inv & txn & _ & _ & Hg & _ & _ & Hinv & Htxn).
  exists inv, txn. split; [exact Hg|]. split; [exact Hinv|exact Htxn].
Defined.

Lemma create_then_delete_witness :
  let s1 := fst (Sample.createAssignment (JSDate.ymd 2024 0 10)
                   Sample.create_asha Sample.store) in
  let s2 := fst (deleteAssignment (Sample.request 100 None tt) s1) in
  succeeded (snd (Sample.createAssignment (JSDate.ymd 2024 0 10)
                    Sample.create_asha Sample.store)) = true
  /\ assignments s2 = assignments Sample.store
  /\ totalSpentOf 1 s2 = Some 500.
Proof.
  cbv zeta.
  assert (Hok : succeeded (snd (Sample.createAssignment (JSDate.ymd 2024 0 10)
                                  Sample.create_asha Sample.store)) = true)
    by (vm_compute; reflexivity).
  split; [exact Hok|].
  destruct (create_then_delete Sample.LocalTZA Sample.toLocaleDateString
              Sample.accept Sample.accept (JSDate.ymd 2024 0 10)
              Sample.create_asha (Sample.request 100 None tt) Sample.store
              Hok ltac:(intros a []) eq_refl)
    as (cid & gid & fe & a & Hc & _ & Hf & _ & _ & _ & _ & Hasg & _ & _ & Htot).
  split; [exact Hasg|].
  injection Hc as <-. injection Hf as <-.
  unfold Sample.createAssignment. rewrite Htot. reflexivity.
Defined.

Lemma invoices_stay_wellformed_witness :
  invoices_wellformed Sample.store
  /\ invoices_wellformed Sample.store3.
Proof.
  assert (H : invoices_wellformed Sample.store)
    by (repeat split; constructor).
  split; [exact H|].
  exact (invoices_stay_wellformed Sample.LocalTZA Sample.toLocaleDateString
           Sample.accept Sample.accept Sample.two_then_delete Sample.store H).
Defined.

Lemma update_allocates_nothing_witness :
  let after := fst (Sample.updateAssignment (JSDate.ymd 2024 1 1)
                      Examples.update_to_bina Sample.store1) in
  findById Customer._id 1%N (customers after)
  = findById Customer._id 1%N (customers Sample.store1)
  /\ map Invoice._id (invoices after) = [101%N]
  /\ nextId after = 103%N.
Proof.
  destruct (update_allocates_nothing Sample.LocalTZA Sample.toLocaleDateString
              Sample.accept (JSDate.ymd 2024 1 1) Examples.update_to_bina
              Sample.store1)
    as (_ & _ & Hinv & _ & Hnext & Hcus).
  cbv zeta. unfold Sample.updateAssignment.
  split; [apply Hcus; discriminate|].
  split; [rewrite Hinv|rewrite Hnext]; vm_compute; reflexivity.
Defined.

Lemma generator_stuck_behind_taken_number_witness :
  InvoiceModel.findLast (invoices Examples.store_out_of_order)
  = Some (Examples.invoice 51 "INV00001" 2000)
  /\ InvoiceModel.save 3000 true (snd (Sample.new_invoice 52 7 3000))
       Examples.store_out_of_order
     = (Examples.store_out_of_order, Throw (DuplicateKeyError "Invoice")).
Proof.
  assert (H : InvoiceModel.findLast (invoices Examples.store_out_of_order)
              = Some (Examples.invoice 51 "INV00001" 2000))
    by (vm_compute; reflexivity).
  split; [exact H|].
  apply (generator_stuck_behind_taken_number 3000
           (snd (Sample.new_invoice 52 7 3000))
           (Examples.invoice 51 "INV00001" 2000)
           (Examples.invoice 50 "INV00002" 1000) 1 Examples.store_out_of_order
           eq_refl eq_refl H eq_refl eq_refl (or_introl eq_refl) eq_refl
           ltac:(discriminate) 3000).
Defined.

Lemma other_gyms_bookings_stay_witness :
  In Examples.yoga (bookings Examples.db)
  /\ In Examples.yoga
       (bookings (fst (BookingRoutes.delete
                         (Examples.gym_request 8 20 Examples.empty_body)
                         Examples.db))).
Proof.
  assert (H : In Examples.yoga (bookings Examples.db)) by (left; reflexivity).
  split; [exact H|].
  apply (other_gyms_bookings_stay BookingRoutes.DELETE
           (Examples.gym_request 8 20 Examples.empty_body) Examples.db
           Examples.yoga H).
  discriminate.
Defined.

Lemma other_gyms_booking_not_found_witness :
  BookingRoutes.put (JSDate.ymd 2024 0 12)
    (Examples.gym_request 8 20 Examples.negative_price) Examples.db
  = (Examples.db, reply_message 404 false "Booking not found" None)
  /\ BookingRoutes.delete
       (Examples.gym_request_malformed 7 Examples.empty_body) Examples.db
     = (Examples.db, reply_message 500 false "Error deleting booking" None).
Proof.
  split.
  - apply (proj1 (other_gyms_booking_not_found (JSDate.ymd 2024 0 12)
                    (Examples.gym_request 8 20 Examples.negative_price)
                    Examples.db) 20%N eq_refl).
    intros b [<-|[<-|[]]]; [discriminate|]. intros H. discriminate H.
  - apply (proj2 (other_gyms_booking_not_found (JSDate.ymd 2024 0 12)
                    (Examples.gym_request_malformed 7 Examples.empty_body)
                    Examples.db) eq_refl).
Defined.

Lemma sample_ids : NoDup (map Booking._id (bookings Examples.db)).
Proof.
  repeat constructor; cbn; [intros [H|[]]; discriminate H|tauto].
Defined.

Lemma booking_ids_stay_unique_witness :
  bookings_wellformed Examples.db
  /\ bookings_wellformed
       (fst (BookingRoutes.post (JSDate.ymd 2024 0 12)
               (Examples.gym_request 7 0 Examples.class_body) Examples.db)).
Proof.
  assert (H : bookings_wellformed Examples.db)
    by (split; [exact sample_ids|repeat constructor]).
  split; [exact H|].
  exact (booking_ids_stay_unique (BookingRoutes.POST (JSDate.ymd 2024 0 12))
           (Examples.gym_request 7 0 Examples.class_body) Examples.db H).
Defined.

Lemma put_moves_booking_to_another_gym_witness :
  let db' := fst (BookingRoutes.put (JSDate.ymd 2024 0 12)
                    (Examples.gym_request 7 20 Examples.to_gym_8)
                    Examples.db) in
  reply_status (snd (BookingRoutes.put (JSDate.ymd 2024 0 12)
                       (Examples.gym_request 7 20 Examples.to_gym_8)
                       Examples.db)) = 200
  /\ BookingRoutes.get_one (Examples.gym_request 7 20 Examples.empty_body) db'
     = (db', reply_message 404 false "Booking not found" None)
  /\ reply_status
       (snd (BookingRoutes.get_one
               (Examples.gym_request 8 20 Examples.empty_body) db')) = 200.
Proof.
  destruct (put_moves_booking_to_another_gym (JSDate.ymd 2024 0 12)
              (Examples.gym_request 7 20 Examples.to_gym_8) Examples.db
              Examples.yoga 8%N sample_ids (or_introl eq_refl) eq_refl eq_refl
              eq_refl ltac:(discriminate))
    as (Hput & _ & Hgone & Hthere).
  cbv zeta. split; [now rewrite Hput|]. split; [exact Hgone|].
  now rewrite (Hthere (Examples.gym_request 8 20 Examples.empty_body)
                 eq_refl eq_refl).
Defined.

Lemma put_stores_what_post_refuses_witness :
  let req := Examples.gym_request 7 20 Examples.negative_price in
  reply_status (snd (BookingRoutes.post (JSDate.ymd 2024 0 12) req Examples.db))
  = 400
  /\ exists stored,
       In stored
         (bookings (fst (BookingRoutes.put (JSDate.ymd 2024 0 12) req
                           Examples.db)))
       /\ Booking._id stored = 20%N
       /\ BookingModel.validBooking stored = false.
Proof.
  destruct (put_stores_what_post_refuses (JSDate.ymd 2024 0 12)
              (Examples.gym_request 7 20 Examples.negative_price) Examples.db
              Examples.yoga (inject_Z (-50)) sample_ids (or_introl eq_refl)
              eq_refl eq_refl eq_refl eq_refl)
    as (_ & Hpost & stored & _ & Hin & Hid & _ & Hbad).
  cbv zeta. split; [exact Hpost|].
  exists stored. split; [exact Hin|]. split; [exact Hid|exact Hbad].
Defined.

Lemma post_get_delete_witness :
  let post := BookingRoutes.post (JSDate.ymd 2024 0 12)
                (Examples.gym_request 7 0 Examples.class_body) Examples.db in
  let req' := Examples.gym_request 7 100 Examples.empty_body in
  reply_status (snd post) = 201
  /\ reply_status (snd (BookingRoutes.get_one req' (fst post))) = 200
  /\ bookings (fst (BookingRoutes.delete req' (fst post)))
     = bookings Examples.db.
Proof.
  cbv zeta.
  assert (Hok : reply_status
                  (snd (BookingRoutes.post (JSDate.ymd 2024 0 12)
                          (Examples.gym_request 7 0 Examples.class_body)
                          Examples.db)) = 201)
    by (vm_compute; reflexivity).
  split; [exact Hok|].
  destruct (post_get_delete (JSDate.ymd 2024 0 12)
              (Examples.gym_request 7 0 Examples.class_body)
              (Examples.gym_request 7 100 Examples.empty_body) Examples.db Hok)
    as (saved & _ & Hget & _ & Hback & _).
  - intros b [<-|[<-|[]]]; discriminate.
  - reflexivity.
  - reflexivity.
  - split; [now rewrite Hget|exact Hback].
Defined.

Lemma members_of_other_gyms_untouched_witness :
  filter (MemberRoutes.of_gym 8)
    (members (fst (Examples.member_router MemberRoutes.DELETE
                     (mkMemberRequest (Some 7%N) (Some 31%N) Examples.no_fields)
                     Examples.db)))
  = [Examples.deepak].
Proof.
  unfold Examples.member_router.
  rewrite members_of_other_gyms_untouched; [reflexivity|discriminate].
Defined.

Lemma member_keeps_its_gym_witness :
  let req := mkMemberRequest (Some 7%N) (Some 31%N) (Examples.named "Dev") in
  In Examples.deepak
    (members (fst (Examples.member_router MemberRoutes.PUT req Examples.db)))
  /\ exists m, In m (members Examples.db)
               /\ Member._id m = 31%N /\ Member.gymId m = 8%N.
Proof.
  cbv zeta.
  assert (H : In Examples.deepak
                (members (fst (Examples.member_router MemberRoutes.PUT
                                 (mkMemberRequest (Some 7%N) (Some 31%N)
                                    (Examples.named "Dev"))
                                 Examples.db))))
    by (right; left; reflexivity).
  split; [exact H|].
  destruct (member_keeps_its_gym _ _ _ _ _ _ _ _ _ H) as [Hold|(Hpost & _)];
    [exact Hold|discriminate Hpost].
Defined.

Lemma membership_status_by_started_days_witness :
  let today := JSDate.ymd 2024 0 15 in
  let time := JSDate.ymd 2024 0 15 - 3600000 in
  ViewCustomerModal.isMembershipExpired today (ViewCustomerModal.ValidDate time)
  = true
  /\ ViewCustomerModal.status
       (ViewCustomerModal.getMembershipStatus today
          (ViewCustomerModal.ValidDate time))
     = "Expiring Today"%string.
Proof.
  cbv zeta.
  apply (membership_status_by_started_days (JSDate.ymd 2024 0 15)
           (JSDate.ymd 2024 0 15 - 3600000)).
  split; reflexivity.
Defined.
